(** * Ax preview API client: trial lifecycle, metric resolution, generation

    A shallow embedding of [ax/preview/api/client.py].  The [Client] keeps an
    optional experiment, an optional generation strategy and an optional
    early-stopping strategy; its methods mutate that state, append to the
    module logger and may raise.  Methods are embedded as computations in a
    state-and-exception monad over [World]; an exception keeps the state
    reached when it was raised, as in Python.

    Candidate generation, early stopping and the construction of search
    spaces are external collaborators: they are taken as an interface
    ([Externals], [Collaborators]) and never inspected. *)

From stdpp Require Import gmap strings list fin_maps.

Open Scope Z_scope.

(** ** External types *)

(** Types the client only passes around.  [float] stands for Python floats;
    no arithmetic is ever done on them here. *)
Class Externals := {
  float : Type;
  SearchSpace : Type;
  ExperimentConfig : Type;
  DatabaseConfig : Type;
  GenerationStrategy : Type;
  BaseEarlyStoppingStrategy : Type;
}.

(** ** Errors and results *)

Inductive Error :=
| UnsupportedError (msg : string)
| AssertionError (msg : string)
| KeyError (key : Z)
| IndexError
| ValueError (msg : string)
| CollaboratorError (msg : string).

Inductive result (A : Type) :=
| Ok (a : A)
| Raise (e : Error).
Arguments Ok {A} a.
Arguments Raise {A} e.

(** ** Trial status *)

(** Modelled from the spec: [TrialStatus] of [ax.core.base_trial], which is
    imported by the client but not part of the sources at hand.  The states
    are those of the trial status state machine (section 4.1). *)
Inductive TrialStatus :=
| CANDIDATE | RUNNING | COMPLETED | FAILED | ABANDONED | EARLY_STOPPED.

#[global] Instance TrialStatus_eq_dec : EqDecision TrialStatus.
Proof. solve_decision. Defined.

Definition is_terminal (s : TrialStatus) : bool :=
  match s with
  | COMPLETED | FAILED | ABANDONED | EARLY_STOPPED => true
  | CANDIDATE | RUNNING => false
  end.

(** ** Metrics and the optimization config *)

(** A metric is known to the client by its [name]; [metric_impl] tells apart
    implementations that share a name (a placeholder and a fetch-capable
    one). *)
Record Metric := { metric_name : string; metric_impl : nat }.

#[global] Instance Metric_eq_dec : EqDecision Metric.
Proof. solve_decision. Defined.

(** The [step] of an observation: a progression, or [None] for the
    not-a-number marker used when no progression is given. *)
Abbreviation Step := (option Z).

Section Model.
Context `{Ext : Externals}.

(** A single objective, which is also the shape of the members of a
    multi-objective. *)
Record SingleObj := { _metric : Metric; minimize : bool }.

(** Modelled from the spec: the class family [Objective],
    [ScalarizedObjective], [MultiObjective] of [ax.core.objective], as the
    three-way tagged union of the data model (section 3).  An
    [isinstance(_, Objective)] test in the client selects [Objective_], an
    [isinstance(_, ScalarizedObjective)] test [ScalarizedObjective], an
    [isinstance(_, MultiObjective)] test [MultiObjective]. *)
Inductive Objective :=
| Objective_ (o : SingleObj)
| ScalarizedObjective (_metrics : list Metric) (weights : list float)
    (scalarized_minimize : bool)
| MultiObjective (_objectives : list SingleObj).

Inductive ComparisonOp := GEQ | LEQ.

Record OutcomeConstraint := {
  oc_metric : Metric;
  oc_op : ComparisonOp;
  oc_bound : float;
  oc_relative : bool;
}.

Record OptimizationConfig := {
  objective : Objective;
  _outcome_constraints : list OutcomeConstraint;
}.

(** ** Arms, trials, experiment *)

Inductive TParameterValue :=
| PInt (z : Z) | PFloat (f : float) | PStr (s : string) | PBool (b : bool).

Inductive TOutcomeValue :=
| Mean (m : float)
| MeanSem (m sem : float).

Record Arm := {
  arm_name : option string;
  parameters : gmap string TParameterValue;
}.

Record ObservationFeatures := { of_parameters : gmap string TParameterValue }.

Record GeneratorRun := { arms : list Arm }.

Record Trial := {
  index : Z;
  arm : option Arm;
  status : TrialStatus;
  (** metric name to its sequence of (step, value) observations *)
  trial_data : gmap string (list (Step * TOutcomeValue));
}.

Record Experiment := {
  search_space : SearchSpace;
  optimization_config : option OptimizationConfig;
  _tracking_metrics : gmap string Metric;
  trials : gmap Z Trial;
  status_quo : option Arm;
}.

Record GenerationStrategyConfig := {
  initialization_budget : option Z;
  initialization_random_seed : option Z;
  min_observed_initialization_trials : option Z;
  allow_exceeding_initialization_budget : bool;
}.

(** ** The client and its world *)

Record Client := {
  _experiment : option Experiment;
  _generation_strategy : option GenerationStrategy;
  _early_stopping_strategy : option BaseEarlyStoppingStrategy;
  _db_config : option DatabaseConfig;
  _random_seed : option Z;
}.

(** Records of [logger.warning]. *)
Inductive LogRecord :=
| MissingMetricsWarning (trial_index : Z) (missing_metrics : gset string)
| MetricAddedAsTrackingWarning (metric : Metric)
| TerminalTrialWarning (trial_index : Z) (current requested : TrialStatus).

(** One invocation of the generation strategy, with the arguments the client
    passed. *)
Record GenRequest := {
  req_pending_observations : list ObservationFeatures;
  req_n : Z;
  req_fixed_features : option ObservationFeatures;
  req_num_trials : Z;
}.

(** The client object, the records written to the module logger and the
    requests sent to the generation strategy, oldest first. *)
Record World := {
  self : Client;
  logged : list LogRecord;
  gs_requests : list GenRequest;
}.

(** ** The state-and-exception monad *)

Definition M (A : Type) : Type := World → World * result A.

#[global] Instance M_ret : MRet M := λ A a w, (w, Ok a).

#[global] Instance M_bind : MBind M := λ A B f m w,
  match m w with
  | (w', Ok a) => f a w'
  | (w', Raise e) => (w', Raise e)
  end.

Definition raise {A} (e : Error) : M A := λ w, (w, Raise e).

Definition get_self : M Client := λ w, (w, Ok (self w)).

Definition put_self (c : Client) : M unit := λ w,
  ({| self := c; logged := logged w; gs_requests := gs_requests w |}, Ok ()).

(** [logger.warning] *)
Definition warning (r : LogRecord) : M unit := λ w,
  ({| self := self w; logged := logged w ++ [r]; gs_requests := gs_requests w |},
   Ok ()).

Definition record_request (r : GenRequest) : M unit := λ w,
  ({| self := self w; logged := logged w; gs_requests := gs_requests w ++ [r] |},
   Ok ()).

(** [pyre_extensions.none_throws] *)
Definition none_throws {A} (o : option A) (msg : string) : M A :=
  match o with
  | Some a => mret a
  | None => raise (AssertionError msg)
  end.

(** Subscript of the trial dictionary, [trials[trial_index]]. *)
Definition getitem (d : gmap Z Trial) (key : Z) : M Trial :=
  match d !! key with
  | Some t => mret t
  | None => raise (KeyError key)
  end.

(** ** Field updates *)

Definition set_status (s : TrialStatus) (t : Trial) : Trial :=
  {| index := index t; arm := arm t; status := s; trial_data := trial_data t |}.

Definition set_trial_data (d : gmap string (list (Step * TOutcomeValue)))
    (t : Trial) : Trial :=
  {| index := index t; arm := arm t; status := status t; trial_data := d |}.

Definition set_trials (ts : gmap Z Trial) (e : Experiment) : Experiment :=
  {| search_space := search_space e;
     optimization_config := optimization_config e;
     _tracking_metrics := _tracking_metrics e;
     trials := ts;
     status_quo := status_quo e |}.

Definition set_optimization_config (oc : option OptimizationConfig)
    (e : Experiment) : Experiment :=
  {| search_space := search_space e;
     optimization_config := oc;
     _tracking_metrics := _tracking_metrics e;
     trials := trials e;
     status_quo := status_quo e |}.

Definition set_tracking_metrics (tm : gmap string Metric) (e : Experiment)
    : Experiment :=
  {| search_space := search_space e;
     optimization_config := optimization_config e;
     _tracking_metrics := tm;
     trials := trials e;
     status_quo := status_quo e |}.

Definition set_status_quo (a : option Arm) (e : Experiment) : Experiment :=
  {| search_space := search_space e;
     optimization_config := optimization_config e;
     _tracking_metrics := _tracking_metrics e;
     trials := trials e;
     status_quo := a |}.

Definition set_experiment_field (e : option Experiment) (c : Client) : Client :=
  {| _experiment := e;
     _generation_strategy := _generation_strategy c;
     _early_stopping_strategy := _early_stopping_strategy c;
     _db_config := _db_config c;
     _random_seed := _random_seed c |}.

Definition set_generation_strategy_field (g : option GenerationStrategy)
    (c : Client) : Client :=
  {| _experiment := _experiment c;
     _generation_strategy := g;
     _early_stopping_strategy := _early_stopping_strategy c;
     _db_config := _db_config c;
     _random_seed := _random_seed c |}.

(** ** Core operations the client calls *)

(** Modelled from the spec: [Trial.mark_completed], [Trial.mark_failed],
    [Trial.mark_abandoned] and [Trial.mark_early_stopped] of [ax.core], which
    are not part of the sources at hand.  Section 4.1: the four outcomes are
    entered from [RUNNING] only and no transition leaves them; section 9:
    each transition operation starts with a guard that turns a call on an
    already terminal trial into a no-op with a warning.  A call on a
    [CANDIDATE] trial is a precondition violation. *)
Definition mark_terminal (requested : TrialStatus) (t : Trial) : M Trial :=
  match status t with
  | RUNNING => mret (set_status requested t)
  | CANDIDATE =>
      raise (ValueError "Can only end a trial that is currently running.")
  | current =>
      warning (TerminalTrialWarning (index t) current requested);;
      mret t
  end.

Definition mark_completed : Trial → M Trial := mark_terminal COMPLETED.
Definition mark_failed : Trial → M Trial := mark_terminal FAILED.
Definition mark_abandoned : Trial → M Trial := mark_terminal ABANDONED.
Definition mark_early_stopped : Trial → M Trial := mark_terminal EARLY_STOPPED.

(** Modelled from the spec: [Trial.mark_running(no_runner_required=True)] of
    [ax.core]; section 4.1: a trial enters [RUNNING] from [CANDIDATE]. *)
Definition mark_running (t : Trial) : M Trial :=
  match status t with
  | CANDIDATE => mret (set_status RUNNING t)
  | _ => raise (ValueError "Can only mark this trial as running once.")
  end.

(** Writing one observation at [step] into a metric's sequence: the value of
    an existing step is overwritten, a new step is appended. *)
Fixpoint write_step (step : Step) (v : TOutcomeValue)
    (obs : list (Step * TOutcomeValue)) : list (Step * TOutcomeValue) :=
  match obs with
  | [] => [(step, v)]
  | (step', v') :: rest =>
      if decide (step' = step) then (step, v) :: rest
      else (step', v') :: write_step step v rest
  end.

Definition merge_record (step : Step)
    (old : option (list (Step * TOutcomeValue))) (new : option TOutcomeValue)
    : option (list (Step * TOutcomeValue)) :=
  match new with
  | Some v => Some (write_step step v (default [] old))
  | None => old
  end.

(** Modelled from the spec: [Trial.update_trial_data] of [ax.core] with
    [combine_with_last_data=True], the only way the client calls it.
    Section 4.3: every record of [raw_data] is merged into the accumulated
    data, combining with what is there; the status is not touched. *)
Definition update_trial_data
    (raw_data : list (Step * gmap string TOutcomeValue)) (t : Trial) : Trial :=
  set_trial_data
    (foldl (λ acc rec, merge (merge_record rec.1) acc rec.2) (trial_data t)
       raw_data) t.

(** Modelled from the spec: [Experiment.lookup_data(trial_indices)] of
    [ax.core]: what has been attached to the listed trials. *)
Definition lookup_data (e : Experiment) (trial_indices : list Z)
    : list (gmap string (list (Step * TOutcomeValue))) :=
  omap (λ i, trial_data <$> trials e !! i) trial_indices.

(** Modelled from the spec: [Data.metric_names], the names with attached
    observations ([presentMetricNames] in section 4.4). *)
Definition metric_names (d : list (gmap string (list (Step * TOutcomeValue))))
    : gset string :=
  ⋃ (dom <$> d).

Definition objective_metrics (o : Objective) : list Metric :=
  match o with
  | Objective_ so => [_metric so]
  | ScalarizedObjective ms _ _ => ms
  | MultiObjective os => _metric <$> os
  end.

(** Modelled from the spec: the keys of [OptimizationConfig.metrics] of
    [ax.core]: the names of the metrics of the objective and of the outcome
    constraints ([requiredMetricNames] in section 4.4). *)
Definition metrics_keys (oc : OptimizationConfig) : gset string :=
  list_to_set (metric_name <$>
    (objective_metrics (objective oc) ++ (oc_metric <$> _outcome_constraints oc))).

(** ** Client methods: experiment access *)

Definition _none_throws_experiment : M Experiment :=
  c ← get_self;
  none_throws (_experiment c)
    "Experiment not set. Please call configure_experiment or load an experiment before utilizing any other methods on the Client.".

(** The experiment is one shared mutable object: a mutation through any
    reference to it is a write to the client's experiment. *)
Definition put_experiment (e : Experiment) : M unit :=
  c ← get_self;
  put_self (set_experiment_field (Some e) c).

(** In-place mutation of the trial object stored under [trial_index]. *)
Definition store_trial (trial_index : Z) (t : Trial) : M unit :=
  e ← _none_throws_experiment;
  put_experiment (set_trials (<[trial_index := t]> (trials e)) e).

(** ** Client methods: marking trial status manually *)

Definition mark_trial_failed (trial_index : Z) : M unit :=
  experiment ← _none_throws_experiment;
  trial ← getitem (trials experiment) trial_index;
  trial' ← mark_failed trial;
  store_trial trial_index trial'.

Definition mark_trial_abandoned (trial_index : Z) : M unit :=
  experiment ← _none_throws_experiment;
  trial ← getitem (trials experiment) trial_index;
  trial' ← mark_abandoned trial;
  store_trial trial_index trial'.

(** ** Client methods: attaching data and completing *)

Definition attach_data (trial_index : Z) (raw_data : gmap string TOutcomeValue)
    (progression : option Z) : M unit :=
  let data_with_progression := [(progression, raw_data)] in
  experiment ← _none_throws_experiment;
  trial ← getitem (trials experiment) trial_index;
  store_trial trial_index (update_trial_data data_with_progression trial).

Definition mark_trial_early_stopped (trial_index : Z)
    (raw_data : gmap string TOutcomeValue) (progression : option Z) : M unit :=
  attach_data trial_index raw_data progression;;
  experiment ← _none_throws_experiment;
  trial ← getitem (trials experiment) trial_index;
  trial' ← mark_early_stopped trial;
  store_trial trial_index trial'.

Definition complete_trial (trial_index : Z)
    (raw_data : option (gmap string TOutcomeValue)) (progression : option Z)
    : M TrialStatus :=
  match raw_data with
  | Some rd => attach_data trial_index rd progression
  | None => mret ()
  end;;
  experiment ← _none_throws_experiment;
  match optimization_config experiment with
  | None =>
      trial ← getitem (trials experiment) trial_index;
      trial' ← mark_completed trial;
      store_trial trial_index trial'
  | Some optimization_config =>
      let trial_data := lookup_data experiment [trial_index] in
      let missing_metrics :=
        metrics_keys optimization_config ∖ metric_names trial_data in
      if decide (size missing_metrics = 0%nat) then
        trial ← getitem (trials experiment) trial_index;
        trial' ← mark_completed trial;
        store_trial trial_index trial'
      else
        warning (MissingMetricsWarning trial_index missing_metrics);;
        mark_trial_failed trial_index
  end;;
  experiment ← _none_throws_experiment;
  trial ← getitem (trials experiment) trial_index;
  mret (status trial).

(** ** Collaborators *)

(** The operations of the external collaborators.  The generation strategy
    is a stateful object: a call returns its next state next to the outcome.
    [GenerationStrategyConfig_default] stands for [GenerationStrategyConfig()],
    whose defaults are declared outside the client. *)
Class Collaborators := {
  experiment_from_config : ExperimentConfig → Experiment;
  GenerationStrategyConfig_default : GenerationStrategyConfig;
  choose_generation_strategy :
    SearchSpace → option OptimizationConfig → option Z → option Z → bool →
    option Z → GenerationStrategy;
  gen_for_multiple_trials_with_multiple_models :
    GenerationStrategy → option Z → Experiment → list ObservationFeatures →
    Z → option ObservationFeatures → Z →
    GenerationStrategy * result (list (list GeneratorRun));
  should_stop_trials_early :
    BaseEarlyStoppingStrategy → gset Z → Experiment →
    result (gmap Z (option string));
}.

Context `{Col : Collaborators}.

Definition lift_result {A} (r : result A) : M A :=
  match r with
  | Ok a => mret a
  | Raise e => raise e
  end.

(** ** Trial creation *)

(** Modelled from the spec: index allocation of [Experiment.new_trial] in
    [ax.core]; section 3: indices are unique and increase from 0. *)
Definition next_index (ts : gmap Z Trial) : Z :=
  foldr (λ kv acc, Z.max (kv.1 + 1) acc) 0 (map_to_list ts).

(** Modelled from the spec: [Experiment.new_trial(generator_run)] of
    [ax.core]: a new single-arm trial, in [CANDIDATE], registered under the
    next index. *)
Definition new_trial (generator_run : GeneratorRun) : M Trial :=
  e ← _none_throws_experiment;
  let trial :=
    {| index := next_index (trials e);
       arm := head (arms generator_run);
       status := CANDIDATE;
       trial_data := ∅ |} in
  put_experiment (set_trials (<[index trial := trial]> (trials e)) e);;
  mret trial.

(** Modelled from the spec: [Experiment.attach_trial(parameterizations,
    arm_names)] of [ax.core]: a new trial for the given arms, moved to
    [RUNNING] at once; its index is returned. *)
Definition Experiment_attach_trial
    (parameterizations : list (gmap string TParameterValue))
    (arm_names : option (list string)) : M Z :=
  let named := λ i p,
    {| arm_name := arm_names ≫= (λ ns, ns !! i); parameters := p |} in
  trial ← new_trial {| arms := imap named parameterizations |};
  trial' ← mark_running trial;
  store_trial (index trial) trial';;
  mret (index trial).

(** Modelled from the spec: [get_pending_observation_features_based_on_
    trial_status] of [ax.core.utils]; section 4.5: the parameterization of
    every trial that is not in a terminal state. *)
Definition pending_features (t : Trial) : option ObservationFeatures :=
  if is_terminal (status t) then None
  else (λ a, {| of_parameters := parameters a |}) <$> arm t.

Definition get_pending_observation_features_based_on_trial_status
    (e : Experiment) : list ObservationFeatures :=
  omap (λ kv : Z * Trial, pending_features kv.2) (map_to_list (trials e)).

(** ** Client methods: configure *)

Definition configure_experiment (experiment_config : ExperimentConfig)
    : M unit :=
  c ← get_self;
  match _experiment c with
  | Some _ =>
      raise (UnsupportedError
        "Experiment already configured. Please create a new Client if you would like a new experiment.")
  | None =>
      put_self (set_experiment_field
                  (Some (experiment_from_config experiment_config)) c)
  end.

Definition set_experiment (experiment : Experiment) : M unit :=
  c ← get_self;
  put_self (set_experiment_field (Some experiment) c).

Definition set_optimization_config_ (oc : OptimizationConfig) : M unit :=
  e ← _none_throws_experiment;
  put_experiment (set_optimization_config (Some oc) e).

Definition configure_generation_strategy
    (generation_strategy_config : GenerationStrategyConfig) : M unit :=
  e ← _none_throws_experiment;
  let generation_strategy :=
    choose_generation_strategy (search_space e) (optimization_config e)
      (initialization_budget generation_strategy_config)
      (min_observed_initialization_trials generation_strategy_config)
      (negb (allow_exceeding_initialization_budget generation_strategy_config))
      (initialization_random_seed generation_strategy_config) in
  c ← get_self;
  put_self (set_generation_strategy_field (Some generation_strategy) c).

Definition _generation_strategy_or_choose : M GenerationStrategy :=
  c ← get_self;
  match _generation_strategy c with
  | None => configure_generation_strategy GenerationStrategyConfig_default
  | Some _ => mret ()
  end;;
  c ← get_self;
  none_throws (_generation_strategy c) "Unexpected `None`".

(** ** Client methods: conduct experiment *)

(** The body of the loop over [generator_runs]. *)
Definition register_generated (generator_run : list GeneratorRun) : M Trial :=
  gr ← match generator_run with
       | [] => raise IndexError
       | g :: _ => mret g
       end;
  trial ← new_trial gr;
  trial' ← mark_running trial;
  store_trial (index trial) trial';;
  mret trial'.

Definition index_and_parameters (trial : Trial)
    : M (Z * gmap string TParameterValue) :=
  a ← none_throws (arm trial) "Unexpected `None`";
  mret (index trial, parameters a).

(** The request [get_next_trials] sends for experiment [e]. *)
Definition gen_request (e : Experiment) (maximum_trials : Z)
    (fixed_parameters : option (gmap string TParameterValue)) : GenRequest :=
  {| req_pending_observations :=
       get_pending_observation_features_based_on_trial_status e;
     req_n := 1;
     req_fixed_features :=
       (λ p, {| of_parameters := p |}) <$> fixed_parameters;
     req_num_trials := maximum_trials |}.

Definition get_next_trials (maximum_trials : Z)
    (fixed_parameters : option (gmap string TParameterValue))
    : M (gmap Z (gmap string TParameterValue)) :=
  experiment ← _none_throws_experiment;
  match optimization_config experiment with
  | None =>
      raise (UnsupportedError
        "OptimizationConfig not set. Please call configure_optimization before generating trials.")
  | Some _ =>
      gs ← _generation_strategy_or_choose;
      experiment ← _none_throws_experiment;
      c ← get_self;
      let pending_observations :=
        get_pending_observation_features_based_on_trial_status experiment in
      let fixed_features :=
        (λ p, {| of_parameters := p |}) <$> fixed_parameters in
      record_request
        {| req_pending_observations := pending_observations;
           req_n := 1;
           req_fixed_features := fixed_features;
           req_num_trials := maximum_trials |};;
      let '(gs', outcome) :=
        gen_for_multiple_trials_with_multiple_models gs (_random_seed c)
          experiment pending_observations 1 fixed_features maximum_trials in
      put_self (set_generation_strategy_field (Some gs') c);;
      generator_runs ← lift_result outcome;
      trials ← mapM register_generated generator_runs;
      entries ← mapM index_and_parameters trials;
      mret (foldl (λ d kv, <[kv.1 := kv.2]> d) ∅ entries)
  end.

(** Truthiness of an optional string: [None] and the empty string are
    falsy. *)
Definition truthy (s : option string) : option string :=
  match s with
  | Some EmptyString | None => None
  | Some n => Some n
  end.

Definition attach_trial (parameters : gmap string TParameterValue)
    (arm_name : option string) : M Z :=
  Experiment_attach_trial [parameters] ((λ n, [n]) <$> truthy arm_name).

Definition attach_baseline (parameters : gmap string TParameterValue)
    (arm_name : option string) : M Z :=
  trial_index ← attach_trial parameters
                  (Some (default "baseline" (truthy arm_name)));
  experiment ← _none_throws_experiment;
  trial ← getitem (trials experiment) trial_index;
  experiment ← _none_throws_experiment;
  put_experiment (set_status_quo (arm trial) experiment);;
  mret trial_index.

(** ** Client methods: early stopping *)

Definition should_stop_trial_early (trial_index : Z) : M bool :=
  c ← get_self;
  match _early_stopping_strategy c with
  | None =>
      raise (UnsupportedError
        "Early stopping strategy not set. Please set an early stopping strategy before calling should_stop_trial_early.")
  | Some strategy =>
      experiment ← _none_throws_experiment;
      es_response ←
        lift_result (should_stop_trials_early strategy {[trial_index]} experiment);
      mret (bool_decide (is_Some (es_response !! trial_index)))
  end.

(** ** Client methods: metric resolution *)

Definition with_metric (metric : Metric) (o : SingleObj) : SingleObj :=
  {| _metric := metric; minimize := minimize o |}.

Definition constraint_with_metric (metric : Metric) (c : OutcomeConstraint)
    : OutcomeConstraint :=
  {| oc_metric := metric; oc_op := oc_op c; oc_bound := oc_bound c;
     oc_relative := oc_relative c |}.

(** The objective part of [_overwrite_metric]: [Some] of the updated
    objective when a slot was overwritten (the method returns), [None] when
    the scan falls through. *)
Definition overwrite_objective (metric : Metric) (o : Objective)
    : option Objective :=
  match o with
  | MultiObjective objectives =>
      match list_find (λ so, metric_name metric = metric_name (_metric so))
              objectives with
      | Some (i, so) =>
          Some (MultiObjective (<[i := with_metric metric so]> objectives))
      | None => None
      end
  | ScalarizedObjective metrics weights mn =>
      match list_find (λ m, metric_name metric = metric_name m) metrics with
      | Some (i, _) => Some (ScalarizedObjective (<[i := metric]> metrics) weights mn)
      | None => None
      end
  | Objective_ so =>
      if decide (metric_name metric = metric_name (_metric so))
      then Some (Objective_ (with_metric metric so))
      else None
  end.

Definition overwrite_constraints (metric : Metric)
    (cs : list OutcomeConstraint) : option (list OutcomeConstraint) :=
  match list_find (λ c, metric_name metric = metric_name (oc_metric c)) cs with
  | Some (i, c) => Some (<[i := constraint_with_metric metric c]> cs)
  | None => None
  end.

Definition overwrite_config (metric : Metric) (oc : OptimizationConfig)
    : option OptimizationConfig :=
  match overwrite_objective metric (objective oc) with
  | Some o' =>
      Some {| objective := o'; _outcome_constraints := _outcome_constraints oc |}
  | None =>
      match overwrite_constraints metric (_outcome_constraints oc) with
      | Some cs' => Some {| objective := objective oc; _outcome_constraints := cs' |}
      | None => None
      end
  end.

(** Modelled from the spec: [Experiment.add_tracking_metric] of [ax.core]:
    the metric is inserted under its name (section 4.2, step 6). *)
Definition add_tracking_metric (metric : Metric) : M unit :=
  e ← _none_throws_experiment;
  put_experiment
    (set_tracking_metrics (<[metric_name metric := metric]> (_tracking_metrics e)) e).

Definition _overwrite_metric (metric : Metric) : M unit :=
  experiment ← _none_throws_experiment;
  match optimization_config experiment ≫= overwrite_config metric with
  | Some oc' => put_experiment (set_optimization_config (Some oc') experiment)
  | None =>
      experiment ← _none_throws_experiment;
      if decide (metric_name metric ∈ dom (_tracking_metrics experiment)) then
        put_experiment
          (set_tracking_metrics
             (<[metric_name metric := metric]> (_tracking_metrics experiment))
             experiment)
      else
        add_tracking_metric metric;;
        warning (MetricAddedAsTrackingWarning metric)
  end.

Definition _set_metrics (metrics : list Metric) : M unit :=
  mapM _overwrite_metric metrics;; mret ().

(** ** Reading a world *)

(** The world after the shared experiment object has become [e]. *)
Definition with_experiment (e : Experiment) (w : World) : World :=
  {| self := set_experiment_field (Some e) (self w);
     logged := logged w;
     gs_requests := gs_requests w |}.

(** The trial stored under [trial_index] in the client's experiment. *)
Definition current_trial (w : World) (trial_index : Z) : option Trial :=
  _experiment (self w) ≫= λ e, trials e !! trial_index.

Definition current_status (w : World) (trial_index : Z) : option TrialStatus :=
  status <$> current_trial w trial_index.

(** The trial that results from registering [generator_run] in the trial
    collection [ts] and marking it as running. *)
Definition registered (ts : gmap Z Trial) (generator_run : GeneratorRun)
    : Trial :=
  {| index := next_index ts; arm := head (arms generator_run);
     status := RUNNING; trial_data := ∅ |}.

(** ** The resolution order, declaratively *)

(** [x] sits at position [i] of [l], carries the name of [metric], and no
    earlier position does. *)
Definition first_match {A} (name_of : A → string) (metric : Metric)
    (l : list A) (i : nat) (x : A) : Prop :=
  l !! i = Some x
  ∧ metric_name metric = name_of x
  ∧ ∀ j y, l !! j = Some y → (j < i)%nat → metric_name metric ≠ name_of y.

Definition objective_names (oc : OptimizationConfig) : list string :=
  metric_name <$> objective_metrics (objective oc).

Definition constraint_names (oc : OptimizationConfig) : list string :=
  (λ c, metric_name (oc_metric c)) <$> _outcome_constraints oc.

(** The name of [metric] occurs nowhere in the optimization config of [e]. *)
Definition not_in_config (metric : Metric) (e : Experiment) : Prop :=
  ∀ oc, optimization_config e = Some oc →
    (metric_name metric ∉ objective_names oc)
    ∧ (metric_name metric ∉ constraint_names oc).

Definition with_objective (o : Objective) (e : Experiment) : Experiment :=
  set_optimization_config
    ((λ oc, {| objective := o; _outcome_constraints := _outcome_constraints oc |})
       <$> optimization_config e) e.

Definition with_constraints (cs : list OutcomeConstraint) (e : Experiment)
    : Experiment :=
  set_optimization_config
    ((λ oc, {| objective := objective oc; _outcome_constraints := cs |})
       <$> optimization_config e) e.

(** [resolution metric e e' warnings]: [e'] is [e] after the one
    substitution or insertion that the resolution order of section 4.2
    selects for [metric], and [warnings] is what gets logged. *)
Inductive resolution (metric : Metric) (e : Experiment)
    : Experiment → list LogRecord → Prop :=
| resolve_multi oc os i so :
    optimization_config e = Some oc →
    objective oc = MultiObjective os →
    first_match (λ so, metric_name (_metric so)) metric os i so →
    resolution metric e
      (with_objective (MultiObjective (<[i := with_metric metric so]> os)) e) []
| resolve_scalarized oc ms ws mn i m :
    optimization_config e = Some oc →
    objective oc = ScalarizedObjective ms ws mn →
    first_match metric_name metric ms i m →
    resolution metric e
      (with_objective (ScalarizedObjective (<[i := metric]> ms) ws mn) e) []
| resolve_single oc so :
    optimization_config e = Some oc →
    objective oc = Objective_ so →
    metric_name metric = metric_name (_metric so) →
    resolution metric e
      (with_objective (Objective_ (with_metric metric so)) e) []
| resolve_constraint oc i c :
    optimization_config e = Some oc →
    metric_name metric ∉ objective_names oc →
    first_match (λ c, metric_name (oc_metric c)) metric
      (_outcome_constraints oc) i c →
    resolution metric e
      (with_constraints
         (<[i := constraint_with_metric metric c]> (_outcome_constraints oc)) e)
      []
| resolve_tracking old :
    not_in_config metric e →
    _tracking_metrics e !! metric_name metric = Some old →
    resolution metric e
      (set_tracking_metrics
         (<[metric_name metric := metric]> (_tracking_metrics e)) e) []
| resolve_insert :
    not_in_config metric e →
    _tracking_metrics e !! metric_name metric = None →
    resolution metric e
      (set_tracking_metrics
         (<[metric_name metric := metric]> (_tracking_metrics e)) e)
      [MetricAddedAsTrackingWarning metric].

End Model.

(** * Further client methods *)

Section Further.
Context `{Ext : Externals} {Col : Collaborators}.

Definition set_early_stopping_strategy_field
    (s : option BaseEarlyStoppingStrategy) (c : Client) : Client :=
  {| _experiment := _experiment c;
     _generation_strategy := _generation_strategy c;
     _early_stopping_strategy := s;
     _db_config := _db_config c;
     _random_seed := _random_seed c |}.

(** ** Setters outside the API *)

(** The strategy is assigned first; each of the two assignments of the
    strategy's back reference to the experiment evaluates its right-hand
    side, [_none_throws_experiment], before its target. *)
Definition set_generation_strategy (generation_strategy : GenerationStrategy)
    : M unit :=
  c ← get_self;
  put_self (set_generation_strategy_field (Some generation_strategy) c);;
  _none_throws_experiment;;
  c ← get_self;
  none_throws (_generation_strategy c) "Unexpected `None`";;
  _none_throws_experiment;;
  c ← get_self;
  none_throws (_generation_strategy c) "Unexpected `None`";;
  mret ().

Definition set_early_stopping_strategy
    (early_stopping_strategy : BaseEarlyStoppingStrategy) : M unit :=
  c ← get_self;
  put_self (set_early_stopping_strategy_field (Some early_stopping_strategy) c).

Definition configure_metrics (metrics : list Metric) : M unit :=
  _set_metrics metrics.

(** ** Analyses *)

(** The analysis collaborators: an analysis computes a result that holds a
    card or an error, and an error can be rendered as a card. *)
Class Analyses := {
  Analysis : Type;
  AnalysisCard : Type;
  AnalysisE : Type;
  choose_analyses : Experiment → list Analysis;
  compute_result :
    Analysis → Experiment → GenerationStrategy → AnalysisCard + AnalysisE;
  markdown_analysis_card_from_analysis_e : AnalysisE → AnalysisCard;
}.

Context `{An : Analyses}.

(** [Result.unwrap_or_else] *)
Definition unwrap_or_else (f : AnalysisE → AnalysisCard)
    (r : AnalysisCard + AnalysisE) : AnalysisCard :=
  match r with
  | inl card => card
  | inr err => f err
  end.

Definition compute_analyses (analyses : option (list Analysis))
    : M (list AnalysisCard) :=
  analyses ← match analyses with
             | Some given => mret given
             | None =>
                 experiment ← _none_throws_experiment;
                 mret (choose_analyses experiment)
             end;
  results ← mapM (λ analysis,
                    experiment ← _none_throws_experiment;
                    generation_strategy ← _generation_strategy_or_choose;
                    mret (compute_result analysis experiment generation_strategy))
                 analyses;
  let cards :=
    unwrap_or_else markdown_analysis_card_from_analysis_e <$> results in
  mret cards.

(** ** Calls of the client *)

(** The methods a user calls on one client.  [set_experiment], which swaps
    the whole experiment object, is left out. *)
Inductive ClientCall :=
| Call_configure_experiment (experiment_config : ExperimentConfig)
| Call_configure_generation_strategy (config : GenerationStrategyConfig)
| Call_configure_metrics (metrics : list Metric)
| Call_set_optimization_config (optimization_config : OptimizationConfig)
| Call_set_generation_strategy (generation_strategy : GenerationStrategy)
| Call_set_early_stopping_strategy (strategy : BaseEarlyStoppingStrategy)
| Call_get_next_trials (maximum_trials : Z)
    (fixed_parameters : option (gmap string TParameterValue))
| Call_complete_trial (trial_index : Z)
    (raw_data : option (gmap string TOutcomeValue)) (progression : option Z)
| Call_attach_data (trial_index : Z) (raw_data : gmap string TOutcomeValue)
    (progression : option Z)
| Call_attach_trial (parameters : gmap string TParameterValue)
    (arm_name : option string)
| Call_attach_baseline (parameters : gmap string TParameterValue)
    (arm_name : option string)
| Call_should_stop_trial_early (trial_index : Z)
| Call_mark_trial_failed (trial_index : Z)
| Call_mark_trial_abandoned (trial_index : Z)
| Call_mark_trial_early_stopped (trial_index : Z)
    (raw_data : gmap string TOutcomeValue) (progression : option Z)
| Call_compute_analyses (analyses : option (list Analysis)).

(** The world a call leaves behind, whether it returns or raises. *)
Definition invoke (call : ClientCall) (w : World) : World :=
  match call with
  | Call_configure_experiment cfg => (configure_experiment cfg w).1
  | Call_configure_generation_strategy cfg =>
      (configure_generation_strategy cfg w).1
  | Call_configure_metrics ms => (configure_metrics ms w).1
  | Call_set_optimization_config oc => (set_optimization_config_ oc w).1
  | Call_set_generation_strategy gs => (set_generation_strategy gs w).1
  | Call_set_early_stopping_strategy s => (set_early_stopping_strategy s w).1
  | Call_get_next_trials n fixed => (get_next_trials n fixed w).1
  | Call_complete_trial i raw p => (complete_trial i raw p w).1
  | Call_attach_data i raw p => (attach_data i raw p w).1
  | Call_attach_trial ps name => (attach_trial ps name w).1
  | Call_attach_baseline ps name => (attach_baseline ps name w).1
  | Call_should_stop_trial_early i => (should_stop_trial_early i w).1
  | Call_mark_trial_failed i => (mark_trial_failed i w).1
  | Call_mark_trial_abandoned i => (mark_trial_abandoned i w).1
  | Call_mark_trial_early_stopped i raw p =>
      (mark_trial_early_stopped i raw p w).1
  | Call_compute_analyses analyses => (compute_analyses analyses w).1
  end.

Definition invoke_all (calls : list ClientCall) (w : World) : World :=
  foldl (λ w call, invoke call w) w calls.

(** ** Relating a world to a later one *)

(** What may happen to one trial: index and arm stay, the attached metric
    names only grow, and the status stays or goes from RUNNING to a
    terminal status. *)
Definition trial_step (t t' : Trial) : Prop :=
  index t' = index t
  ∧ arm t' = arm t
  ∧ dom (trial_data t) ⊆ dom (trial_data t')
  ∧ (status t' = status t
     ∨ (status t = RUNNING ∧ is_terminal (status t') = true)).

(** Every trial of [w] is still there in [w'], after a [trial_step]. *)
Definition evolves (w w' : World) : Prop :=
  ∀ idx t, current_trial w idx = Some t →
    ∃ t', current_trial w' idx = Some t' ∧ trial_step t t'.

(** ** The metrics of an experiment *)

Definition config_metrics (oc : OptimizationConfig) : list Metric :=
  objective_metrics (objective oc) ++ (oc_metric <$> _outcome_constraints oc).

(** The metric is in a slot of the optimization config or is the tracking
    metric under its name. *)
Definition registered_metric (metric : Metric) (e : Experiment) : Prop :=
  (∃ oc, optimization_config e = Some oc ∧ metric ∈ config_metrics oc)
  ∨ _tracking_metrics e !! metric_name metric = Some metric.

(** No tracking metric carries the name of a metric of the optimization
    config. *)
Definition names_disjoint (e : Experiment) : Prop :=
  ∀ oc, optimization_config e = Some oc →
    metrics_keys oc ## dom (_tracking_metrics e).

(** ** Computations that leave the experiment alone *)

Definition preserves_experiment {A} (m : M A) : Prop :=
  ∀ w w' r, m w = (w', r) → _experiment (self w') = _experiment (self w).

(** ** The strategy a generation call uses *)

(** The strategy [configure_generation_strategy] chooses from the default
    config. *)
Definition default_strategy (e : Experiment) : GenerationStrategy :=
  choose_generation_strategy (search_space e) (optimization_config e)
    (initialization_budget GenerationStrategyConfig_default)
    (min_observed_initialization_trials GenerationStrategyConfig_default)
    (negb (allow_exceeding_initialization_budget GenerationStrategyConfig_default))
    (initialization_random_seed GenerationStrategyConfig_default).

(** The strategy of the client, or the default one when none is set. *)
Definition strategy_in_use (w : World) (e : Experiment) : GenerationStrategy :=
  default (default_strategy e) (_generation_strategy (self w)).

(** The world right after the strategy has answered a request of
    [get_next_trials]: the request is on record and the strategy is in its
    next state. *)
Definition after_request (w : World) (e : Experiment) (maximum_trials : Z)
    (fixed_parameters : option (gmap string TParameterValue))
    (gs' : GenerationStrategy) : World :=
  {| self := set_generation_strategy_field (Some gs') (self w);
     logged := logged w;
     gs_requests :=
       gs_requests w ++ [gen_request e maximum_trials fixed_parameters] |}.

(** The answer of the strategy to the request of [get_next_trials]. *)
Definition strategy_answer (w : World) (e : Experiment) (maximum_trials : Z)
    (fixed_parameters : option (gmap string TParameterValue))
    : GenerationStrategy * result (list (list GeneratorRun)) :=
  gen_for_multiple_trials_with_multiple_models (strategy_in_use w e)
    (_random_seed (self w)) e
    (get_pending_observation_features_based_on_trial_status e) 1
    ((λ p, {| of_parameters := p |}) <$> fixed_parameters) maximum_trials.

(** ** Resolving several metrics *)

(** The names in the slots of the optimization config, in order. *)
Definition config_names (e : Experiment) : option (list string * list string) :=
  (λ oc, (objective_names oc, constraint_names oc)) <$> optimization_config e.

(** The name belongs to a metric of the optimization config or to a
    tracking metric. *)
Definition known_name (name : string) (e : Experiment) : Prop :=
  (∃ oc, optimization_config e = Some oc ∧ name ∈ metrics_keys oc)
  ∨ name ∈ dom (_tracking_metrics e).

(** One [resolution] after the other, for the metrics of a list. *)
Fixpoint resolutions (metrics : list Metric) (e e' : Experiment)
    (warnings : list LogRecord) : Prop :=
  match metrics with
  | [] => e' = e ∧ warnings = []
  | m :: ms =>
      ∃ e1 l1 l2,
        resolution m e e1 l1 ∧ resolutions ms e1 e' l2 ∧ warnings = l1 ++ l2
  end.

End Further.

(** * Sample worlds

    A concrete instance of the collaborators and a few small worlds, used to
    evaluate the client on explicit inputs. *)

(** Sample floats are written as integers; the strategies are counters. *)
#[export] Instance sample_externals : Externals := {|
  float := Z;
  SearchSpace := unit;
  ExperimentConfig := string;
  DatabaseConfig := unit;
  GenerationStrategy := nat;
  BaseEarlyStoppingStrategy := gset Z;
|}.

Definition sample_float (z : Z) : float := z.

(** An outcome that reports metric "A" only. *)
Definition sample_outcome_A : gmap string TOutcomeValue :=
  {[ "A" := Mean (sample_float 3) ]}.

Definition sample_empty_experiment : Experiment :=
  {| search_space := (); optimization_config := None;
     _tracking_metrics := ∅; trials := ∅; status_quo := None |}.

(** A strategy that proposes [x = k] at its [k]-th proposal, one generator
    run with one arm for each requested trial. *)
Fixpoint sample_proposals (k count : nat) : list (list GeneratorRun) :=
  match count with
  | O => []
  | S count' =>
      [ {| arms := [ {| arm_name := None;
                        parameters := {[ "x" := PInt (Z.of_nat k) ]} |} ] |} ]
      :: sample_proposals (S k) count'
  end.

#[export] Instance sample_collaborators : Collaborators := {|
  experiment_from_config := λ _, sample_empty_experiment;
  GenerationStrategyConfig_default :=
    {| initialization_budget := None; initialization_random_seed := None;
       min_observed_initialization_trials := None;
       allow_exceeding_initialization_budget := false |};
  choose_generation_strategy := λ _ _ _ _ _ _, O;
  gen_for_multiple_trials_with_multiple_models :=
    λ gs _ _ _ _ _ num_trials,
      ((gs + Z.to_nat num_trials)%nat,
       Ok (sample_proposals gs (Z.to_nat num_trials)));
  should_stop_trials_early := λ strategy trial_indices _,
    Ok (gset_to_gmap None (strategy ∩ trial_indices));
|}.

Definition sample_metric (name : string) (impl : nat) : Metric :=
  {| metric_name := name; metric_impl := impl |}.

(** The objective "A, B": a multi-objective over placeholder metrics. *)
Definition sample_config_AB : OptimizationConfig :=
  {| objective :=
       MultiObjective [ {| _metric := sample_metric "A" 0; minimize := true |};
                        {| _metric := sample_metric "B" 0; minimize := false |} ];
     _outcome_constraints := [] |}.

Definition sample_trial (i : Z) (s : TrialStatus) : Trial :=
  {| index := i;
     arm := Some {| arm_name := None; parameters := {[ "x" := PInt i ]} |};
     status := s;
     trial_data := ∅ |}.

Definition sample_world (e : option Experiment) : World :=
  {| self := {| _experiment := e; _generation_strategy := None;
                _early_stopping_strategy := None; _db_config := None;
                _random_seed := None |};
     logged := []; gs_requests := [] |}.

(** One trial, index 0, in the given status; objective "A, B" when
    [with_config]. *)
Definition sample_experiment (with_config : bool) (s : TrialStatus)
    : Experiment :=
  {| search_space := ();
     optimization_config := if with_config then Some sample_config_AB else None;
     _tracking_metrics := ∅;
     trials := {[ 0 := sample_trial 0 s ]};
     status_quo := None |}.

(** Sample analyses: [true] yields a card, [false] fails. *)
#[export] Instance sample_analyses : Analyses := {|
  Analysis := bool;
  AnalysisCard := string;
  AnalysisE := string;
  choose_analyses := λ _, [true];
  compute_result := λ analysis _ _,
    if analysis then inl "card" else inr "no data";
  markdown_analysis_card_from_analysis_e := λ err, "failed: " +:+ err;
|}.

Definition sample_analysis (succeeds : bool) : Analysis := succeeds.

Definition sample_card (text : string) : AnalysisCard := text.

(** A configured client whose early-stopping strategy recommends stopping
    trial 0. *)
Definition sample_world_stopping : World :=
  {| self := {| _experiment := Some (sample_experiment true RUNNING);
                _generation_strategy := None;
                _early_stopping_strategy := Some {[ 0 ]};
                _db_config := None;
                _random_seed := None |};
     logged := []; gs_requests := [] |}.

(** A short session on trial 0 and beyond. *)
Definition sample_calls : list ClientCall :=
  [ Call_attach_data 0 sample_outcome_A (Some 1);
    Call_get_next_trials 1 None;
    Call_complete_trial 0 None None;
    Call_mark_trial_abandoned 0;
    Call_configure_metrics [sample_metric "A" 1; sample_metric "C" 1];
    Call_attach_baseline {[ "x" := PInt 7 ]} None ].

(** Collaborators whose generation strategy counts the pending observations
    it is handed: its state grows by their number at each call. *)
Definition sample_counting_collaborators : Collaborators := {|
  experiment_from_config := λ _, sample_empty_experiment;
  GenerationStrategyConfig_default :=
    {| initialization_budget := None; initialization_random_seed := None;
       min_observed_initialization_trials := None;
       allow_exceeding_initialization_budget := false |};
  choose_generation_strategy := λ _ _ _ _ _ _, O;
  gen_for_multiple_trials_with_multiple_models :=
    λ gs _ _ pending_observations _ _ num_trials,
      ((gs + length pending_observations)%nat,
       Ok (sample_proposals gs (Z.to_nat num_trials)));
  should_stop_trials_early := λ strategy trial_indices _,
    Ok (gset_to_gmap None (strategy ∩ trial_indices));
|}.

(** * Properties *)

Section Properties.
Context `{Ext : Externals} {Col : Collaborators}.

Implicit Types (w : World) (e : Experiment) (t : Trial) (idx : Z).

(** ** Running computations *)

Lemma bind_run {A B} (m : M A) (f : A → M B) w :
  (m ≫= f) w =
  match m w with
  | (w', Ok a) => f a w'
  | (w', Raise err) => (w', Raise err)
  end.
Proof. reflexivity. Qed.

Lemma ret_run {A} (a : A) w : (mret a : M A) w = (w, Ok a).
Proof. reflexivity. Qed.

Lemma none_throws_experiment_run w e :
  _experiment (self w) = Some e → _none_throws_experiment w = (w, Ok e).
Proof.
  intros He. unfold _none_throws_experiment.
  rewrite bind_run. cbn. by rewrite He.
Qed.

Lemma set_trials_id e : set_trials (trials e) e = e.
Proof. by destruct e. Qed.

Lemma with_experiment_id w e :
  _experiment (self w) = Some e → with_experiment e w = w.
Proof.
  destruct w as [[] ? ?]; cbn. intros ->. reflexivity.
Qed.

Lemma with_experiment_experiment e w :
  _experiment (self (with_experiment e w)) = Some e.
Proof. reflexivity. Qed.

Lemma with_experiment_twice e e' w :
  with_experiment e' (with_experiment e w) = with_experiment e' w.
Proof. reflexivity. Qed.

Lemma put_experiment_run w e : put_experiment e w = (with_experiment e w, Ok ()).
Proof. reflexivity. Qed.

Lemma store_trial_run w e idx t :
  _experiment (self w) = Some e →
  store_trial idx t w =
  (with_experiment (set_trials (<[idx := t]> (trials e)) e) w, Ok ()).
Proof.
  intros He. unfold store_trial.
  by rewrite bind_run, (none_throws_experiment_run w e He), put_experiment_run.
Qed.

Lemma getitem_run w idx t (d : gmap Z Trial) :
  d !! idx = Some t → getitem d idx w = (w, Ok t).
Proof. intros Hd. unfold getitem. by rewrite Hd. Qed.

Lemma getitem_missing w idx (d : gmap Z Trial) :
  d !! idx = None → getitem d idx w = (w, Raise (KeyError idx)).
Proof. intros Hd. unfold getitem. by rewrite Hd. Qed.

Lemma current_trial_store w e idx j t :
  current_trial (with_experiment (set_trials (<[idx := t]> (trials e)) e) w) j =
  if decide (idx = j) then Some t else trials e !! j.
Proof. unfold current_trial; cbn. apply lookup_insert. Qed.

(** A transition out of [RUNNING] moves the trial and logs nothing. *)
Lemma mark_terminal_running requested t w :
  status t = RUNNING →
  mark_terminal requested t w = (w, Ok (set_status requested t)).
Proof. intros Hs. unfold mark_terminal. by rewrite Hs. Qed.

(** A transition requested on a terminal trial leaves it as it is and logs a
    warning. *)
Lemma mark_terminal_terminal requested t w :
  is_terminal (status t) = true →
  mark_terminal requested t w =
  ({| self := self w;
      logged := logged w ++ [TerminalTrialWarning (index t) (status t) requested];
      gs_requests := gs_requests w |}, Ok t).
Proof. unfold mark_terminal. by destruct (status t). Qed.

(** ** Manual status overrides *)

(** C4.  On a trial that is already COMPLETED, FAILED, ABANDONED or
    EARLY_STOPPED, [mark_trial_failed] and [mark_trial_abandoned] raise
    nothing, leave the client (hence the trial and its status) as it was,
    and log one warning. *)
Theorem mark_terminal_trial_is_noop w e idx t :
  _experiment (self w) = Some e →
  trials e !! idx = Some t →
  is_terminal (status t) = true →
  mark_trial_failed idx w =
    ({| self := self w;
        logged := logged w ++ [TerminalTrialWarning (index t) (status t) FAILED];
        gs_requests := gs_requests w |}, Ok ())
  ∧ mark_trial_abandoned idx w =
    ({| self := self w;
        logged := logged w ++ [TerminalTrialWarning (index t) (status t) ABANDONED];
        gs_requests := gs_requests w |}, Ok ()).
Proof.
  intros He Ht Hterm.
  assert (Hid : ∀ w', _experiment (self w') = Some e →
            store_trial idx t w' = (w', Ok ())).
  { intros w' He'. rewrite (store_trial_run w' e) by done.
    by rewrite insert_id, set_trials_id, with_experiment_id. }
  split.
  - unfold mark_trial_failed, mark_failed.
    rewrite bind_run, (none_throws_experiment_run w e He).
    rewrite bind_run, (getitem_run w idx t) by done.
    rewrite bind_run, mark_terminal_terminal by done.
    by rewrite Hid.
  - unfold mark_trial_abandoned, mark_abandoned.
    rewrite bind_run, (none_throws_experiment_run w e He).
    rewrite bind_run, (getitem_run w idx t) by done.
    rewrite bind_run, mark_terminal_terminal by done.
    by rewrite Hid.
Qed.

(** ** Attaching data *)

Lemma update_trial_data_status raw t :
  status (update_trial_data raw t) = status t.
Proof. reflexivity. Qed.

Lemma dom_merge_record step
    (d : gmap string (list (Step * TOutcomeValue)))
    (raw : gmap string TOutcomeValue) :
  dom (merge (merge_record step) d raw) = dom d ∪ dom raw.
Proof.
  apply set_eq. intros k.
  rewrite elem_of_union, !elem_of_dom, lookup_merge.
  destruct (d !! k) as [obs|], (raw !! k) as [v|]; cbn;
    split; intros H; try (by eauto);
    destruct H as [[? H]|[? H]]; by inversion H.
Qed.

Lemma attach_data_run w e idx t raw progression :
  _experiment (self w) = Some e →
  trials e !! idx = Some t →
  attach_data idx raw progression w =
  (with_experiment
     (set_trials (<[idx := update_trial_data [(progression, raw)] t]> (trials e)) e)
     w, Ok ()).
Proof.
  intros He Ht. unfold attach_data.
  rewrite bind_run, (none_throws_experiment_run w e He).
  rewrite bind_run, (getitem_run w idx t) by done.
  by rewrite (store_trial_run w e).
Qed.

(** C5.  [attach_data] on an index that is not in the experiment's trial
    collection raises the look-up error of the trial dictionary (Python's
    KeyError, the spec's NotFoundError) and changes nothing; on an
    existing index it returns normally and the status of every trial, the
    addressed one included, is what it was. *)
Theorem attach_data_not_found_or_status_kept w e idx raw progression :
  _experiment (self w) = Some e →
  (trials e !! idx = None →
     attach_data idx raw progression w = (w, Raise (KeyError idx)))
  ∧ (∀ t, trials e !! idx = Some t →
       ∃ w', attach_data idx raw progression w = (w', Ok ())
             ∧ ∀ j, current_status w' j = current_status w j).
Proof.
  intros He. split.
  - intros Hnone. unfold attach_data.
    rewrite bind_run, (none_throws_experiment_run w e He).
    by rewrite bind_run, getitem_missing.
  - intros t Ht. eexists. split; [by apply attach_data_run|].
    intros j. unfold current_status.
    rewrite current_trial_store. unfold current_trial. rewrite He. cbn.
    case_decide as Hj; [subst j; by rewrite Ht | done].
Qed.

(** ** Completing a trial *)

Lemma complete_trial_after_attach idx rd progression w :
  complete_trial idx (Some rd) progression w =
  (attach_data idx rd progression;; complete_trial idx None progression) w.
Proof.
  unfold complete_trial. rewrite !bind_run.
  destruct (attach_data idx rd progression w) as [w' [[]|err]]; reflexivity.
Qed.

Lemma metric_names_lookup_data e idx t :
  trials e !! idx = Some t →
  metric_names (lookup_data e [idx]) = dom (trial_data t).
Proof.
  intros Ht. unfold metric_names, lookup_data. cbn. rewrite Ht. cbn.
  by rewrite (right_id_L ∅ (∪)).
Qed.

Lemma mark_and_store_running requested w e idx t :
  _experiment (self w) = Some e →
  trials e !! idx = Some t →
  status t = RUNNING →
  (trial ← getitem (trials e) idx;
   trial' ← mark_terminal requested trial;
   store_trial idx trial') w =
  (with_experiment
     (set_trials (<[idx := set_status requested t]> (trials e)) e) w, Ok ()).
Proof.
  intros He Ht Hs.
  rewrite bind_run, (getitem_run w idx t) by done.
  rewrite bind_run, mark_terminal_running by done.
  by rewrite (store_trial_run w e).
Qed.

Lemma read_status_after_store w e idx t :
  (experiment ← _none_throws_experiment;
   trial ← getitem (trials experiment) idx;
   mret (status trial))
    (with_experiment (set_trials (<[idx := t]> (trials e)) e) w) =
  (with_experiment (set_trials (<[idx := t]> (trials e)) e) w, Ok (status t)).
Proof.
  rewrite bind_run. erewrite none_throws_experiment_run by reflexivity.
  rewrite bind_run. erewrite getitem_run; [done|].
  cbn. apply lookup_insert_eq.
Qed.

(** Completion of a running trial that needs no further data. *)
Lemma complete_trial_running_no_data w e idx t progression :
  _experiment (self w) = Some e →
  trials e !! idx = Some t →
  status t = RUNNING →
  let missing :=
    match optimization_config e with
    | None => ∅
    | Some oc => metrics_keys oc ∖ dom (trial_data t)
    end in
  let s := if decide (missing = ∅) then COMPLETED else FAILED in
  complete_trial idx None progression w =
  ({| self := set_experiment_field
                (Some (set_trials (<[idx := set_status s t]> (trials e)) e))
                (self w);
      logged := logged w ++
                (if decide (missing = ∅) then []
                 else [MissingMetricsWarning idx missing]);
      gs_requests := gs_requests w |}, Ok s).
Proof.
  intros He Ht Hs missing s. unfold complete_trial.
  rewrite bind_run, ret_run.
  rewrite bind_run, (none_throws_experiment_run w e He).
  subst s missing.
  destruct (optimization_config e) as [oc|] eqn:Hoc.
  - rewrite (metric_names_lookup_data e idx t Ht).
    set (missing := metrics_keys oc ∖ dom (trial_data t)).
    destruct (decide (missing = ∅)) as [Hz|Hnz].
    + rewrite decide_True by (rewrite Hz; apply size_empty).
      rewrite bind_run. unfold mark_completed.
      rewrite (mark_and_store_running COMPLETED w e idx t) by done.
      rewrite read_status_after_store.
      unfold with_experiment. by rewrite (right_id_L [] (++)).
    + rewrite decide_False
        by (intros Hz; apply Hnz, leibniz_equiv, size_empty_iff, Hz).
      rewrite bind_run. rewrite bind_run. cbn [warning].
      unfold mark_trial_failed, mark_failed.
      rewrite bind_run. erewrite none_throws_experiment_run by exact He.
      erewrite mark_and_store_running; [|exact He|exact Ht|exact Hs].
      by rewrite read_status_after_store.
  - destruct (decide (∅ = ∅)) as [_|[]]; [|done].
    rewrite bind_run. unfold mark_completed.
    rewrite (mark_and_store_running COMPLETED w e idx t) by done.
    rewrite read_status_after_store.
    unfold with_experiment. by rewrite (right_id_L [] (++)).
Qed.

Lemma difference_empty_subseteq (X Y : gset string) : X ∖ Y = ∅ ↔ X ⊆ Y.
Proof.
  split.
  - intros Hd x Hx. destruct (decide (x ∈ Y)) as [|Hn]; [done|].
    assert (x ∈ X ∖ Y) as Hin by (apply elem_of_difference; done).
    rewrite Hd in Hin. by apply not_elem_of_empty in Hin.
  - intros Hsub. apply set_eq. intros x.
    rewrite elem_of_difference. split; [|by intros ?%not_elem_of_empty].
    intros [Hx Hn]. destruct Hn. by apply Hsub.
Qed.

(** C1 (amended).  For a trial that is RUNNING, [complete_trial] returns the
    trial's resulting status, and that status is: COMPLETED when no
    optimization config is set; COMPLETED when every metric name of the
    optimization config is among the names attached to the trial (the data
    passed along included); FAILED, with one warning that names the set of
    missing metric names, otherwise. *)
Theorem complete_running_trial w e idx t raw_data progression :
  _experiment (self w) = Some e →
  trials e !! idx = Some t →
  status t = RUNNING →
  let present := dom (trial_data t) ∪ from_option dom ∅ raw_data in
  ∃ w' e' s,
    complete_trial idx raw_data progression w = (w', Ok s)
    ∧ _experiment (self w') = Some e'
    ∧ status <$> trials e' !! idx = Some s
    ∧ metric_names (lookup_data e' [idx]) = present
    ∧ match optimization_config e with
      | None => s = COMPLETED ∧ logged w' = logged w
      | Some oc =>
          (metrics_keys oc ⊆ present →
             s = COMPLETED ∧ logged w' = logged w)
          ∧ (metrics_keys oc ⊈ present →
             s = FAILED
             ∧ logged w' =
               logged w ++ [MissingMetricsWarning idx (metrics_keys oc ∖ present)])
      end.
Proof.
  intros He Ht Hs present.
  assert (Hcore : ∀ w1 e1 t1,
    _experiment (self w1) = Some e1 → trials e1 !! idx = Some t1 →
    status t1 = RUNNING → optimization_config e1 = optimization_config e →
    dom (trial_data t1) = present → logged w1 = logged w →
    ∃ w' e' s,
      complete_trial idx None progression w1 = (w', Ok s)
      ∧ _experiment (self w') = Some e'
      ∧ status <$> trials e' !! idx = Some s
      ∧ metric_names (lookup_data e' [idx]) = present
      ∧ match optimization_config e with
        | None => s = COMPLETED ∧ logged w' = logged w
        | Some oc =>
            (metrics_keys oc ⊆ present →
               s = COMPLETED ∧ logged w' = logged w)
            ∧ (metrics_keys oc ⊈ present →
               s = FAILED
               ∧ logged w' =
                 logged w ++
                 [MissingMetricsWarning idx (metrics_keys oc ∖ present)])
        end).
  { intros w1 e1 t1 He1 Ht1 Hs1 Hoc Hdom Hlog.
    pose proof (complete_trial_running_no_data w1 e1 idx t1 progression
                  He1 Ht1 Hs1) as Hrun.
    cbv zeta in Hrun. rewrite Hoc, Hdom, Hlog in Hrun.
    eexists _, _, _. split; [exact Hrun|].
    split; [reflexivity|].
    split; [cbn; by rewrite lookup_insert_eq|].
    split.
    { erewrite metric_names_lookup_data; [|cbn; apply lookup_insert_eq].
      exact Hdom. }
    cbn [logged].
    destruct (optimization_config e) as [oc|].
    - split.
      + intros Hsub%difference_empty_subseteq.
        rewrite !decide_True by done. by rewrite (right_id_L [] (++)).
      + intros Hnsub.
        assert (metrics_keys oc ∖ present ≠ ∅) as Hne
          by (by intros ?%difference_empty_subseteq).
        by rewrite !decide_False by done.
    - destruct (decide (∅ = ∅)) as [_|[]]; [|done].
      by rewrite (right_id_L [] (++)). }
  destruct raw_data as [rd|].
  - rewrite complete_trial_after_attach, bind_run.
    rewrite (attach_data_run w e idx t) by done.
    eapply Hcore; [reflexivity| | | | |]; cbn.
    + apply lookup_insert_eq.
    + exact Hs.
    + reflexivity.
    + apply dom_merge_record.
    + reflexivity.
  - apply (Hcore w e t); try done.
    subst present. cbn. by rewrite (right_id_L ∅ (∪)).
Qed.

(** ** Metric resolution *)

Lemma list_find_first_match {A} (name_of : A → string) metric (l : list A) i x :
  list_find (λ y, metric_name metric = name_of y) l = Some (i, x)
  ↔ first_match name_of metric l i x.
Proof.
  unfold first_match.
  apply (list_find_Some (λ y, metric_name metric = name_of y)).
Qed.

Lemma list_find_no_match {A} (name_of : A → string) metric (l : list A) :
  list_find (λ y, metric_name metric = name_of y) l = None
  ↔ metric_name metric ∉ name_of <$> l.
Proof.
  rewrite list_find_None, Forall_forall, list_elem_of_fmap. split.
  - intros Hall (y & Hy & Hin). by apply (Hall y).
  - intros Hnot y Hin Hy. apply Hnot. by exists y.
Qed.

Lemma first_match_unique {A} (name_of : A → string) metric (l : list A)
    i x j y :
  first_match name_of metric l i x → first_match name_of metric l j y →
  i = j ∧ x = y.
Proof.
  intros (Hi & Hx & Hbefore_i) (Hj & Hy & Hbefore_j).
  assert (i = j) as ->.
  { destruct (Nat.lt_trichotomy i j) as [Hlt|[->|Hlt]]; [|done|].
    - by destruct (Hbefore_j i x Hi Hlt).
    - by destruct (Hbefore_i j y Hj Hlt). }
  split; [done|]. congruence.
Qed.

Lemma first_match_elem {A} (name_of : A → string) metric (l : list A) i x :
  first_match name_of metric l i x → metric_name metric ∈ name_of <$> l.
Proof.
  intros (Hi & Hx & _). apply list_elem_of_fmap. exists x.
  split; [done|]. by apply list_elem_of_lookup_2 with i.
Qed.

(** The objective scan falls through exactly when the name is not among the
    objective's metrics. *)
Lemma overwrite_objective_None metric oc :
  overwrite_objective metric (objective oc) = None
  ↔ metric_name metric ∉ objective_names oc.
Proof.
  unfold objective_names. destruct (objective oc) as [so|ms ws mn|os]; cbn.
  - rewrite list_elem_of_singleton. case_decide; naive_solver.
  - rewrite <- (list_find_no_match metric_name).
    destruct (list_find _ ms) as [[i m]|]; naive_solver.
  - rewrite <- list_fmap_compose.
    rewrite <- (list_find_no_match (metric_name ∘ _metric)). cbn.
    destruct (list_find _ os) as [[i so]|]; naive_solver.
Qed.

Lemma overwrite_constraints_None metric oc :
  overwrite_constraints metric (_outcome_constraints oc) = None
  ↔ metric_name metric ∉ constraint_names oc.
Proof.
  unfold constraint_names, overwrite_constraints.
  rewrite <- (list_find_no_match (λ c, metric_name (oc_metric c))).
  destruct (list_find _ (_outcome_constraints oc)) as [[i c]|]; naive_solver.
Qed.

Lemma overwrite_config_None metric e :
  optimization_config e ≫= overwrite_config metric = None
  ↔ not_in_config metric e.
Proof.
  unfold not_in_config. destruct (optimization_config e) as [oc|]; cbn.
  - unfold overwrite_config.
    pose proof (overwrite_objective_None metric oc) as Ho.
    pose proof (overwrite_constraints_None metric oc) as Hc.
    destruct (overwrite_objective metric (objective oc)),
             (overwrite_constraints metric (_outcome_constraints oc));
      split; try done.
    + intros H. destruct (H oc eq_refl) as [H1 _]. by apply Ho in H1.
    + intros H. destruct (H oc eq_refl) as [H1 _]. by apply Ho in H1.
    + intros H. destruct (H oc eq_refl) as [_ H2]. by apply Hc in H2.
    + intros _ oc' [= <-]. split; [by apply Ho|by apply Hc].
  - split; [|done]. by intros _ oc.
Qed.

Lemma overwrite_metric_in_config w e metric oc' :
  _experiment (self w) = Some e →
  optimization_config e ≫= overwrite_config metric = Some oc' →
  _overwrite_metric metric w =
  (with_experiment (set_optimization_config (Some oc') e) w, Ok ()).
Proof.
  intros He Hoc. unfold _overwrite_metric.
  rewrite bind_run, (none_throws_experiment_run w e He).
  by rewrite Hoc.
Qed.

Lemma overwrite_metric_tracking w e metric old :
  _experiment (self w) = Some e →
  not_in_config metric e →
  _tracking_metrics e !! metric_name metric = Some old →
  _overwrite_metric metric w =
  (with_experiment
     (set_tracking_metrics
        (<[metric_name metric := metric]> (_tracking_metrics e)) e) w, Ok ()).
Proof.
  intros He Hno%overwrite_config_None Hold. unfold _overwrite_metric.
  rewrite bind_run, (none_throws_experiment_run w e He), Hno.
  rewrite bind_run, (none_throws_experiment_run w e He).
  rewrite decide_True; [done|]. apply elem_of_dom. by exists old.
Qed.

Lemma overwrite_metric_insert w e metric :
  _experiment (self w) = Some e →
  not_in_config metric e →
  _tracking_metrics e !! metric_name metric = None →
  _overwrite_metric metric w =
  ({| self :=
        set_experiment_field
          (Some (set_tracking_metrics
                   (<[metric_name metric := metric]> (_tracking_metrics e)) e))
          (self w);
      logged := logged w ++ [MetricAddedAsTrackingWarning metric];
      gs_requests := gs_requests w |}, Ok ()).
Proof.
  intros He Hno%overwrite_config_None Hnone. unfold _overwrite_metric.
  rewrite bind_run, (none_throws_experiment_run w e He), Hno.
  rewrite bind_run, (none_throws_experiment_run w e He).
  rewrite decide_False by (by rewrite not_elem_of_dom).
  unfold add_tracking_metric.
  rewrite bind_run, bind_run, (none_throws_experiment_run w e He).
  by rewrite put_experiment_run.
Qed.

Lemma multi_match_in_objective metric oc os i so :
  objective oc = MultiObjective os →
  first_match (λ so, metric_name (_metric so)) metric os i so →
  metric_name metric ∈ objective_names oc.
Proof.
  intros Ho Hm. unfold objective_names. rewrite Ho. cbn.
  rewrite <- list_fmap_compose. by apply (first_match_elem _ _ _ i so).
Qed.

Lemma scalarized_match_in_objective metric oc ms ws mn i m :
  objective oc = ScalarizedObjective ms ws mn →
  first_match metric_name metric ms i m →
  metric_name metric ∈ objective_names oc.
Proof.
  intros Ho Hm. unfold objective_names. rewrite Ho. cbn.
  by apply (first_match_elem _ _ _ i m).
Qed.

Lemma single_match_in_objective metric oc so :
  objective oc = Objective_ so →
  metric_name metric = metric_name (_metric so) →
  metric_name metric ∈ objective_names oc.
Proof.
  intros Ho Hm. unfold objective_names. rewrite Ho. cbn.
  rewrite Hm. apply list_elem_of_singleton. reflexivity.
Qed.

Lemma constraint_match_in_constraints metric oc i c :
  first_match (λ c, metric_name (oc_metric c)) metric
    (_outcome_constraints oc) i c →
  metric_name metric ∈ constraint_names oc.
Proof. apply first_match_elem. Qed.

(** Two cases of the resolution order that cannot hold together. *)
Ltac resolution_clash :=
  repeat match goal with
  | H : not_in_config _ ?e, Hoc : optimization_config ?e = Some _ |- _ =>
      destruct (H _ Hoc); clear H
  | Ho : objective ?oc = MultiObjective _, Hm : first_match _ _ _ _ _ |- _ =>
      pose proof (multi_match_in_objective _ _ _ _ _ Ho Hm); clear Hm
  | Ho : objective ?oc = ScalarizedObjective _ _ _,
    Hm : first_match _ _ _ _ _ |- _ =>
      pose proof (scalarized_match_in_objective _ _ _ _ _ _ _ Ho Hm); clear Hm
  | Ho : objective ?oc = Objective_ _,
    Hm : metric_name _ = metric_name (_metric _) |- _ =>
      pose proof (single_match_in_objective _ _ _ Ho Hm); clear Hm
  | Hm : first_match _ _ (_outcome_constraints _) _ _ |- _ =>
      apply constraint_match_in_constraints in Hm
  end;
  first [done | congruence].

(** The resolution order selects one outcome. *)
Lemma resolution_functional metric e e1 l1 e2 l2 :
  resolution metric e e1 l1 → resolution metric e e2 l2 →
  e1 = e2 ∧ l1 = l2.
Proof.
  intros H1 H2.
  destruct H1 as [oc os i so Hoc Ho Hm|oc ms ws mn i m Hoc Ho Hm
                 |oc so Hoc Ho Hm|oc i c Hoc Hn Hm|old Hn Hold|Hn Hnone];
  destruct H2 as [oc' os' i' so' Hoc' Ho' Hm'|oc' ms' ws' mn' i' m' Hoc' Ho' Hm'
                 |oc' so' Hoc' Ho' Hm'|oc' i' c' Hoc' Hn' Hm'|old' Hn' Hold'
                 |Hn' Hnone'];
  try (rewrite Hoc in Hoc'; injection Hoc' as <-);
  try (rewrite Ho in Ho'; try discriminate Ho'; simplify_eq);
  try (split; reflexivity);
  try (destruct (first_match_unique _ _ _ _ _ _ _ Hm Hm') as [<- <-];
       split; reflexivity);
  try resolution_clash.
Qed.

(** C2.  [_overwrite_metric] returns normally after exactly the one
    substitution or insertion selected by the resolution order: the first
    name match among the members of a multi-objective; else among the
    metrics of a scalarized objective; else the metric of a single
    objective; else the first name match among the outcome constraints in
    declaration order; else the tracking metric of that name; else the
    metric is inserted as a new tracking metric (with a warning).  The
    order selects one outcome only. *)
Theorem overwrite_metric_resolution w e metric :
  _experiment (self w) = Some e →
  ∃ e' warnings,
    _overwrite_metric metric w =
      ({| self := set_experiment_field (Some e') (self w);
          logged := logged w ++ warnings;
          gs_requests := gs_requests w |}, Ok ())
    ∧ resolution metric e e' warnings
    ∧ ∀ e'' warnings',
        resolution metric e e'' warnings' → e'' = e' ∧ warnings' = warnings.
Proof.
  intros He.
  assert (∃ e' warnings,
    _overwrite_metric metric w =
      ({| self := set_experiment_field (Some e') (self w);
          logged := logged w ++ warnings;
          gs_requests := gs_requests w |}, Ok ())
    ∧ resolution metric e e' warnings) as (e' & warnings & Hrun & Hres).
  { destruct (optimization_config e ≫= overwrite_config metric) as [oc'|] eqn:Hov.
    - exists (set_optimization_config (Some oc') e), [].
      split.
      { rewrite (overwrite_metric_in_config w e metric oc' He Hov).
        unfold with_experiment. by rewrite (right_id_L [] (++)). }
      destruct (optimization_config e) as [oc|] eqn:Hoc; [|done].
      cbn in Hov. unfold overwrite_config in Hov.
      destruct (overwrite_objective metric (objective oc)) as [o'|] eqn:Hobj.
      + injection Hov as <-. unfold overwrite_objective in Hobj.
        destruct (objective oc) as [so|ms ws mn|os] eqn:Ho.
        * case_decide as Hname; [|done]. injection Hobj as <-.
          replace (set_optimization_config _ e)
            with (with_objective (Objective_ (with_metric metric so)) e)
            by (unfold with_objective; by rewrite Hoc).
          by eapply resolve_single.
        * destruct (list_find _ ms) as [[i m]|] eqn:Hfind; [|done].
          injection Hobj as <-. apply list_find_first_match in Hfind.
          replace (set_optimization_config _ e)
            with (with_objective (ScalarizedObjective (<[i := metric]> ms) ws mn) e)
            by (unfold with_objective; by rewrite Hoc).
          by eapply resolve_scalarized.
        * destruct (list_find _ os) as [[i so]|] eqn:Hfind; [|done].
          injection Hobj as <-.
          apply (list_find_first_match (λ so, metric_name (_metric so)))
            in Hfind.
          replace (set_optimization_config _ e)
            with (with_objective
                    (MultiObjective (<[i := with_metric metric so]> os)) e)
            by (unfold with_objective; by rewrite Hoc).
          by eapply resolve_multi.
      + apply overwrite_objective_None in Hobj.
        unfold overwrite_constraints in Hov.
        destruct (list_find _ (_outcome_constraints oc)) as [[i c]|] eqn:Hfind;
          [|done].
        injection Hov as <-.
        apply (list_find_first_match (λ c, metric_name (oc_metric c))) in Hfind.
        replace (set_optimization_config _ e)
          with (with_constraints
                  (<[i := constraint_with_metric metric c]>
                     (_outcome_constraints oc)) e)
          by (unfold with_constraints; by rewrite Hoc).
        by eapply resolve_constraint.
    - apply overwrite_config_None in Hov.
      destruct (_tracking_metrics e !! metric_name metric) as [old|] eqn:Htm.
      + eexists _, []. split.
        { rewrite (overwrite_metric_tracking w e metric old He Hov Htm).
          unfold with_experiment. by rewrite (right_id_L [] (++)). }
        by eapply resolve_tracking.
      + eexists _, _. split.
        { by rewrite (overwrite_metric_insert w e metric He Hov Htm). }
        by apply resolve_insert. }
  exists e', warnings. split; [done|]. split; [done|].
  intros e'' warnings' Hres'.
  by apply (resolution_functional metric e).
Qed.

(** C6.  A metric whose name is neither in the optimization config (its
    objective and its outcome constraints) nor among the tracking metrics is
    added as a tracking metric under its name, with one warning and no
    error; the optimization config, objective and outcome constraints alike,
    and everything else in the experiment stay as they were. *)
Theorem unknown_metric_becomes_tracking w e metric :
  _experiment (self w) = Some e →
  not_in_config metric e →
  _tracking_metrics e !! metric_name metric = None →
  ∃ e',
    _overwrite_metric metric w =
      ({| self := set_experiment_field (Some e') (self w);
          logged := logged w ++ [MetricAddedAsTrackingWarning metric];
          gs_requests := gs_requests w |}, Ok ())
    ∧ _tracking_metrics e' =
        <[metric_name metric := metric]> (_tracking_metrics e)
    ∧ optimization_config e' = optimization_config e
    ∧ trials e' = trials e
    ∧ status_quo e' = status_quo e
    ∧ search_space e' = search_space e.
Proof.
  intros He Hno Hnone. eexists. split.
  - by apply overwrite_metric_insert.
  - done.
Qed.

(** ** Precondition failures *)

(** C7.  With an experiment whose optimization config is not set,
    [get_next_trials] raises UnsupportedError and the world is what it was:
    no request has reached the generation strategy, none has been chosen,
    and no trial has been created. *)
Theorem get_next_trials_requires_optimization_config w e maximum_trials
    fixed_parameters :
  _experiment (self w) = Some e →
  optimization_config e = None →
  get_next_trials maximum_trials fixed_parameters w =
  (w, Raise (UnsupportedError
     "OptimizationConfig not set. Please call configure_optimization before generating trials.")).
Proof.
  intros He Hoc. unfold get_next_trials.
  rewrite bind_run, (none_throws_experiment_run w e He).
  by rewrite Hoc.
Qed.

(** C8.  Once an experiment is configured, [configure_experiment] raises
    UnsupportedError and leaves the world, the experiment included, as it
    was. *)
Theorem configure_experiment_twice w e experiment_config :
  _experiment (self w) = Some e →
  configure_experiment experiment_config w =
  (w, Raise (UnsupportedError
     "Experiment already configured. Please create a new Client if you would like a new experiment.")).
Proof.
  intros He. unfold configure_experiment.
  rewrite bind_run. cbn. by rewrite He.
Qed.

(** C9.  Without an early-stopping strategy, [should_stop_trial_early]
    raises UnsupportedError for every trial index and leaves the world as it
    was: the strategy is still unset afterwards. *)
Theorem should_stop_trial_early_requires_strategy w trial_index :
  _early_stopping_strategy (self w) = None →
  should_stop_trial_early trial_index w =
  (w, Raise (UnsupportedError
     "Early stopping strategy not set. Please set an early stopping strategy before calling should_stop_trial_early.")).
Proof.
  intros Hs. unfold should_stop_trial_early.
  rewrite bind_run. cbn. by rewrite Hs.
Qed.

(** ** Trial creation *)

Lemma next_index_above (ts : gmap Z Trial) k t :
  ts !! k = Some t → k < next_index ts.
Proof.
  intros Hk. apply elem_of_map_to_list in Hk. unfold next_index.
  induction (map_to_list ts) as [|[k' t'] l IH]; [by apply elem_of_nil in Hk|].
  apply elem_of_cons in Hk as [[= <- <-]|Hin]; cbn.
  - lia.
  - specialize (IH Hin). lia.
Qed.

Lemma next_index_fresh (ts : gmap Z Trial) : ts !! next_index ts = None.
Proof.
  destruct (ts !! next_index ts) as [t|] eqn:Hk; [|done].
  apply next_index_above in Hk. lia.
Qed.

Lemma new_running_trial_run w e generator_run :
  _experiment (self w) = Some e →
  (trial ← new_trial generator_run;
   trial' ← mark_running trial;
   store_trial (index trial) trial';;
   mret trial') w =
  (with_experiment
     (set_trials
        (<[next_index (trials e) := registered (trials e) generator_run]>
           (trials e)) e) w,
   Ok (registered (trials e) generator_run)).
Proof.
  intros He.
  unfold new_trial, store_trial, put_experiment, _none_throws_experiment,
    mbind, M_bind, get_self, put_self, none_throws, mret, M_ret.
  cbn. rewrite He. cbn.
  unfold with_experiment, registered, set_status. cbn.
  by rewrite insert_insert_eq.
Qed.

Lemma nonempty_name_truthy name :
  truthy (Some (default "baseline" (truthy name))) =
  Some (default "baseline" (truthy name)).
Proof. by destruct name as [[|a s]|]. Qed.

(** C10.  [attach_baseline] registers a new trial under a fresh index, with
    one arm that carries the given parameterization and the given arm name,
    or the name baseline when none is supplied; the trial is running; the
    experiment's status quo becomes the arm of that trial; the index of the
    new trial is returned. *)
Theorem attach_baseline_sets_status_quo w e parameters arm_name :
  _experiment (self w) = Some e →
  let trial_index := next_index (trials e) in
  let name := default "baseline" (truthy arm_name) in
  let baseline := {| arm_name := Some name; parameters := parameters |} in
  ∃ w' e',
    attach_baseline parameters arm_name w = (w', Ok trial_index)
    ∧ _experiment (self w') = Some e'
    ∧ trials e !! trial_index = None
    ∧ trials e' =
        <[trial_index := {| index := trial_index; arm := Some baseline;
                            status := RUNNING; trial_data := ∅ |}]> (trials e)
    ∧ status_quo e' = Some baseline
    ∧ (arm_name = None → name = "baseline").
Proof.
  intros He trial_index name baseline.
  unfold attach_baseline, attach_trial, Experiment_attach_trial.
  rewrite (nonempty_name_truthy arm_name).
  unfold new_trial, store_trial, put_experiment, _none_throws_experiment,
    getitem, mbind, M_bind, get_self, put_self, none_throws, mret, M_ret.
  cbn. rewrite He. cbn. rewrite lookup_insert_eq. cbn.
  rewrite insert_insert_eq.
  eexists _, _. split; [reflexivity|]. split; [reflexivity|]. cbn.
  split; [apply next_index_fresh|]. split; [reflexivity|].
  split; [reflexivity|]. by intros ->.
Qed.

(** ** Generating trials *)

Lemma pending_features_spec t p :
  pending_features t = Some p
  ↔ is_terminal (status t) = false
    ∧ ∃ a, arm t = Some a ∧ p = {| of_parameters := parameters a |}.
Proof.
  unfold pending_features.
  destruct (is_terminal (status t)), (arm t) as [a|]; cbn; split;
    try (by intros [? (? & ? & ?)]); try done.
  - intros [= <-]. eauto.
  - by intros [_ (a' & [= <-] & ->)].
Qed.

Lemma elem_of_pending e p :
  p ∈ get_pending_observation_features_based_on_trial_status e
  ↔ ∃ i t a, trials e !! i = Some t ∧ is_terminal (status t) = false
             ∧ arm t = Some a ∧ p = {| of_parameters := parameters a |}.
Proof.
  unfold get_pending_observation_features_based_on_trial_status.
  rewrite list_elem_of_omap. split.
  - intros ([i t] & Hin%elem_of_map_to_list & (Hs & a & Ha & ->)%pending_features_spec).
    by exists i, t, a.
  - intros (i & t & a & Hin & Hs & Ha & ->). exists (i, t).
    split; [by apply elem_of_map_to_list|].
    apply pending_features_spec. eauto.
Qed.

Lemma pending_insert_fresh e idx t :
  trials e !! idx = None →
  get_pending_observation_features_based_on_trial_status
    (set_trials (<[idx := t]> (trials e)) e)
  ≡ₚ get_pending_observation_features_based_on_trial_status e
     ++ omap pending_features [t].
Proof.
  intros Hfresh.
  unfold get_pending_observation_features_based_on_trial_status. cbn.
  rewrite (map_to_list_insert _ _ _ Hfresh). cbn.
  destruct (pending_features t) as [p|].
  - apply Permutation_cons_append.
  - by rewrite (right_id_L [] (++)).
Qed.

Lemma generation_strategy_or_choose_run w e :
  _experiment (self w) = Some e →
  ∃ gs,
    _generation_strategy_or_choose w =
    ({| self := set_generation_strategy_field (Some gs) (self w);
        logged := logged w;
        gs_requests := gs_requests w |}, Ok gs).
Proof.
  intros He.
  unfold _generation_strategy_or_choose, configure_generation_strategy,
    _none_throws_experiment, mbind, M_bind, get_self, put_self, none_throws,
    mret, M_ret.
  destruct w as [[ex [gs|] es db seed] lg rq]; cbn in *; subst ex; cbn;
    eexists; reflexivity.
Qed.

Lemma register_generated_run w e g rest :
  _experiment (self w) = Some e →
  register_generated (g :: rest) w =
  (with_experiment
     (set_trials
        (<[next_index (trials e) := registered (trials e) g]> (trials e)) e) w,
   Ok (registered (trials e) g)).
Proof.
  intros He. unfold register_generated.
  rewrite bind_run, ret_run. by apply new_running_trial_run.
Qed.

(** The loop over the generator runs: the world changes in its experiment
    only; when the loop ends normally, the pending set has grown by the
    registered trials, which are running and sit under fresh, distinct
    indices. *)
Lemma register_all_run generator_runs : ∀ w e,
  _experiment (self w) = Some e →
  ∃ e' r,
    mapM register_generated generator_runs w = (with_experiment e' w, r)
    ∧ optimization_config e' = optimization_config e
    ∧ (∀ k t, trials e !! k = Some t → trials e' !! k = Some t)
    ∧ ∀ ts, r = Ok ts →
        get_pending_observation_features_based_on_trial_status e'
        ≡ₚ get_pending_observation_features_based_on_trial_status e
           ++ omap pending_features ts
        ∧ Forall (λ t, status t = RUNNING ∧ trials e !! index t = None) ts
        ∧ NoDup (index <$> ts).
Proof.
  induction generator_runs as [|run runs IH]; intros w e He.
  - exists e, (Ok []). cbn. rewrite ret_run, (with_experiment_id w e He).
    split; [done|]. split; [done|]. split; [done|].
    intros ts [= <-]. cbn. rewrite (right_id_L [] (++)).
    split; [done|]. split; [constructor|constructor].
  - cbn [mapM]. rewrite bind_run.
    destruct run as [|g rest].
    { exists e, (Raise IndexError). cbn.
      rewrite (with_experiment_id w e He).
      split; [done|]. split; [done|]. split; [done|]. by intros ts. }
    rewrite (register_generated_run w e g rest He).
    set (idx := next_index (trials e)).
    set (t0 := registered (trials e) g).
    set (e0 := set_trials (<[idx := t0]> (trials e)) e).
    destruct (IH (with_experiment e0 w) e0 eq_refl)
      as (e' & r' & Hrun & Hoc & Hmono & Hok).
    rewrite bind_run, Hrun, with_experiment_twice.
    assert (Hfresh : trials e !! idx = None) by apply next_index_fresh.
    exists e'. destruct r' as [ts'|err].
    + exists (Ok (t0 :: ts')). rewrite ret_run.
      split; [done|]. split; [done|]. split.
      { intros k t Hk. apply Hmono. cbn. rewrite lookup_insert_ne; [done|].
        intros <-. congruence. }
      intros ts [= <-]. destruct (Hok ts' eq_refl) as (Hperm & Hall & Hnd).
      split; [|split].
      * rewrite Hperm. unfold e0. rewrite (pending_insert_fresh e idx t0 Hfresh).
        rewrite <- (assoc_L (++)). by rewrite <- omap_app.
      * constructor; [done|].
        eapply Forall_impl; [exact Hall|]. cbn.
        intros t [Hs Hnone]. split; [done|].
        by apply lookup_insert_None in Hnone as [Hnone _].
      * cbn. apply NoDup_cons. split; [|done].
        intros (t & Hidx & Hin)%list_elem_of_fmap.
        rewrite Forall_forall in Hall. destruct (Hall t Hin) as [_ Hnone].
        cbn in Hnone. rewrite <- Hidx in Hnone.
        change (index t0) with idx in Hnone.
        by rewrite lookup_insert_eq in Hnone.
    + exists (Raise err).
      split; [done|]. split; [done|]. split; [|by intros ts].
      intros k t Hk. apply Hmono. cbn. rewrite lookup_insert_ne; [done|].
      intros <-. congruence.
Qed.

Lemma index_and_parameters_run t w :
  index_and_parameters t w =
  (w, match arm t with
      | Some a => Ok (index t, parameters a)
      | None => Raise (AssertionError "Unexpected `None`")
      end).
Proof. unfold index_and_parameters. by destruct (arm t). Qed.

(** Reading index and parameters off the registered trials changes
    nothing. *)
Lemma index_and_parameters_all_run ts : ∀ w,
  ∃ r,
    mapM index_and_parameters ts w = (w, r)
    ∧ ∀ entries, r = Ok entries →
        entries.*1 = index <$> ts
        ∧ (Forall (λ t, status t = RUNNING) ts →
           omap pending_features ts =
           (λ kv, {| of_parameters := kv.2 |}) <$> entries).
Proof.
  induction ts as [|t ts IH]; intros w.
  - exists (Ok []). split; [done|]. by intros entries [= <-].
  - cbn [mapM]. rewrite bind_run, (index_and_parameters_run t w).
    destruct (IH w) as (r & Hrun & Hok).
    destruct (arm t) as [a|] eqn:Ha.
    + rewrite bind_run, Hrun.
      destruct r as [entries|err].
      * eexists. split; [reflexivity|]. intros ? [= <-].
        destruct (Hok entries eq_refl) as [Hidx Hfeat]. cbn.
        split; [by rewrite Hidx|].
        intros [Hs Hall]%Forall_cons. rewrite <- (Hfeat Hall).
        unfold pending_features at 1. by rewrite Hs, Ha.
      * eexists. split; [reflexivity|]. by intros entries.
    + eexists. split; [reflexivity|]. by intros entries.
Qed.

(** A dictionary built from entries with distinct keys lists exactly those
    entries. *)
Lemma dict_of_entries {V} (entries : list (Z * V)) : ∀ d : gmap Z V,
  NoDup (entries.*1) →
  (∀ k, k ∈ entries.*1 → d !! k = None) →
  map_to_list (foldl (λ d kv, <[kv.1 := kv.2]> d) d entries)
  ≡ₚ map_to_list d ++ entries.
Proof.
  induction entries as [|[k v] entries IH]; intros d Hnd Hfresh.
  - cbn. by rewrite (right_id_L [] (++)).
  - cbn in *. apply NoDup_cons in Hnd as [Hk Hnd].
    rewrite IH; [|done|].
    + rewrite map_to_list_insert by (apply Hfresh; left).
      by rewrite <- Permutation_middle.
    + intros k' Hk'. rewrite lookup_insert_ne by (intros ->; done).
      apply Hfresh. by right.
Qed.

(** One call of [get_next_trials] on an experiment with an optimization
    config: the request it sends, and the pending set it leaves behind. *)
Lemma get_next_trials_run w e oc maximum_trials fixed_parameters :
  _experiment (self w) = Some e →
  optimization_config e = Some oc →
  ∃ w' e' r,
    get_next_trials maximum_trials fixed_parameters w = (w', r)
    ∧ gs_requests w' =
        gs_requests w ++ [gen_request e maximum_trials fixed_parameters]
    ∧ _experiment (self w') = Some e'
    ∧ optimization_config e' = Some oc
    ∧ ∀ created, r = Ok created →
        get_pending_observation_features_based_on_trial_status e'
        ≡ₚ get_pending_observation_features_based_on_trial_status e
           ++ ((λ kv, {| of_parameters := kv.2 |}) <$> map_to_list created).
Proof.
  intros He Hoc. unfold get_next_trials.
  rewrite bind_run, (none_throws_experiment_run w e He), Hoc.
  destruct (generation_strategy_or_choose_run w e He) as [gs Hgs].
  rewrite bind_run, Hgs.
  rewrite bind_run. erewrite none_throws_experiment_run by (cbn; exact He).
  rewrite bind_run. cbn [get_self self].
  rewrite bind_run. cbn [record_request self logged gs_requests].
  destruct (gen_for_multiple_trials_with_multiple_models _ _ _ _ _ _ _)
    as [gs' outcome].
  rewrite bind_run. cbn [put_self self logged gs_requests].
  rewrite bind_run.
  destruct outcome as [generator_runs|err]; cbn [lift_result].
  2:{ eexists _, e, _. split; [reflexivity|]. cbn.
      split; [reflexivity|]. split; [exact He|]. split; [exact Hoc|].
      by intros created. }
  rewrite ret_run, bind_run.
  match goal with |- context [mapM register_generated _ ?w2] =>
    destruct (register_all_run generator_runs w2 e He)
      as (e' & r & Hreg & Hoc' & _ & Hok)
  end.
  rewrite Hreg.
  destruct r as [ts|err].
  2:{ eexists _, e', _. split; [reflexivity|]. cbn.
      split; [reflexivity|]. split; [reflexivity|].
      split; [by rewrite Hoc'|]. by intros created. }
  rewrite bind_run.
  match goal with |- context [mapM index_and_parameters _ ?w3] =>
    destruct (index_and_parameters_all_run ts w3) as (r & Hidx & Hentries)
  end.
  rewrite Hidx.
  destruct r as [entries|err].
  2:{ eexists _, e', _. split; [reflexivity|]. cbn.
      split; [reflexivity|]. split; [reflexivity|].
      split; [by rewrite Hoc'|]. by intros created. }
  rewrite ret_run.
  eexists _, e', _. split; [reflexivity|]. cbn.
  split; [reflexivity|]. split; [reflexivity|]. split; [by rewrite Hoc'|].
  intros created [= <-].
  destruct (Hok ts eq_refl) as (Hperm & Hall & Hnd).
  destruct (Hentries entries eq_refl) as [Hkeys Hfeat].
  rewrite Hperm. apply Permutation_app_head.
  rewrite Hfeat by (eapply Forall_impl; [exact Hall|]; by intros t [? _]).
  rewrite dict_of_entries.
  - by rewrite map_to_list_empty.
  - by rewrite Hkeys.
  - intros k _. apply lookup_empty.
Qed.

End Properties.

(** * Further properties *)

Section FurtherProperties.
Context `{Ext : Externals} {Col : Collaborators} {An : Analyses}.

Implicit Types (w : World) (e : Experiment) (t : Trial) (idx : Z).

(** ** Failing fast *)

Lemma none_throws_experiment_unset w :
  _experiment (self w) = None →
  _none_throws_experiment w =
  (w, Raise (AssertionError
     "Experiment not set. Please call configure_experiment or load an experiment before utilizing any other methods on the Client.")).
Proof.
  intros He. unfold _none_throws_experiment.
  rewrite bind_run. cbn. by rewrite He.
Qed.

(** X1.  On a client without an experiment, every method that works on the
    experiment raises the same AssertionError and leaves the world as it
    was. *)
Theorem unconfigured_client_raises w :
  _experiment (self w) = None →
  ∃ msg,
    (∀ n fixed, get_next_trials n fixed w = (w, Raise (AssertionError msg)))
    ∧ (∀ i raw p, complete_trial i raw p w = (w, Raise (AssertionError msg)))
    ∧ (∀ i raw p, attach_data i raw p w = (w, Raise (AssertionError msg)))
    ∧ (∀ ps name, attach_trial ps name w = (w, Raise (AssertionError msg)))
    ∧ (∀ ps name, attach_baseline ps name w = (w, Raise (AssertionError msg)))
    ∧ (∀ i, mark_trial_failed i w = (w, Raise (AssertionError msg)))
    ∧ (∀ i, mark_trial_abandoned i w = (w, Raise (AssertionError msg)))
    ∧ (∀ i raw p,
         mark_trial_early_stopped i raw p w = (w, Raise (AssertionError msg)))
    ∧ (∀ m ms, configure_metrics (m :: ms) w = (w, Raise (AssertionError msg)))
    ∧ (∀ cfg,
         configure_generation_strategy cfg w = (w, Raise (AssertionError msg)))
    ∧ (∀ oc, set_optimization_config_ oc w = (w, Raise (AssertionError msg))).
Proof.
  intros He.
  pose proof (none_throws_experiment_unset w He) as Hraise.
  match type of Hraise with
  | _ = (_, Raise (AssertionError ?m)) => exists m; set (msg := m) in *
  end.
  assert (Hattach : ∀ i raw p,
            attach_data i raw p w = (w, Raise (AssertionError msg))).
  { intros i raw p. unfold attach_data. by rewrite bind_run, Hraise. }
  repeat split.
  - intros n fixed. unfold get_next_trials. by rewrite bind_run, Hraise.
  - intros i [raw|] p; unfold complete_trial.
    + by rewrite bind_run, Hattach.
    + by rewrite bind_run, ret_run, bind_run, Hraise.
  - exact Hattach.
  - intros ps name. unfold attach_trial, Experiment_attach_trial, new_trial.
    by rewrite !bind_run, Hraise.
  - intros ps name.
    unfold attach_baseline, attach_trial, Experiment_attach_trial, new_trial.
    by rewrite !bind_run, Hraise.
  - intros i. unfold mark_trial_failed. by rewrite bind_run, Hraise.
  - intros i. unfold mark_trial_abandoned. by rewrite bind_run, Hraise.
  - intros i raw p. unfold mark_trial_early_stopped.
    by rewrite bind_run, Hattach.
  - intros m ms.
    assert (Hov : _overwrite_metric m w = (w, Raise (AssertionError msg)))
      by (unfold _overwrite_metric; by rewrite bind_run, Hraise).
    unfold configure_metrics, _set_metrics. cbn [mapM].
    by rewrite bind_run, bind_run, Hov.
  - intros cfg. unfold configure_generation_strategy.
    by rewrite bind_run, Hraise.
  - intros oc. unfold set_optimization_config_. by rewrite bind_run, Hraise.
Qed.

(** X2.  On an index that is not in the trial collection, the manual
    status overrides and [complete_trial] with data raise KeyError for that
    index and leave the world as it was: nothing is logged and no data is
    kept.  The same holds for [complete_trial] without data when no
    optimization config is set. *)
Theorem unknown_trial_index_raises w e idx :
  _experiment (self w) = Some e →
  trials e !! idx = None →
  mark_trial_failed idx w = (w, Raise (KeyError idx))
  ∧ mark_trial_abandoned idx w = (w, Raise (KeyError idx))
  ∧ (∀ raw p, mark_trial_early_stopped idx raw p w = (w, Raise (KeyError idx)))
  ∧ (∀ raw p, complete_trial idx (Some raw) p w = (w, Raise (KeyError idx)))
  ∧ (optimization_config e = None →
     ∀ p, complete_trial idx None p w = (w, Raise (KeyError idx))).
Proof.
  intros He Hnone.
  assert (Hattach : ∀ raw p, attach_data idx raw p w = (w, Raise (KeyError idx))).
  { intros raw p. unfold attach_data.
    rewrite bind_run, (none_throws_experiment_run w e He).
    by rewrite bind_run, getitem_missing. }
  repeat split.
  - unfold mark_trial_failed.
    rewrite bind_run, (none_throws_experiment_run w e He).
    by rewrite bind_run, getitem_missing.
  - unfold mark_trial_abandoned.
    rewrite bind_run, (none_throws_experiment_run w e He).
    by rewrite bind_run, getitem_missing.
  - intros raw p. unfold mark_trial_early_stopped.
    by rewrite bind_run, Hattach.
  - intros raw p. unfold complete_trial. by rewrite bind_run, Hattach.
  - intros Hoc p. unfold complete_trial.
    rewrite bind_run, ret_run.
    rewrite bind_run, (none_throws_experiment_run w e He), Hoc.
    rewrite bind_run, bind_run. by rewrite getitem_missing.
Qed.

(** ** Manual transitions of a running trial *)

(** X3.  On a running trial, [mark_trial_failed] and [mark_trial_abandoned]
    return normally; the trial, and only the trial, changes, and only in its
    status, which becomes FAILED or ABANDONED; nothing is logged. *)
Theorem mark_running_trial w e idx t :
  _experiment (self w) = Some e →
  trials e !! idx = Some t →
  status t = RUNNING →
  mark_trial_failed idx w =
    (with_experiment
       (set_trials (<[idx := set_status FAILED t]> (trials e)) e) w, Ok ())
  ∧ mark_trial_abandoned idx w =
    (with_experiment
       (set_trials (<[idx := set_status ABANDONED t]> (trials e)) e) w, Ok ()).
Proof.
  intros He Ht Hs. split.
  - unfold mark_trial_failed, mark_failed.
    rewrite bind_run, (none_throws_experiment_run w e He).
    by apply mark_and_store_running.
  - unfold mark_trial_abandoned, mark_abandoned.
    rewrite bind_run, (none_throws_experiment_run w e He).
    by apply mark_and_store_running.
Qed.

(** X4.  [mark_trial_early_stopped] attaches the data before it attempts
    the transition: on an existing trial the data is merged into the trial
    whatever becomes of the transition.  A running trial ends up
    EARLY_STOPPED and the call returns normally; any other trial keeps its
    status. *)
Theorem mark_trial_early_stopped_attaches_first w e idx t raw p :
  _experiment (self w) = Some e →
  trials e !! idx = Some t →
  ∃ w' r t',
    mark_trial_early_stopped idx raw p w = (w', r)
    ∧ current_trial w' idx = Some t'
    ∧ trial_data t' = trial_data (update_trial_data [(p, raw)] t)
    ∧ (status t = RUNNING → r = Ok () ∧ status t' = EARLY_STOPPED)
    ∧ (status t ≠ RUNNING → status t' = status t).
Proof.
  intros He Ht. unfold mark_trial_early_stopped.
  rewrite bind_run, (attach_data_run w e idx t raw p He Ht).
  set (t1 := update_trial_data [(p, raw)] t).
  set (e1 := set_trials (<[idx := t1]> (trials e)) e).
  assert (Ht1 : trials e1 !! idx = Some t1) by (cbn; apply lookup_insert_eq).
  rewrite bind_run.
  erewrite none_throws_experiment_run by reflexivity.
  rewrite bind_run, (getitem_run _ idx t1) by exact Ht1.
  rewrite bind_run. unfold mark_early_stopped, mark_terminal.
  change (status t1) with (status t).
  destruct (status t) eqn:Hs.
  - eexists _, _, t1. split; [reflexivity|].
    split; [unfold current_trial; cbn; apply lookup_insert_eq|].
    split; [done|]. split; [done|]. by intros _.
  - rewrite ret_run. erewrite store_trial_run by reflexivity.
    eexists _, _, _. split; [reflexivity|].
    split; [unfold current_trial; cbn; apply lookup_insert_eq|].
    split; [done|]. split; [done|]. by intros [].
  - rewrite bind_run. cbn [warning]. rewrite ret_run.
    erewrite store_trial_run by reflexivity.
    eexists _, _, _. split; [reflexivity|].
    split; [unfold current_trial; cbn; apply lookup_insert_eq|].
    split; [done|]. split; [done|]. by intros _.
  - rewrite bind_run. cbn [warning]. rewrite ret_run.
    erewrite store_trial_run by reflexivity.
    eexists _, _, _. split; [reflexivity|].
    split; [unfold current_trial; cbn; apply lookup_insert_eq|].
    split; [done|]. split; [done|]. by intros _.
  - rewrite bind_run. cbn [warning]. rewrite ret_run.
    erewrite store_trial_run by reflexivity.
    eexists _, _, _. split; [reflexivity|].
    split; [unfold current_trial; cbn; apply lookup_insert_eq|].
    split; [done|]. split; [done|]. by intros _.
  - rewrite bind_run. cbn [warning]. rewrite ret_run.
    erewrite store_trial_run by reflexivity.
    eexists _, _, _. split; [reflexivity|].
    split; [unfold current_trial; cbn; apply lookup_insert_eq|].
    split; [done|]. split; [done|]. by intros _.
Qed.

(** ** Computations that leave the experiment alone *)

Lemma preserves_bind {A B} (m : M A) (f : A → M B) :
  preserves_experiment m → (∀ a, preserves_experiment (f a)) →
  preserves_experiment (m ≫= f).
Proof.
  intros Hm Hf w w' r. rewrite bind_run.
  destruct (m w) as [w1 [a|err]] eqn:Hrun; intros Hk.
  - rewrite (Hf a w1 w' r Hk). by apply (Hm w w1 (Ok a)).
  - injection Hk as <- <-. by apply (Hm w w1 (Raise err)).
Qed.

Lemma preserves_pure {A} (m : M A) :
  (∀ w, (m w).1 = w) → preserves_experiment m.
Proof. intros Hm w w' r Hrun. specialize (Hm w). rewrite Hrun in Hm. by subst. Qed.

Lemma preserves_ret {A} (a : A) : preserves_experiment (mret a : M A).
Proof. by apply preserves_pure. Qed.

Lemma preserves_raise {A} err : preserves_experiment (raise err : M A).
Proof. by apply preserves_pure. Qed.

Lemma preserves_get_self : preserves_experiment get_self.
Proof. by apply preserves_pure. Qed.

Lemma preserves_none_throws {A} (o : option A) msg :
  preserves_experiment (none_throws o msg).
Proof. apply preserves_pure. by destruct o. Qed.

Lemma preserves_getitem d idx : preserves_experiment (getitem d idx).
Proof. apply preserves_pure. intros w. unfold getitem. by destruct (d !! idx). Qed.

Lemma preserves_lift_result {A} (r : result A) :
  preserves_experiment (lift_result r).
Proof. apply preserves_pure. by destruct r. Qed.

Lemma preserves_warning record : preserves_experiment (warning record).
Proof. by intros w w' r [= <- <-]. Qed.

Lemma preserves_record_request request :
  preserves_experiment (record_request request).
Proof. by intros w w' r [= <- <-]. Qed.

Lemma preserves_none_throws_experiment :
  preserves_experiment _none_throws_experiment.
Proof.
  apply preserves_bind; [apply preserves_get_self|].
  intros c. apply preserves_none_throws.
Qed.

Lemma preserves_put_generation_strategy g :
  preserves_experiment
    (c ← get_self; put_self (set_generation_strategy_field g c)).
Proof. by intros w w' r [= <- <-]. Qed.

Lemma preserves_put_early_stopping_strategy s :
  preserves_experiment
    (c ← get_self; put_self (set_early_stopping_strategy_field s c)).
Proof. by intros w w' r [= <- <-]. Qed.

Lemma preserves_mapM {A B} (f : A → M B) (l : list A) :
  (∀ a, preserves_experiment (f a)) → preserves_experiment (mapM f l).
Proof.
  intros Hf. induction l as [|a l IH]; cbn [mapM].
  - apply preserves_ret.
  - apply preserves_bind; [apply Hf|]. intros b.
    apply preserves_bind; [apply IH|]. intros bs. apply preserves_ret.
Qed.

Lemma preserves_configure_generation_strategy cfg :
  preserves_experiment (configure_generation_strategy cfg).
Proof.
  apply preserves_bind; [apply preserves_none_throws_experiment|].
  intros e. apply preserves_put_generation_strategy.
Qed.

Lemma preserves_generation_strategy_or_choose :
  preserves_experiment _generation_strategy_or_choose.
Proof.
  apply preserves_bind; [apply preserves_get_self|]. intros c.
  apply preserves_bind.
  - destruct (_generation_strategy c);
      [apply preserves_ret|apply preserves_configure_generation_strategy].
  - intros _. apply preserves_bind; [apply preserves_get_self|].
    intros c'. apply preserves_none_throws.
Qed.

Lemma preserves_set_generation_strategy gs :
  preserves_experiment (set_generation_strategy gs).
Proof.
  intros w w' r Hrun. unfold set_generation_strategy in Hrun.
  rewrite bind_run in Hrun. cbn [get_self] in Hrun.
  rewrite bind_run in Hrun. cbn [put_self] in Hrun.
  match type of Hrun with
  | ?m ?w1 = _ =>
      assert (preserves_experiment m) as Hrest;
        [|exact (Hrest w1 w' r Hrun)]
  end.
  repeat (first
    [ apply preserves_ret
    | apply preserves_none_throws
    | apply preserves_bind;
        [first [apply preserves_none_throws_experiment
               |apply preserves_get_self
               |apply preserves_none_throws]
        |intros ?] ]).
Qed.

Lemma preserves_should_stop_trial_early idx :
  preserves_experiment (should_stop_trial_early idx).
Proof.
  apply preserves_bind; [apply preserves_get_self|]. intros c.
  destruct (_early_stopping_strategy c) as [s|]; [|apply preserves_raise].
  apply preserves_bind; [apply preserves_none_throws_experiment|]. intros e.
  apply preserves_bind; [apply preserves_lift_result|]. intros resp.
  apply preserves_ret.
Qed.

Lemma preserves_compute_analyses analyses :
  preserves_experiment (compute_analyses analyses).
Proof.
  apply preserves_bind.
  { destruct analyses; [apply preserves_ret|].
    apply preserves_bind; [apply preserves_none_throws_experiment|].
    intros e. apply preserves_ret. }
  intros given. apply preserves_bind; [|intros; apply preserves_ret].
  apply preserves_mapM. intros analysis.
  apply preserves_bind; [apply preserves_none_throws_experiment|]. intros e.
  apply preserves_bind; [apply preserves_generation_strategy_or_choose|].
  intros gs. apply preserves_ret.
Qed.

(** ** Trials only move forward *)

Lemma trial_step_refl t : trial_step t t.
Proof. repeat split; [done|by left]. Qed.

Lemma trial_step_trans t1 t2 t3 :
  trial_step t1 t2 → trial_step t2 t3 → trial_step t1 t3.
Proof.
  intros (Hi & Ha & Hd & Hs) (Hi' & Ha' & Hd' & Hs').
  split; [congruence|]. split; [congruence|].
  split; [by trans (dom (trial_data t2))|].
  destruct Hs as [Hs|[Hs Ht]], Hs' as [Hs'|[Hs' Ht']].
  - left. congruence.
  - right. split; [congruence|done].
  - right. split; [done|]. by rewrite Hs'.
  - rewrite Hs' in Ht. done.
Qed.

Lemma evolves_refl w : evolves w w.
Proof. intros idx t Ht. exists t. split; [done|apply trial_step_refl]. Qed.

Lemma evolves_trans w1 w2 w3 : evolves w1 w2 → evolves w2 w3 → evolves w1 w3.
Proof.
  intros H12 H23 idx t Ht.
  destruct (H12 idx t Ht) as (t2 & Ht2 & Hs12).
  destruct (H23 idx t2 Ht2) as (t3 & Ht3 & Hs23).
  exists t3. split; [done|]. by apply trial_step_trans with t2.
Qed.

Lemma evolves_same_experiment w w' :
  _experiment (self w') = _experiment (self w) → evolves w w'.
Proof.
  intros He idx t Ht. exists t. split; [|apply trial_step_refl].
  unfold current_trial in *. by rewrite He.
Qed.

Lemma evolves_unset w w' : _experiment (self w) = None → evolves w w'.
Proof. intros He idx t Ht. unfold current_trial in Ht. by rewrite He in Ht. Qed.

Lemma evolves_trials w w' e e' :
  _experiment (self w) = Some e →
  _experiment (self w') = Some e' →
  (∀ k t, trials e !! k = Some t →
     ∃ t', trials e' !! k = Some t' ∧ trial_step t t') →
  evolves w w'.
Proof.
  intros He He' Hstep idx t Ht. unfold current_trial in *.
  rewrite He in Ht. rewrite He'. cbn in *. by apply Hstep.
Qed.

Lemma preserves_evolves {A} (m : M A) w :
  preserves_experiment m → evolves w (m w).1.
Proof.
  intros Hm. apply evolves_same_experiment.
  destruct (m w) as [w' r] eqn:Hrun. by apply (Hm w w' r).
Qed.

(** Replacing the trial under [idx] by the outcome of [f]. *)
Lemma update_trial_evolves idx (f : Trial → M Trial) w e :
  (∀ t, preserves_experiment (f t)) →
  (∀ t w1 w2 t', f t w1 = (w2, Ok t') → trial_step t t') →
  _experiment (self w) = Some e →
  evolves w
    ((trial ← getitem (trials e) idx;
      trial' ← f trial;
      store_trial idx trial') w).1.
Proof.
  intros Hpres Hstep He. rewrite bind_run.
  destruct (trials e !! idx) as [t|] eqn:Ht.
  2:{ rewrite getitem_missing by done. apply evolves_refl. }
  rewrite (getitem_run w idx t) by done. rewrite bind_run.
  destruct (f t w) as [w1 [t'|err]] eqn:Hf.
  - assert (He1 : _experiment (self w1) = Some e)
      by (rewrite <- He; by apply (Hpres t w w1 (Ok t'))).
    rewrite (store_trial_run w1 e idx t' He1). cbn [fst].
    eapply (evolves_trials w _ e); [exact He|reflexivity|]. cbn.
    intros k tk Hk. destruct (decide (idx = k)) as [<-|Hne].
    + rewrite lookup_insert_eq. exists t'. split; [done|].
      rewrite Ht in Hk. injection Hk as <-. by apply (Hstep t w w1).
    + rewrite lookup_insert_ne by done. exists tk.
      split; [done|apply trial_step_refl].
  - apply evolves_same_experiment. by apply (Hpres t w w1 (Raise err)).
Qed.

Lemma preserves_mark_terminal requested t :
  preserves_experiment (mark_terminal requested t).
Proof.
  unfold mark_terminal.
  destruct (status t);
    first [apply preserves_ret | apply preserves_raise
          | apply preserves_bind;
              [apply preserves_warning|intros; apply preserves_ret]].
Qed.

Lemma mark_terminal_step requested t w1 w2 t' :
  is_terminal requested = true →
  mark_terminal requested t w1 = (w2, Ok t') → trial_step t t'.
Proof.
  intros Hreq. unfold mark_terminal.
  destruct (status t) eqn:Hs; intros [= <- <-];
    first [apply trial_step_refl|idtac].
  repeat split; [done|]. right. by split.
Qed.

Lemma update_trial_data_step p raw t :
  trial_step t (update_trial_data [(p, raw)] t).
Proof.
  repeat split; [|by left].
  unfold update_trial_data. cbn. rewrite dom_merge_record. set_solver.
Qed.

Lemma mark_trial_evolves requested idx w :
  is_terminal requested = true →
  evolves w
    ((experiment ← _none_throws_experiment;
      trial ← getitem (trials experiment) idx;
      trial' ← mark_terminal requested trial;
      store_trial idx trial') w).1.
Proof.
  intros Hreq. rewrite bind_run.
  destruct (_experiment (self w)) as [e|] eqn:He.
  - rewrite (none_throws_experiment_run w e He).
    apply update_trial_evolves; [apply preserves_mark_terminal| |done].
    intros t w1 w2 t'. by apply mark_terminal_step.
  - by apply evolves_unset.
Qed.

Lemma attach_data_evolves idx raw p w : evolves w (attach_data idx raw p w).1.
Proof.
  unfold attach_data. rewrite bind_run.
  destruct (_experiment (self w)) as [e|] eqn:He.
  - rewrite (none_throws_experiment_run w e He).
    assert (Hstep : ∀ t w1 w2 t',
              (mret (update_trial_data [(p, raw)] t) : M Trial) w1 = (w2, Ok t') →
              trial_step t t').
    { intros t w1 w2 t' [= <- <-]. apply update_trial_data_step. }
    exact (update_trial_evolves idx
             (λ t, mret (update_trial_data [(p, raw)] t)) w e
             (λ t, preserves_ret _) Hstep He).
  - by apply evolves_unset.
Qed.

Lemma complete_trial_evolves idx raw p w :
  evolves w (complete_trial idx raw p w).1.
Proof.
  assert (Hnone : ∀ w, evolves w (complete_trial idx None p w).1).
  { clear w. intros w. unfold complete_trial.
    rewrite bind_run, ret_run, bind_run.
    destruct (_experiment (self w)) as [e|] eqn:He;
      [|by apply evolves_unset].
    rewrite (none_throws_experiment_run w e He).
    assert (Hread : preserves_experiment
              (experiment ← _none_throws_experiment;
               trial ← getitem (trials experiment) idx;
               mret (status trial))).
    { apply preserves_bind; [apply preserves_none_throws_experiment|].
      intros e'. apply preserves_bind; [apply preserves_getitem|].
      intros t. apply preserves_ret. }
    assert (Hcompleted : evolves w
              ((trial ← getitem (trials e) idx;
                trial' ← mark_completed trial;
                store_trial idx trial') w).1).
    { apply update_trial_evolves; [apply preserves_mark_terminal| |done].
      intros t w1 w2 t'. by apply mark_terminal_step. }
    assert (Hthen : ∀ (m : M ()), evolves w (m w).1 →
              evolves w
                ((m;; experiment ← _none_throws_experiment;
                  trial ← getitem (trials experiment) idx;
                  mret (status trial)) w).1).
    { intros m Hm. rewrite bind_run.
      destruct (m w) as [w1 [[]|err]]; [|exact Hm].
      eapply evolves_trans; [exact Hm|]. by apply preserves_evolves. }
    destruct (optimization_config e) as [oc|].
    - case_decide.
      + by apply Hthen.
      + apply Hthen. rewrite bind_run. cbn [warning].
        eapply evolves_trans; [|by apply (mark_trial_evolves FAILED idx)].
        by apply evolves_same_experiment.
    - by apply Hthen. }
  destruct raw as [rd|]; [|apply Hnone].
  rewrite complete_trial_after_attach, bind_run.
  pose proof (attach_data_evolves idx rd p w) as Hattach.
  destruct (attach_data idx rd p w) as [w1 [[]|err]]; [|exact Hattach].
  eapply evolves_trans; [exact Hattach|apply Hnone].
Qed.

Lemma mark_trial_early_stopped_evolves idx raw p w :
  evolves w (mark_trial_early_stopped idx raw p w).1.
Proof.
  unfold mark_trial_early_stopped. rewrite bind_run.
  pose proof (attach_data_evolves idx raw p w) as Hattach.
  destruct (attach_data idx raw p w) as [w1 [[]|err]]; [|exact Hattach].
  eapply evolves_trans; [exact Hattach|].
  by apply (mark_trial_evolves EARLY_STOPPED idx).
Qed.

(** ** The shape of a generation call *)

Lemma generation_strategy_or_choose_explicit w e :
  _experiment (self w) = Some e →
  _generation_strategy_or_choose w =
  ({| self := set_generation_strategy_field (Some (strategy_in_use w e)) (self w);
      logged := logged w;
      gs_requests := gs_requests w |}, Ok (strategy_in_use w e)).
Proof.
  intros He.
  unfold _generation_strategy_or_choose, configure_generation_strategy,
    _none_throws_experiment, mbind, M_bind, get_self, put_self, none_throws,
    mret, M_ret, strategy_in_use, default_strategy.
  destruct w as [[ex [gs|] es db seed] lg rq]; cbn in *; subst ex; cbn;
    reflexivity.
Qed.

(** With an optimization config, [get_next_trials] is: choose or keep the
    strategy, send it the request, then register what it answered. *)
Lemma get_next_trials_shape w e oc maximum_trials fixed_parameters :
  _experiment (self w) = Some e →
  optimization_config e = Some oc →
  get_next_trials maximum_trials fixed_parameters w =
  (generator_runs ←
     lift_result (strategy_answer w e maximum_trials fixed_parameters).2;
   trials ← mapM register_generated generator_runs;
   entries ← mapM index_and_parameters trials;
   mret (foldl (λ d kv, <[kv.1 := kv.2]> d) ∅ entries))
    (after_request w e maximum_trials fixed_parameters
       (strategy_answer w e maximum_trials fixed_parameters).1).
Proof.
  intros He Hoc. unfold get_next_trials.
  rewrite bind_run, (none_throws_experiment_run w e He), Hoc.
  rewrite bind_run, (generation_strategy_or_choose_explicit w e He).
  rewrite bind_run. erewrite none_throws_experiment_run by (cbn; exact He).
  rewrite bind_run. cbn [get_self self].
  rewrite bind_run. cbn [record_request self logged gs_requests].
  unfold strategy_answer, after_request.
  cbn [_random_seed set_generation_strategy_field].
  destruct (gen_for_multiple_trials_with_multiple_models _ _ _ _ _ _ _)
    as [gs' outcome].
  rewrite bind_run. cbn [put_self self logged gs_requests].
  reflexivity.
Qed.

Lemma get_next_trials_keeps_trials maximum_trials fixed_parameters w e :
  _experiment (self w) = Some e →
  ∃ e',
    _experiment (self (get_next_trials maximum_trials fixed_parameters w).1)
      = Some e'
    ∧ ∀ k t, trials e !! k = Some t → trials e' !! k = Some t.
Proof.
  intros He. destruct (optimization_config e) as [oc|] eqn:Hoc.
  2:{ exists e. unfold get_next_trials.
      rewrite bind_run, (none_throws_experiment_run w e He), Hoc. by split. }
  rewrite (get_next_trials_shape w e oc _ _ He Hoc).
  set (w1 := after_request _ _ _ _ _).
  rewrite bind_run.
  destruct (strategy_answer w e maximum_trials fixed_parameters).2
    as [generator_runs|err]; cbn [lift_result]; [|by exists e].
  rewrite ret_run, bind_run.
  destruct (register_all_run generator_runs w1 e He)
    as (e' & r & Hreg & _ & Hmono & _).
  rewrite Hreg. exists e'.
  destruct r as [ts|err]; [|by split].
  rewrite bind_run.
  destruct (index_and_parameters_all_run ts (with_experiment e' w1))
    as (r & Hidx & _).
  rewrite Hidx. by destruct r.
Qed.

Lemma get_next_trials_evolves maximum_trials fixed_parameters w :
  evolves w (get_next_trials maximum_trials fixed_parameters w).1.
Proof.
  destruct (_experiment (self w)) as [e|] eqn:He; [|by apply evolves_unset].
  destruct (get_next_trials_keeps_trials maximum_trials fixed_parameters w e He)
    as (e' & He' & Hmono).
  apply (evolves_trials _ _ e e' He He').
  intros k t Hk. exists t. split; [by apply Hmono|apply trial_step_refl].
Qed.

(** ** Attaching a trial *)

Lemma attach_trial_run w e parameters arm_name :
  _experiment (self w) = Some e →
  attach_trial parameters arm_name w =
  (with_experiment
     (set_trials
        (<[next_index (trials e) :=
             {| index := next_index (trials e);
                arm := Some {| arm_name := truthy arm_name;
                               parameters := parameters |};
                status := RUNNING;
                trial_data := ∅ |}]> (trials e)) e) w,
   Ok (next_index (trials e))).
Proof.
  intros He. unfold attach_trial, Experiment_attach_trial.
  unfold new_trial, store_trial, put_experiment, _none_throws_experiment,
    mbind, M_bind, get_self, put_self, none_throws, mret, M_ret.
  cbn. rewrite He. cbn. rewrite insert_insert_eq.
  unfold with_experiment, set_status. cbn.
  by destruct (truthy arm_name).
Qed.

Lemma attach_trial_evolves parameters arm_name w :
  evolves w (attach_trial parameters arm_name w).1.
Proof.
  destruct (_experiment (self w)) as [e|] eqn:He; [|by apply evolves_unset].
  rewrite (attach_trial_run w e parameters arm_name He). cbn [fst].
  eapply (evolves_trials w _ e); [exact He|reflexivity|]. cbn.
  intros k t Hk. exists t. split; [|apply trial_step_refl].
  rewrite lookup_insert_ne; [done|].
  intros <-. by rewrite next_index_fresh in Hk.
Qed.

Lemma attach_baseline_evolves parameters arm_name w :
  evolves w (attach_baseline parameters arm_name w).1.
Proof.
  unfold attach_baseline. rewrite bind_run.
  pose proof (attach_trial_evolves parameters
                (Some (default "baseline" (truthy arm_name))) w) as Hattach.
  destruct (attach_trial _ _ w) as [w1 [i|err]]; [|exact Hattach].
  cbn [fst] in Hattach. eapply evolves_trans; [exact Hattach|].
  rewrite bind_run.
  destruct (_experiment (self w1)) as [e1|] eqn:He1;
    [|by apply evolves_unset].
  rewrite (none_throws_experiment_run w1 e1 He1), bind_run.
  destruct (trials e1 !! i) as [t|] eqn:Ht.
  2:{ rewrite getitem_missing by done. apply evolves_refl. }
  rewrite (getitem_run w1 i t) by done.
  rewrite bind_run, (none_throws_experiment_run w1 e1 He1).
  rewrite bind_run, put_experiment_run, ret_run. cbn [fst].
  by eapply (evolves_trials w1 _ e1); [exact He1|reflexivity|eauto using trial_step_refl].
Qed.

(** ** Metric resolution, step by step *)

(** [_overwrite_metric] returns normally on a configured client, and what it
    does is a [resolution]. *)
Lemma overwrite_metric_outcome w e metric :
  _experiment (self w) = Some e →
  ∃ e' warnings,
    _overwrite_metric metric w =
      ({| self := set_experiment_field (Some e') (self w);
          logged := logged w ++ warnings;
          gs_requests := gs_requests w |}, Ok ())
    ∧ resolution metric e e' warnings.
Proof.
  intros He.
  destruct (optimization_config e ≫= overwrite_config metric) as [oc'|] eqn:Hov.
  - exists (set_optimization_config (Some oc') e), [].
    split.
    { rewrite (overwrite_metric_in_config w e metric oc' He Hov).
      unfold with_experiment. by rewrite (right_id_L [] (++)). }
    destruct (optimization_config e) as [oc|] eqn:Hoc; [|done].
    cbn in Hov. unfold overwrite_config in Hov.
    destruct (overwrite_objective metric (objective oc)) as [o'|] eqn:Hobj.
    + injection Hov as <-. unfold overwrite_objective in Hobj.
      destruct (objective oc) as [so|ms ws mn|os] eqn:Ho.
      * case_decide as Hname; [|done]. injection Hobj as <-.
        replace (set_optimization_config _ e)
          with (with_objective (Objective_ (with_metric metric so)) e)
          by (unfold with_objective; by rewrite Hoc).
        by eapply resolve_single.
      * destruct (list_find _ ms) as [[i m]|] eqn:Hfind; [|done].
        injection Hobj as <-. apply list_find_first_match in Hfind.
        replace (set_optimization_config _ e)
          with (with_objective (ScalarizedObjective (<[i := metric]> ms) ws mn) e)
          by (unfold with_objective; by rewrite Hoc).
        by eapply resolve_scalarized.
      * destruct (list_find _ os) as [[i so]|] eqn:Hfind; [|done].
        injection Hobj as <-.
        apply (list_find_first_match (λ so, metric_name (_metric so)))
          in Hfind.
        replace (set_optimization_config _ e)
          with (with_objective
                  (MultiObjective (<[i := with_metric metric so]> os)) e)
          by (unfold with_objective; by rewrite Hoc).
        by eapply resolve_multi.
    + apply overwrite_objective_None in Hobj.
      unfold overwrite_constraints in Hov.
      destruct (list_find _ (_outcome_constraints oc)) as [[i c]|] eqn:Hfind;
        [|done].
      injection Hov as <-.
      apply (list_find_first_match (λ c, metric_name (oc_metric c))) in Hfind.
      replace (set_optimization_config _ e)
        with (with_constraints
                (<[i := constraint_with_metric metric c]>
                   (_outcome_constraints oc)) e)
        by (unfold with_constraints; by rewrite Hoc).
      by eapply resolve_constraint.
  - apply overwrite_config_None in Hov.
    destruct (_tracking_metrics e !! metric_name metric) as [old|] eqn:Htm.
    + eexists _, []. split.
      { rewrite (overwrite_metric_tracking w e metric old He Hov Htm).
        unfold with_experiment. by rewrite (right_id_L [] (++)). }
      by eapply resolve_tracking.
    + eexists _, _. split.
      { by rewrite (overwrite_metric_insert w e metric He Hov Htm). }
      by apply resolve_insert.
Qed.

(** A property of experiments that every resolution carries over is carried
    over by [_set_metrics]. *)
Lemma set_metrics_outcome (R : Experiment → Experiment → Prop) metrics :
  (∀ e, R e e) →
  (∀ e1 e2 e3, R e1 e2 → R e2 e3 → R e1 e3) →
  (∀ m e e' l, m ∈ metrics → resolution m e e' l → R e e') →
  ∀ w e, _experiment (self w) = Some e →
    ∃ e' warnings,
      _set_metrics metrics w =
        ({| self := set_experiment_field (Some e') (self w);
            logged := logged w ++ warnings;
            gs_requests := gs_requests w |}, Ok ())
      ∧ R e e'.
Proof.
  intros Hrefl Htrans. unfold _set_metrics.
  induction metrics as [|m ms IH]; intros Hres w e He.
  - exists e, []. split; [|done].
    cbn. rewrite (right_id_L [] (++)).
    destruct w as [[] ? ?]; cbn in *. by subst.
  - destruct (overwrite_metric_outcome w e m He) as (e1 & l1 & Hrun1 & Hres1).
    match type of Hrun1 with _ = (?x, _) => set (w1 := x) in * end.
    destruct (IH (λ m' e e' l Hin, Hres m' e e' l (list_elem_of_further _ _ _ Hin))
                w1 e1 eq_refl)
      as (e2 & l2 & Hrun2 & HR).
    exists e2, (l1 ++ l2). split.
    + rewrite bind_run in Hrun2. cbn [mapM].
      rewrite bind_run, bind_run, Hrun1, bind_run.
      destruct (mapM _overwrite_metric ms w1) as [w2 [us|err]]; [|done].
      rewrite ret_run in Hrun2. injection Hrun2 as ->.
      rewrite !ret_run. cbn. by rewrite (assoc_L (++)).
    + apply Htrans with e1; [|done].
      apply (Hres m e e1 l1); [left|done].
Qed.

Lemma resolution_frame metric e e' l :
  resolution metric e e' l →
  trials e' = trials e ∧ status_quo e' = status_quo e
  ∧ search_space e' = search_space e.
Proof. by intros []. Qed.

Lemma configure_metrics_evolves metrics w :
  evolves w (configure_metrics metrics w).1.
Proof.
  destruct (_experiment (self w)) as [e|] eqn:He; [|by apply evolves_unset].
  destruct (set_metrics_outcome (λ e e', trials e' = trials e) metrics
              (λ _, eq_refl) (λ _ _ _ H1 H2, eq_trans H2 H1)
              (λ m e e' l _ H, proj1 (resolution_frame m e e' l H)) w e He)
    as (e' & l & Hrun & Htrials).
  unfold configure_metrics. rewrite Hrun. cbn [fst].
  eapply (evolves_trials w _ e); [exact He|reflexivity|].
  intros k t Hk. exists t. split; [by rewrite Htrials|apply trial_step_refl].
Qed.

(** ** Sequences of calls *)

Lemma invoke_evolves call w : evolves w (invoke call w).
Proof.
  destruct call; cbn [invoke].
  - unfold configure_experiment. rewrite bind_run. cbn [get_self].
    destruct (_experiment (self w)) as [e|] eqn:He;
      [apply evolves_refl|by apply evolves_unset].
  - apply preserves_evolves, preserves_configure_generation_strategy.
  - apply configure_metrics_evolves.
  - unfold set_optimization_config_. rewrite bind_run.
    destruct (_experiment (self w)) as [e|] eqn:He;
      [|by apply evolves_unset].
    rewrite (none_throws_experiment_run w e He), put_experiment_run. cbn [fst].
    eapply (evolves_trials w _ e); [exact He|reflexivity|].
    eauto using trial_step_refl.
  - apply preserves_evolves, preserves_set_generation_strategy.
  - apply preserves_evolves, preserves_put_early_stopping_strategy.
  - apply get_next_trials_evolves.
  - apply complete_trial_evolves.
  - apply attach_data_evolves.
  - apply attach_trial_evolves.
  - apply attach_baseline_evolves.
  - apply preserves_evolves, preserves_should_stop_trial_early.
  - by apply (mark_trial_evolves FAILED).
  - by apply (mark_trial_evolves ABANDONED).
  - apply mark_trial_early_stopped_evolves.
  - apply preserves_evolves, preserves_compute_analyses.
Qed.

Lemma invoke_all_evolves calls : ∀ w, evolves w (invoke_all calls w).
Proof.
  induction calls as [|call calls IH]; intros w; [apply evolves_refl|].
  cbn. eapply evolves_trans; [apply invoke_evolves|apply IH].
Qed.

(** X5.  Whatever sequence of client methods is called, and whether the
    calls return or raise, a trial that exists stays in the experiment under
    its index with the same arm; the metric names attached to it only grow;
    its status either is what it was or has gone from RUNNING to one of the
    terminal statuses.  A trial in a terminal status keeps that status for
    good. *)
Theorem trials_only_move_forward calls w idx t :
  current_trial w idx = Some t →
  ∃ t',
    current_trial (invoke_all calls w) idx = Some t'
    ∧ index t' = index t
    ∧ arm t' = arm t
    ∧ dom (trial_data t) ⊆ dom (trial_data t')
    ∧ (status t' = status t
       ∨ (status t = RUNNING ∧ is_terminal (status t') = true))
    ∧ (is_terminal (status t) = true → status t' = status t).
Proof.
  intros Ht.
  destruct (invoke_all_evolves calls w idx t Ht)
    as (t' & Ht' & Hi & Ha & Hd & Hs).
  exists t'. repeat split; try done.
  intros Hterm. destruct Hs as [Hs|[Hs _]]; [done|].
  by rewrite Hs in Hterm.
Qed.

(** ** What a generation call creates *)

Lemma next_index_insert_above (ts : gmap Z Trial) t :
  next_index ts < next_index (<[next_index ts := t]> ts).
Proof. apply (next_index_above _ _ t). apply lookup_insert_eq. Qed.

Lemma register_all_ok generator_runs : ∀ w e w' ts,
  _experiment (self w) = Some e →
  mapM register_generated generator_runs w = (w', Ok ts) →
  ∃ e',
    w' = with_experiment e' w
    ∧ length ts = length generator_runs
    ∧ NoDup (index <$> ts)
    ∧ Forall (λ t, (status t = RUNNING ∧ trial_data t = ∅)
                   ∧ next_index (trials e) ≤ index t
                   ∧ trials e' !! index t = Some t) ts
    ∧ (∀ k t, trials e' !! k = Some t →
         trials e !! k = Some t ∨ (t ∈ ts ∧ index t = k))
    ∧ (∀ k t, trials e !! k = Some t → trials e' !! k = Some t).
Proof.
  induction generator_runs as [|run runs IH]; intros w e w' ts He.
  - cbn. rewrite ret_run. intros [= <- <-]. exists e.
    rewrite (with_experiment_id w e He).
    split; [done|]. split; [done|]. split; [constructor|].
    split; [constructor|]. split; [by left|done].
  - cbn [mapM]. rewrite bind_run.
    destruct run as [|g rest]; [done|].
    rewrite (register_generated_run w e g rest He).
    set (idx := next_index (trials e)).
    set (t0 := registered (trials e) g).
    set (e0 := set_trials (<[idx := t0]> (trials e)) e).
    rewrite bind_run.
    destruct (mapM register_generated runs (with_experiment e0 w))
      as [w2 [ts'|err]] eqn:Hrest; [|done].
    rewrite ret_run. intros [= <- <-].
    destruct (IH (with_experiment e0 w) e0 w2 ts' eq_refl Hrest)
      as (e' & -> & Hlen & Hnd & Hall & Hback & Hmono).
    assert (Hlt : idx < next_index (trials e0))
      by apply next_index_insert_above.
    assert (Hfresh : trials e !! idx = None) by apply next_index_fresh.
    rewrite Forall_forall in Hall.
    exists e'. split; [by rewrite with_experiment_twice|].
    split; [cbn; by rewrite Hlen|]. split.
    { cbn. apply NoDup_cons. split; [|done].
      intros (t & Hidx & Hin)%list_elem_of_fmap.
      destruct (Hall t Hin) as (_ & Hge & _).
      change (index t0) with idx in Hidx. lia. }
    split.
    { apply Forall_cons. split.
      - split; [done|]. split; [done|].
        apply Hmono. cbn. apply lookup_insert_eq.
      - apply Forall_forall. intros t Hin.
        destruct (Hall t Hin) as (Hs & Hge & Hlook).
        split; [done|]. split; [lia|done]. }
    split.
    { intros k t Hk. destruct (Hback k t Hk) as [Hk0|[Hin Hidx]].
      - cbn in Hk0. apply lookup_insert_Some in Hk0 as [[<- <-]|[_ Hk0]].
        + right. split; [left|done].
        + by left.
      - right. split; [by right|done]. }
    intros k t Hk. apply Hmono. cbn.
    rewrite lookup_insert_ne; [done|]. intros <-. congruence.
Qed.

Lemma index_and_parameters_ok ts : ∀ w w' entries,
  mapM index_and_parameters ts w = (w', Ok entries) →
  w' = w
  ∧ Forall2 (λ t kv, kv.1 = index t
                     ∧ ∃ a, arm t = Some a ∧ kv.2 = parameters a) ts entries.
Proof.
  induction ts as [|t ts IH]; intros w w' entries.
  - cbn. rewrite ret_run. intros [= <- <-]. split; [done|constructor].
  - cbn [mapM]. rewrite bind_run, (index_and_parameters_run t w).
    destruct (arm t) as [a|] eqn:Ha; [|done].
    rewrite bind_run.
    destruct (mapM index_and_parameters ts w) as [w1 [es|err]] eqn:Hrest;
      [|done].
    rewrite ret_run. intros [= <- <-].
    destruct (IH w w1 es Hrest) as [-> Hall].
    split; [done|]. constructor; [|done]. split; [done|]. by exists a.
Qed.

Lemma dict_of_entries_lookup {V} (entries : list (Z * V)) k v :
  NoDup (entries.*1) →
  foldl (λ d kv, <[kv.1 := kv.2]> d) (∅ : gmap Z V) entries !! k = Some v
  ↔ (k, v) ∈ entries.
Proof.
  intros Hnd. rewrite <- elem_of_map_to_list.
  rewrite (dict_of_entries entries ∅ Hnd (λ k _, lookup_empty k)).
  by rewrite map_to_list_empty.
Qed.

(** X6.  When [get_next_trials] returns a mapping, the experiment holds all
    the trials it held, unchanged, and one new trial for each entry of the
    mapping and no other: the entry's index was not in use and is greater
    than every index that was; the trial under it is running, has no data
    yet, and its arm carries the parameters of the entry.  There are as
    many entries as the strategy proposed trials. *)
Theorem get_next_trials_creates_running_trials w e oc maximum_trials
    fixed_parameters w' created :
  _experiment (self w) = Some e →
  optimization_config e = Some oc →
  get_next_trials maximum_trials fixed_parameters w = (w', Ok created) →
  ∃ e' generator_runs,
    _experiment (self w') = Some e'
    ∧ (strategy_answer w e maximum_trials fixed_parameters).2
        = Ok generator_runs
    ∧ size created = length generator_runs
    ∧ (∀ k t, trials e !! k = Some t → trials e' !! k = Some t)
    ∧ (∀ k, is_Some (trials e' !! k) ↔
            is_Some (trials e !! k) ∨ is_Some (created !! k))
    ∧ ∀ i ps, created !! i = Some ps →
        trials e !! i = None
        ∧ (∀ k t, trials e !! k = Some t → k < i)
        ∧ ∃ t a, trials e' !! i = Some t ∧ index t = i
                 ∧ status t = RUNNING ∧ trial_data t = ∅
                 ∧ arm t = Some a ∧ parameters a = ps.
Proof.
  intros He Hoc. rewrite (get_next_trials_shape w e oc _ _ He Hoc).
  set (w1 := after_request _ _ _ _ _).
  rewrite bind_run.
  destruct (strategy_answer w e maximum_trials fixed_parameters).2
    as [generator_runs|err]; cbn [lift_result]; [|done].
  rewrite ret_run, bind_run.
  destruct (mapM register_generated generator_runs w1)
    as [w2 [ts|err]] eqn:Hreg; [|done].
  destruct (register_all_ok generator_runs w1 e w2 ts He Hreg)
    as (e' & -> & Hlen & Hnd & Hall & Hback & Hmono).
  rewrite bind_run.
  destruct (mapM index_and_parameters ts (with_experiment e' w1))
    as [w3 [entries|err]] eqn:Hidx; [|done].
  destruct (index_and_parameters_ok ts _ _ _ Hidx) as [-> Hentries].
  rewrite ret_run. intros [= <- <-].
  assert (Hkeys : entries.*1 = index <$> ts).
  { clear -Hentries. induction Hentries as [|t kv ts es [Hk _] _ IH]; [done|].
    cbn. by rewrite Hk, IH. }
  assert (Hnd' : NoDup (entries.*1)) by (by rewrite Hkeys).
  rewrite Forall_forall in Hall.
  assert (Hentry : ∀ i ps, (i, ps) ∈ entries ↔
            ∃ t a, t ∈ ts ∧ index t = i ∧ arm t = Some a ∧ parameters a = ps).
  { clear -Hentries. intros i ps.
    induction Hentries as [|t kv ts es [Hk (a & Ha & Hp)] _ IH].
    - split; [by intros ?%elem_of_nil|by intros (? & ? & ?%elem_of_nil & _)].
    - rewrite elem_of_cons, IH. destruct kv as [k v]. cbn in *. split.
      + intros [[= -> ->]|(t' & a' & Hin & ?)].
        * exists t, a. split; [left|]. by rewrite Ha.
        * exists t', a'. split; [by right|done].
      + intros (t' & a' & [->|Hin]%elem_of_cons & Hi & Ha' & Hps).
        * left. rewrite Ha in Ha'. injection Ha' as <-. by subst.
        * right. by exists t', a'. }
  exists e', generator_runs. split; [reflexivity|]. split; [reflexivity|].
  split.
  { rewrite <- Hlen, <- (length_fmap index ts), <- Hkeys, length_fmap.
    rewrite <- length_map_to_list.
    rewrite (dict_of_entries entries ∅ Hnd' (λ k _, lookup_empty k)).
    by rewrite map_to_list_empty. }
  split; [exact Hmono|]. split.
  { intros k. split.
    - intros [t Hk]. destruct (Hback k t Hk) as [Hold|[Hin Hi]]; [by left; eexists|].
      right. destruct (Hall t Hin) as (_ & _ & Hlook).
      apply list_elem_of_lookup_1 in Hin as Hpos. destruct Hpos as [n Hn].
      destruct (Forall2_lookup_l _ _ _ _ _ Hentries Hn)
        as (kv & _ & _ & a & Ha & _).
      exists (parameters a). apply dict_of_entries_lookup; [done|].
      apply Hentry. by exists t, a.
    - intros [[t Hk]|[ps Hk]]; [by exists t; apply Hmono|].
      apply dict_of_entries_lookup in Hk; [|done].
      apply Hentry in Hk as (t & a & Hin & <- & _).
      destruct (Hall t Hin) as (_ & _ & Hlook). by exists t. }
  intros i ps Hi. apply dict_of_entries_lookup in Hi; [|done].
  apply Hentry in Hi as (t & a & Hin & <- & Ha & Hps).
  destruct (Hall t Hin) as ([Hs Hdata] & Hge & Hlook).
  assert (Habove : ∀ k tk, trials e !! k = Some tk → k < index t).
  { intros k tk Hk. pose proof (next_index_above _ _ _ Hk). lia. }
  split.
  { destruct (trials e !! index t) as [tk|] eqn:Hk; [|done].
    specialize (Habove _ _ Hk). lia. }
  split; [exact Habove|].
  by exists t, a.
Qed.

(** X7.  [_generation_strategy_or_choose] on a configured client returns a
    strategy and leaves it set on the client: the strategy that was set, or
    else the one chosen from the default config.  Asking again returns the
    same strategy and changes nothing; when a strategy was set already the
    first call changes nothing either.  The experiment is never touched. *)
Theorem generation_strategy_is_chosen_once w e :
  _experiment (self w) = Some e →
  ∃ gs w1,
    _generation_strategy_or_choose w = (w1, Ok gs)
    ∧ _generation_strategy (self w1) = Some gs
    ∧ _experiment (self w1) = Some e
    ∧ _generation_strategy_or_choose w1 = (w1, Ok gs)
    ∧ (∀ g, _generation_strategy (self w) = Some g → gs = g ∧ w1 = w)
    ∧ (_generation_strategy (self w) = None → gs = default_strategy e).
Proof.
  intros He.
  set (w1 :=
    {| self := set_generation_strategy_field (Some (strategy_in_use w e))
                 (self w);
       logged := logged w;
       gs_requests := gs_requests w |}).
  assert (He1 : _experiment (self w1) = Some e) by exact He.
  exists (strategy_in_use w e), w1.
  split; [by apply generation_strategy_or_choose_explicit|].
  split; [reflexivity|]. split; [exact He|]. split.
  { by rewrite (generation_strategy_or_choose_explicit w1 e He1). }
  subst w1. unfold strategy_in_use. split.
  - intros g Hg. rewrite Hg. split; [done|].
    destruct w as [[] ? ?]; cbn in *. by subst.
  - by intros ->.
Qed.

(** X8.  When the generation strategy raises, [get_next_trials] raises the
    same error; when it proposes no trials, [get_next_trials] returns an
    empty mapping; when its first proposal holds no generator run,
    [get_next_trials] raises IndexError.  In all three cases the request is
    on record, the client holds the strategy in its state after the
    request, and the experiment and the log are what they were: no trial
    has been created. *)
Theorem get_next_trials_without_proposals w e oc maximum_trials
    fixed_parameters :
  _experiment (self w) = Some e →
  optimization_config e = Some oc →
  let answer := strategy_answer w e maximum_trials fixed_parameters in
  let w' :=
    {| self := set_generation_strategy_field (Some answer.1) (self w);
       logged := logged w;
       gs_requests :=
         gs_requests w ++ [gen_request e maximum_trials fixed_parameters] |} in
  _experiment (self w') = Some e
  ∧ (∀ err, answer.2 = Raise err →
       get_next_trials maximum_trials fixed_parameters w = (w', Raise err))
  ∧ (answer.2 = Ok [] →
       get_next_trials maximum_trials fixed_parameters w = (w', Ok ∅))
  ∧ (∀ rest, answer.2 = Ok ([] :: rest) →
       get_next_trials maximum_trials fixed_parameters w =
       (w', Raise IndexError)).
Proof.
  intros He Hoc answer w'. split; [exact He|].
  rewrite (get_next_trials_shape w e oc _ _ He Hoc).
  fold answer. change (after_request _ _ _ _ _) with w'.
  split; [|split].
  - intros err ->. by rewrite bind_run.
  - intros ->. reflexivity.
  - intros rest ->. reflexivity.
Qed.

(** ** What metric resolution keeps *)

Lemma set_metrics_resolutions metrics : ∀ w e,
  _experiment (self w) = Some e →
  ∃ e' warnings,
    _set_metrics metrics w =
      ({| self := set_experiment_field (Some e') (self w);
          logged := logged w ++ warnings;
          gs_requests := gs_requests w |}, Ok ())
    ∧ resolutions metrics e e' warnings.
Proof.
  unfold _set_metrics.
  induction metrics as [|m ms IH]; intros w e He.
  - exists e, []. split; [|done].
    cbn. rewrite (right_id_L [] (++)).
    destruct w as [[] ? ?]; cbn in *. by subst.
  - destruct (overwrite_metric_outcome w e m He) as (e1 & l1 & Hrun1 & Hres1).
    match type of Hrun1 with _ = (?x, _) => set (w1 := x) in * end.
    destruct (IH w1 e1 eq_refl) as (e2 & l2 & Hrun2 & Hrest).
    exists e2, (l1 ++ l2). split.
    + rewrite bind_run in Hrun2. cbn [mapM].
      rewrite bind_run, bind_run, Hrun1, bind_run.
      destruct (mapM _overwrite_metric ms w1) as [w2 [us|err]]; [|done].
      rewrite ret_run in Hrun2. injection Hrun2 as ->.
      rewrite !ret_run. cbn. by rewrite (assoc_L (++)).
    + by exists e1, l1, l2.
Qed.

Lemma metrics_keys_names oc :
  metrics_keys oc = list_to_set (objective_names oc ++ constraint_names oc).
Proof.
  unfold metrics_keys, objective_names, constraint_names.
  by rewrite fmap_app, <- list_fmap_compose.
Qed.

Lemma names_insert_same {A} (name_of : A → string) (l : list A) i x y :
  l !! i = Some x → name_of y = name_of x →
  name_of <$> <[i := y]> l = name_of <$> l.
Proof.
  intros Hi Hname. rewrite list_fmap_insert, Hname.
  apply list_insert_id. by rewrite list_lookup_fmap, Hi.
Qed.

Lemma resolution_config_names metric e e' l :
  resolution metric e e' l → config_names e' = config_names e.
Proof.
  unfold config_names, objective_names, constraint_names.
  intros [oc os i so Hoc Ho (Hi & Hn & _)|oc ms ws mn i m Hoc Ho (Hi & Hn & _)
         |oc so Hoc Ho Hn|oc i c Hoc _ (Hi & Hn & _)|old _ _|_ _];
    cbn; rewrite ?Hoc; cbn; rewrite ?Ho; cbn; try done.
  - rewrite <- !list_fmap_compose.
    by rewrite (names_insert_same (metric_name ∘ _metric) os i so).
  - by rewrite (names_insert_same metric_name ms i m).
  - by rewrite Hn.
  - by rewrite (names_insert_same (λ c, metric_name (oc_metric c)) _ i c).
Qed.

Lemma config_names_metrics_keys e e' :
  config_names e' = config_names e →
  metrics_keys <$> optimization_config e' = metrics_keys <$> optimization_config e.
Proof.
  unfold config_names.
  destruct (optimization_config e') as [oc'|], (optimization_config e) as [oc|];
    cbn; try done.
  intros [= Ho Hc]. by rewrite !metrics_keys_names, Ho, Hc.
Qed.

Lemma resolution_tracking metric e e' l :
  resolution metric e e' l →
  dom (_tracking_metrics e) ⊆ dom (_tracking_metrics e')
  ∧ (∀ name, name ∈ dom (_tracking_metrics e') →
       name ∈ dom (_tracking_metrics e)
       ∨ (name = metric_name metric ∧ not_in_config metric e)).
Proof.
  intros [| | | |old Hn Hold|Hn Hnone]; cbn; try (split; [done|by left]).
  - rewrite dom_insert_L. split; [set_solver|].
    intros name [->%elem_of_singleton|]%elem_of_union; [|by left].
    left. apply elem_of_dom. by exists old.
  - rewrite dom_insert_L. split; [set_solver|].
    intros name [->%elem_of_singleton|]%elem_of_union; [by right|by left].
Qed.

Lemma not_in_config_metrics_keys metric e oc :
  not_in_config metric e → optimization_config e = Some oc →
  metric_name metric ∉ metrics_keys oc.
Proof.
  intros Hn Hoc. destruct (Hn oc Hoc) as [Ho Hc].
  rewrite metrics_keys_names, elem_of_list_to_set, elem_of_app. tauto.
Qed.

Lemma resolution_names_disjoint metric e e' l :
  resolution metric e e' l → names_disjoint e → names_disjoint e'.
Proof.
  intros Hres Hdis oc' Hoc'.
  pose proof (config_names_metrics_keys e e'
                (resolution_config_names _ _ _ _ Hres)) as Hkeys.
  rewrite Hoc' in Hkeys. cbn in Hkeys.
  destruct (optimization_config e) as [oc|] eqn:Hoc; [|done].
  injection Hkeys as Hkeys. rewrite Hkeys.
  destruct (resolution_tracking _ _ _ _ Hres) as [_ Hback].
  intros name Hin Htr.
  destruct (Hback name Htr) as [Hold|[-> Hn]].
  - by apply (Hdis oc Hoc name).
  - by apply (not_in_config_metrics_keys metric e oc Hn Hoc).
Qed.

Lemma resolution_known_name metric e e' l :
  resolution metric e e' l → known_name (metric_name metric) e'.
Proof.
  intros Hres.
  pose proof (config_names_metrics_keys e e'
                (resolution_config_names _ _ _ _ Hres)) as Hkeys.
  assert (Hcfg : ∀ oc, optimization_config e = Some oc →
            metric_name metric ∈ metrics_keys oc →
            known_name (metric_name metric) e').
  { intros oc Hoc Hin. left. rewrite Hoc in Hkeys. cbn in Hkeys.
    destruct (optimization_config e') as [oc'|]; [|done].
    injection Hkeys as Hkeys. exists oc'. by rewrite Hkeys. }
  assert (Hin_obj : ∀ oc, metric_name metric ∈ objective_names oc →
            metric_name metric ∈ metrics_keys oc).
  { intros oc Hin. rewrite metrics_keys_names, elem_of_list_to_set, elem_of_app.
    by left. }
  destruct Hres as [oc os i so Hoc Ho Hm|oc ms ws mn i m Hoc Ho Hm
                   |oc so Hoc Ho Hn|oc i c Hoc _ Hm|old _ _|_ _].
  - apply (Hcfg oc Hoc), Hin_obj. by eapply multi_match_in_objective.
  - apply (Hcfg oc Hoc), Hin_obj. by eapply scalarized_match_in_objective.
  - apply (Hcfg oc Hoc), Hin_obj. by eapply single_match_in_objective.
  - apply (Hcfg oc Hoc).
    rewrite metrics_keys_names, elem_of_list_to_set, elem_of_app. right.
    by eapply constraint_match_in_constraints.
  - right. cbn. rewrite dom_insert_L. set_solver.
  - right. cbn. rewrite dom_insert_L. set_solver.
Qed.

Lemma known_name_kept name metric e e' l :
  resolution metric e e' l → known_name name e → known_name name e'.
Proof.
  intros Hres [(oc & Hoc & Hin)|Htr].
  - left.
    pose proof (config_names_metrics_keys e e'
                  (resolution_config_names _ _ _ _ Hres)) as Hkeys.
    rewrite Hoc in Hkeys. cbn in Hkeys.
    destruct (optimization_config e') as [oc'|]; [|done].
    injection Hkeys as Hkeys. exists oc'. by rewrite Hkeys.
  - right. by apply (resolution_tracking _ _ _ _ Hres).
Qed.

(** X9.  On a configured client, [configure_metrics] returns normally for
    every list of metrics.  It keeps the trials and the status quo; the
    names in the slots of the optimization config stay what and where they
    were; no tracking metric is dropped, and a new tracking name is the name
    of a listed metric.  Afterwards the name of every listed metric is known
    to the experiment, and if no tracking metric shared a name with the
    optimization config before, none does after. *)
Theorem configure_metrics_keeps_names metrics w e :
  _experiment (self w) = Some e →
  ∃ e' warnings,
    configure_metrics metrics w =
      ({| self := set_experiment_field (Some e') (self w);
          logged := logged w ++ warnings;
          gs_requests := gs_requests w |}, Ok ())
    ∧ trials e' = trials e
    ∧ status_quo e' = status_quo e
    ∧ config_names e' = config_names e
    ∧ dom (_tracking_metrics e) ⊆ dom (_tracking_metrics e')
    ∧ (∀ name, name ∈ dom (_tracking_metrics e') →
         name ∈ dom (_tracking_metrics e) ∨ name ∈ metric_name <$> metrics)
    ∧ (∀ m, m ∈ metrics → known_name (metric_name m) e')
    ∧ (names_disjoint e → names_disjoint e').
Proof.
  intros He.
  destruct (set_metrics_resolutions metrics w e He)
    as (e' & warnings & Hrun & Hres).
  exists e', warnings. split; [exact Hrun|].
  clear Hrun He w. revert e warnings Hres.
  induction metrics as [|m ms IH]; intros e warnings Hres.
  - destruct Hres as [-> ->]. repeat split; try done.
    + by left.
    + by intros m ?%elem_of_nil.
  - destruct Hres as (e1 & l1 & l2 & Hres1 & Hrest & ->).
    destruct (IH e1 l2 Hrest)
      as (Htrials & Hsq & Hcfg & Hsub & Hback & Hknown & Hdis).
    destruct (resolution_frame _ _ _ _ Hres1) as (Htrials1 & Hsq1 & _).
    destruct (resolution_tracking _ _ _ _ Hres1) as [Hsub1 Hback1].
    split; [congruence|]. split; [congruence|].
    split; [by rewrite Hcfg; eapply resolution_config_names|].
    split; [by trans (dom (_tracking_metrics e1))|].
    split.
    { intros name Hin. destruct (Hback name Hin) as [Hin1|Hin1].
      - destruct (Hback1 name Hin1) as [?|[-> _]]; [by left|].
        right. cbn. left.
      - right. cbn. by right. }
    split.
    { intros m' [->|Hin]%elem_of_cons; [|by apply Hknown].
      pose proof (resolution_known_name _ _ _ _ Hres1) as Hk1.
      clear -Hk1 Hrest. revert e1 l2 Hk1 Hrest.
      induction ms as [|m2 ms IH2]; intros e1 l2 Hk1 Hrest.
      - by destruct Hrest as [-> _].
      - destruct Hrest as (e2 & la & lb & Hres2 & Hrest & _).
        apply (IH2 e2 lb); [|done]. by eapply known_name_kept. }
    intros Hd. apply Hdis. by eapply resolution_names_disjoint.
Qed.

(** ** Resolving the same metric again *)

Lemma first_match_after_insert {A} (name_of : A → string) metric
    (l : list A) i x y :
  first_match name_of metric l i x →
  name_of y = metric_name metric →
  first_match name_of metric (<[i := y]> l) i y.
Proof.
  intros (Hi & Hn & Hbefore) Hy. split; [|split].
  - apply list_lookup_insert_eq. by eapply lookup_lt_Some.
  - done.
  - intros j z Hj Hlt. apply (Hbefore j z); [|done].
    rewrite list_lookup_insert_ne in Hj by lia. done.
Qed.

Lemma with_objective_config o e oc :
  optimization_config e = Some oc →
  optimization_config (with_objective o e) =
  Some {| objective := o; _outcome_constraints := _outcome_constraints oc |}.
Proof. intros Hoc. unfold with_objective. by rewrite Hoc. Qed.

Lemma with_constraints_config cs e oc :
  optimization_config e = Some oc →
  optimization_config (with_constraints cs e) =
  Some {| objective := objective oc; _outcome_constraints := cs |}.
Proof. intros Hoc. unfold with_constraints. by rewrite Hoc. Qed.

Lemma with_objective_twice o e oc :
  optimization_config e = Some oc →
  with_objective o (with_objective o e) = with_objective o e.
Proof. intros Hoc. unfold with_objective. by rewrite Hoc. Qed.

Lemma with_constraints_twice cs e oc :
  optimization_config e = Some oc →
  with_constraints cs (with_constraints cs e) = with_constraints cs e.
Proof. intros Hoc. unfold with_constraints. by rewrite Hoc. Qed.

Lemma not_in_config_same_names metric e e' :
  config_names e' = config_names e →
  not_in_config metric e → not_in_config metric e'.
Proof.
  unfold config_names. intros Hnames Hn oc' Hoc'. rewrite Hoc' in Hnames.
  destruct (optimization_config e) as [oc|] eqn:Hoc; [|done].
  cbn in Hnames. injection Hnames as -> ->. by apply Hn.
Qed.

(** After a resolution the metric itself sits in the slot. *)
Lemma resolution_registered metric e e' l :
  resolution metric e e' l → registered_metric metric e'.
Proof.
  intros [oc os i so Hoc Ho (Hi & _)|oc ms ws mn i m Hoc Ho (Hi & _)
         |oc so Hoc Ho Hn|oc i c Hoc _ (Hi & _)|old _ _|_ _].
  - left. eexists. split; [by apply with_objective_config|].
    unfold config_metrics. cbn. apply elem_of_app. left.
    apply list_elem_of_fmap. exists (with_metric metric so). split; [done|].
    apply list_elem_of_lookup_2 with i, list_lookup_insert_eq.
    by eapply lookup_lt_Some.
  - left. eexists. split; [by apply with_objective_config|].
    unfold config_metrics. cbn. apply elem_of_app. left.
    apply list_elem_of_lookup_2 with i, list_lookup_insert_eq.
    by eapply lookup_lt_Some.
  - left. eexists. split; [by apply with_objective_config|].
    unfold config_metrics. cbn. by left.
  - left. eexists. split; [by apply with_constraints_config|].
    unfold config_metrics. cbn. apply elem_of_app. right.
    apply list_elem_of_fmap. exists (constraint_with_metric metric c).
    split; [done|].
    apply list_elem_of_lookup_2 with i, list_lookup_insert_eq.
    by eapply lookup_lt_Some.
  - right. cbn. apply lookup_insert_eq.
  - right. cbn. apply lookup_insert_eq.
Qed.

(** Resolving the metric once more selects the slot it is in and changes
    nothing. *)
Lemma resolution_again metric e e' l :
  resolution metric e e' l → resolution metric e' e' [].
Proof.
  intros Hres.
  pose proof (resolution_config_names _ _ _ _ Hres) as Hnames.
  destruct Hres as [oc os i so Hoc Ho Hm|oc ms ws mn i m Hoc Ho Hm
                   |oc so Hoc Ho Hn|oc i c Hoc Hno Hm|old Hn Hold|Hn Hnone].
  - pose proof (resolve_multi metric _ _ _ i (with_metric metric so)
                  (with_objective_config _ e oc Hoc) eq_refl
                  (first_match_after_insert (λ so, metric_name (_metric so))
                     metric os i so (with_metric metric so) Hm eq_refl))
      as Hagain.
    by rewrite list_insert_insert_eq, (with_objective_twice _ e oc Hoc)
      in Hagain.
  - pose proof (resolve_scalarized metric _ _ _ ws mn i metric
                  (with_objective_config _ e oc Hoc) eq_refl
                  (first_match_after_insert metric_name
                     metric ms i m metric Hm eq_refl))
      as Hagain.
    by rewrite list_insert_insert_eq, (with_objective_twice _ e oc Hoc)
      in Hagain.
  - pose proof (resolve_single metric _ _ (with_metric metric so)
                  (with_objective_config _ e oc Hoc) eq_refl eq_refl)
      as Hagain.
    by rewrite (with_objective_twice _ e oc Hoc) in Hagain.
  - pose proof (resolve_constraint metric _ _ i
                  (constraint_with_metric metric c)
                  (with_constraints_config _ e oc Hoc) Hno
                  (first_match_after_insert (λ c, metric_name (oc_metric c))
                     metric _ i c (constraint_with_metric metric c) Hm eq_refl))
      as Hagain.
    cbn [_outcome_constraints] in Hagain.
    by rewrite list_insert_insert_eq, (with_constraints_twice _ e oc Hoc)
      in Hagain.
  - pose proof (resolve_tracking metric _ metric
                  (not_in_config_same_names metric e _ Hnames Hn)
                  (lookup_insert_eq _ _ _)) as Hagain.
    cbn in Hagain. by rewrite insert_insert_eq in Hagain.
  - pose proof (resolve_tracking metric _ metric
                  (not_in_config_same_names metric e _ Hnames Hn)
                  (lookup_insert_eq _ _ _)) as Hagain.
    cbn in Hagain. by rewrite insert_insert_eq in Hagain.
Qed.

(** X10.  After [_overwrite_metric] on a configured client the given metric
    itself, not just its name, is registered: it sits in a slot of the
    optimization config or is the tracking metric under its name. *)
Theorem overwrite_metric_registers w e metric :
  _experiment (self w) = Some e →
  ∃ w' e',
    _overwrite_metric metric w = (w', Ok ())
    ∧ _experiment (self w') = Some e'
    ∧ registered_metric metric e'.
Proof.
  intros He.
  destruct (overwrite_metric_outcome w e metric He) as (e' & l & Hrun & Hres).
  eexists _, e'. split; [exact Hrun|]. split; [reflexivity|].
  by eapply resolution_registered.
Qed.

(** X11.  [_overwrite_metric] is idempotent: a second call with the same
    metric returns normally, changes nothing and logs nothing, whichever
    way the first call resolved the metric. *)
Theorem overwrite_metric_twice w e metric :
  _experiment (self w) = Some e →
  ∃ w1,
    _overwrite_metric metric w = (w1, Ok ())
    ∧ _overwrite_metric metric w1 = (w1, Ok ()).
Proof.
  intros He.
  destruct (overwrite_metric_outcome w e metric He) as (e1 & l1 & Hrun & Hres).
  eexists. split; [exact Hrun|].
  match goal with |- _ ?x = _ => set (w1 := x) end.
  destruct (overwrite_metric_outcome w1 e1 metric eq_refl)
    as (e2 & l2 & Hrun2 & Hres2).
  destruct (resolution_functional metric e1 e2 l2 e1 []
              Hres2 (resolution_again _ _ _ _ Hres)) as [-> ->].
  rewrite Hrun2. subst w1. cbn. by rewrite (right_id_L [] (++)).
Qed.

(** ** Attaching a custom trial *)

(** X12.  [attach_trial] on a configured client returns a new index that is
    greater than every index in use, and registers under it a running trial
    without data whose arm carries the given parameters; an empty or absent
    arm name leaves the arm unnamed.  The other trials, the status quo, the
    optimization config, the tracking metrics and the log are untouched.
    The next [attach_trial] returns a greater index still. *)
Theorem attach_trial_registers_running_trial w e parameters arm_name :
  _experiment (self w) = Some e →
  let i := next_index (trials e) in
  let name :=
    match arm_name with
    | Some n => if decide (n = "") then None else Some n
    | None => None
    end in
  ∃ w' e',
    attach_trial parameters arm_name w = (w', Ok i)
    ∧ _experiment (self w') = Some e'
    ∧ (∀ k t, trials e !! k = Some t → k < i)
    ∧ trials e' =
        <[i := {| index := i;
                  arm := Some {| arm_name := name; parameters := parameters |};
                  status := RUNNING;
                  trial_data := ∅ |}]> (trials e)
    ∧ status_quo e' = status_quo e
    ∧ optimization_config e' = optimization_config e
    ∧ _tracking_metrics e' = _tracking_metrics e
    ∧ logged w' = logged w
    ∧ ∀ parameters2 arm_name2,
        ∃ w'' i2, attach_trial parameters2 arm_name2 w' = (w'', Ok i2) ∧ i < i2.
Proof.
  intros He i name.
  assert (Hname : truthy arm_name = name).
  { subst name. destruct arm_name as [[|a s]|]; try done. }
  eexists _, _. split; [by apply attach_trial_run|].
  split; [reflexivity|]. split; [apply next_index_above|].
  cbn. rewrite Hname. split; [reflexivity|]. repeat split.
  intros parameters2 arm_name2.
  eexists _, _. split; [by apply attach_trial_run|].
  apply next_index_insert_above.
Qed.

(** ** Early stopping *)

(** X13.  With an early-stopping strategy set, [should_stop_trial_early]
    never changes the world; without an experiment it raises
    AssertionError, otherwise it asks the strategy about the one trial index
    and returns whether that index is in the answer, or raises what the
    strategy raised.  [set_early_stopping_strategy] sets the strategy and
    touches nothing else. *)
Theorem should_stop_trial_early_asks_strategy w strategy idx :
  _early_stopping_strategy (self w) = Some strategy →
  (should_stop_trial_early idx w).1 = w
  ∧ (should_stop_trial_early idx w).2 =
      match _experiment (self w) with
      | None =>
          Raise (AssertionError
            "Experiment not set. Please call configure_experiment or load an experiment before utilizing any other methods on the Client.")
      | Some e =>
          match should_stop_trials_early strategy {[idx]} e with
          | Ok response => Ok (bool_decide (idx ∈ dom response))
          | Raise err => Raise err
          end
      end
  ∧ ∀ w0 : World,
      set_early_stopping_strategy strategy w0 =
      ({| self := set_early_stopping_strategy_field (Some strategy) (self w0);
          logged := logged w0;
          gs_requests := gs_requests w0 |}, Ok ()).
Proof.
  intros Hs. unfold should_stop_trial_early.
  rewrite bind_run. cbn [get_self]. rewrite Hs, bind_run.
  destruct (_experiment (self w)) as [e|] eqn:He.
  - rewrite (none_throws_experiment_run w e He), bind_run.
    destruct (should_stop_trials_early strategy {[idx]} e) as [response|err];
      cbn; [|done].
    split; [done|]. split; [|done].
    by rewrite (bool_decide_ext _ _ (elem_of_dom response idx)).
  - by rewrite (none_throws_experiment_unset w He).
Qed.

(** ** Setting the generation strategy *)

(** X14.  [set_generation_strategy] assigns the strategy before it looks for
    the experiment: on a client without an experiment it raises
    AssertionError, yet the strategy has been replaced. *)
Theorem set_generation_strategy_assigns_first w generation_strategy :
  set_generation_strategy generation_strategy w =
  ({| self := set_generation_strategy_field (Some generation_strategy) (self w);
      logged := logged w;
      gs_requests := gs_requests w |},
   match _experiment (self w) with
   | Some _ => Ok ()
   | None =>
       Raise (AssertionError
         "Experiment not set. Please call configure_experiment or load an experiment before utilizing any other methods on the Client.")
   end).
Proof.
  unfold set_generation_strategy, _none_throws_experiment, mbind, M_bind,
    get_self, put_self, none_throws, mret, M_ret.
  cbn. destruct (_experiment (self w)) eqn:He; cbn; rewrite ?He; cbn; done.
Qed.

(** ** Configuring the experiment *)

(** X15.  On a client without an experiment, [configure_experiment] installs
    the experiment built from the config and touches nothing else.  A
    further [configure_experiment] raises and keeps that experiment, while
    [set_experiment], which has no guard, replaces it. *)
Theorem configure_experiment_once w experiment_config :
  _experiment (self w) = None →
  let w1 := with_experiment (experiment_from_config experiment_config) w in
  configure_experiment experiment_config w = (w1, Ok ())
  ∧ (∀ experiment_config2,
       ∃ msg,
         configure_experiment experiment_config2 w1 =
         (w1, Raise (UnsupportedError msg)))
  ∧ (∀ experiment,
       set_experiment experiment w1 = (with_experiment experiment w, Ok ())).
Proof.
  intros He w1. split; [|split].
  - unfold configure_experiment. rewrite bind_run. cbn [get_self].
    by rewrite He.
  - intros cfg2. by eexists.
  - done.
Qed.

(** ** Computing analyses *)

Lemma compute_results_run (analyses : list Analysis) : ∀ w e,
  _experiment (self w) = Some e →
  mapM (λ analysis,
          experiment ← _none_throws_experiment;
          generation_strategy ← _generation_strategy_or_choose;
          mret (compute_result analysis experiment generation_strategy))
       analyses w =
  (match analyses with
   | [] => w
   | _ :: _ =>
       {| self := set_generation_strategy_field (Some (strategy_in_use w e))
                    (self w);
          logged := logged w;
          gs_requests := gs_requests w |}
   end,
   Ok ((λ analysis, compute_result analysis e (strategy_in_use w e))
         <$> analyses)).
Proof.
  induction analyses as [|a l IH]; intros w e He; [done|].
  cbn [mapM]. rewrite bind_run, bind_run.
  rewrite (none_throws_experiment_run w e He).
  rewrite bind_run, (generation_strategy_or_choose_explicit w e He).
  rewrite ret_run, bind_run.
  match goal with |- context [mapM _ l ?x] => set (w1 := x) end.
  rewrite (IH w1 e He). rewrite ret_run. cbn [fmap list_fmap].
  by destruct l.
Qed.

(** X16.  [compute_analyses] on a configured client returns one card for
    each analysis, in order: the card of the analysis, or the card rendered
    from its error; an analysis that fails does not stop the others.  The
    analyses are the given ones, or the chosen ones when none are given.
    All are computed with the same generation strategy, which stays set on
    the client; nothing else changes.  For an explicitly empty list the
    result is empty and nothing changes, with or without an experiment. *)
Theorem compute_analyses_one_card_each w e analyses :
  _experiment (self w) = Some e →
  let todo := default (choose_analyses e) analyses in
  let gs := strategy_in_use w e in
  compute_analyses analyses w =
    (match todo with
     | [] => w
     | _ :: _ =>
         {| self := set_generation_strategy_field (Some gs) (self w);
            logged := logged w;
            gs_requests := gs_requests w |}
     end,
     Ok ((λ analysis,
            unwrap_or_else markdown_analysis_card_from_analysis_e
              (compute_result analysis e gs)) <$> todo))
  ∧ ∀ w0 : World, compute_analyses (Some []) w0 = (w0, Ok []).
Proof.
  intros He todo gs. split; [|done].
  unfold compute_analyses. rewrite bind_run.
  assert (Hfirst :
    match analyses with
    | Some given => mret given
    | None => experiment ← _none_throws_experiment;
              mret (choose_analyses experiment)
    end w = (w, Ok todo)).
  { subst todo. destruct analyses as [given|]; [done|].
    by rewrite bind_run, (none_throws_experiment_run w e He). }
  rewrite Hfirst, bind_run, (compute_results_run todo w e He), ret_run.
  by rewrite <- list_fmap_compose.
Qed.

(** ** Completing a trial that has ended, attaching data *)

(** X17.  [complete_trial] without data on a trial that is in a terminal
    status returns that status and leaves the client as it was.  It logs
    that the trial has ended already, after the warning about missing
    metrics when metrics of the optimization config are missing. *)
Theorem complete_terminal_trial w e idx t progression :
  _experiment (self w) = Some e →
  trials e !! idx = Some t →
  is_terminal (status t) = true →
  let missing :=
    match optimization_config e with
    | None => ∅
    | Some oc => metrics_keys oc ∖ dom (trial_data t)
    end in
  complete_trial idx None progression w =
  ({| self := self w;
      logged := logged w ++
                (if decide (missing = ∅)
                 then [TerminalTrialWarning (index t) (status t) COMPLETED]
                 else [MissingMetricsWarning idx missing;
                       TerminalTrialWarning (index t) (status t) FAILED]);
      gs_requests := gs_requests w |}, Ok (status t)).
Proof.
  intros He Ht Hterm missing.
  assert (Hstore : ∀ w1, _experiment (self w1) = Some e →
            store_trial idx t w1 = (w1, Ok ())).
  { intros w1 He1. rewrite (store_trial_run w1 e) by done.
    by rewrite insert_id, set_trials_id, with_experiment_id. }
  assert (Hmark : ∀ requested w1, _experiment (self w1) = Some e →
            (trial ← getitem (trials e) idx;
             trial' ← mark_terminal requested trial;
             store_trial idx trial') w1 =
            ({| self := self w1;
                logged := logged w1 ++
                          [TerminalTrialWarning (index t) (status t) requested];
                gs_requests := gs_requests w1 |}, Ok ())).
  { intros requested w1 He1.
    rewrite bind_run, (getitem_run w1 idx t) by done.
    rewrite bind_run, mark_terminal_terminal by done.
    by rewrite Hstore. }
  assert (Hread : ∀ w1, _experiment (self w1) = Some e →
            (experiment ← _none_throws_experiment;
             trial ← getitem (trials experiment) idx;
             mret (status trial)) w1 = (w1, Ok (status t))).
  { intros w1 He1.
    rewrite bind_run, (none_throws_experiment_run w1 e He1).
    by rewrite bind_run, (getitem_run w1 idx t). }
  unfold complete_trial. rewrite bind_run, ret_run.
  rewrite bind_run, (none_throws_experiment_run w e He).
  subst missing. destruct (optimization_config e) as [oc|].
  - rewrite (metric_names_lookup_data e idx t Ht).
    set (missing := metrics_keys oc ∖ dom (trial_data t)).
    destruct (decide (missing = ∅)) as [Hz|Hnz].
    + rewrite decide_True by (rewrite Hz; apply size_empty).
      rewrite bind_run. unfold mark_completed.
      rewrite (Hmark COMPLETED w He). by rewrite Hread.
    + rewrite decide_False
        by (intros Hz; apply Hnz, leibniz_equiv, size_empty_iff, Hz).
      rewrite bind_run, bind_run. cbn [warning].
      unfold mark_trial_failed, mark_failed.
      rewrite bind_run. erewrite none_throws_experiment_run by exact He.
      rewrite Hmark by exact He. rewrite Hread by exact He.
      cbn. by rewrite <- (assoc_L (++)).
  - destruct (decide (∅ = ∅)) as [_|[]]; [|done].
    rewrite bind_run. unfold mark_completed.
    rewrite (Hmark COMPLETED w He). by rewrite Hread.
Qed.



(** ** The pending observations a generation call hands over *)

(** One call of [get_next_trials] with an optimization config, in terms of
    the answer of the strategy: where the world ends up, what is returned,
    and the pending observations it leaves behind. *)
Lemma get_next_trials_outcome w e oc maximum_trials fixed_parameters :
  _experiment (self w) = Some e →
  optimization_config e = Some oc →
  ∃ e' r,
    get_next_trials maximum_trials fixed_parameters w =
      (with_experiment e'
         (after_request w e maximum_trials fixed_parameters
            (strategy_answer w e maximum_trials fixed_parameters).1), r)
    ∧ optimization_config e' = Some oc
    ∧ (∀ err,
         (strategy_answer w e maximum_trials fixed_parameters).2 = Raise err →
         r = Raise err)
    ∧ ∀ created, r = Ok created →
        (∃ generator_runs,
           (strategy_answer w e maximum_trials fixed_parameters).2
             = Ok generator_runs
           ∧ size created = length generator_runs)
        ∧ get_pending_observation_features_based_on_trial_status e'
          ≡ₚ get_pending_observation_features_based_on_trial_status e
             ++ ((λ kv, {| of_parameters := kv.2 |}) <$> map_to_list created).
Proof.
  intros He Hoc. rewrite (get_next_trials_shape w e oc _ _ He Hoc).
  set (w1 := after_request _ _ _ _ _).
  assert (He1 : _experiment (self w1) = Some e) by exact He.
  rewrite bind_run.
  destruct (strategy_answer w e maximum_trials fixed_parameters).2
    as [generator_runs|err]; cbn [lift_result].
  2:{ exists e, (Raise err). rewrite (with_experiment_id w1 e He1).
      split; [done|]. split; [done|]. split; [by intros ? [= <-]|done]. }
  rewrite ret_run, bind_run.
  destruct (register_all_run generator_runs w1 e He1)
    as (e' & r & Hreg & Hoc' & _ & Hok).
  rewrite Hreg. exists e'.
  destruct r as [ts|err].
  2:{ exists (Raise err). split; [done|]. split; [by rewrite Hoc'|].
      split; done. }
  rewrite bind_run.
  destruct (index_and_parameters_all_run ts (with_experiment e' w1))
    as (r & Hidx & Hentries).
  rewrite Hidx.
  destruct r as [entries|err].
  2:{ exists (Raise err). split; [done|]. split; [by rewrite Hoc'|].
      split; done. }
  rewrite ret_run. eexists. split; [reflexivity|].
  split; [by rewrite Hoc'|]. split; [done|].
  intros created [= <-].
  destruct (Hok ts eq_refl) as (Hperm & Hall & Hnd).
  destruct (Hentries entries eq_refl) as [Hkeys Hfeat].
  destruct (register_all_ok generator_runs w1 e _ ts He1 Hreg)
    as (_ & _ & Hlen & _).
  assert (Hlist :
    map_to_list (foldl (λ d kv, <[kv.1 := kv.2]> d)
                   (∅ : gmap Z (gmap string TParameterValue)) entries)
    ≡ₚ entries).
  { rewrite dict_of_entries; [by rewrite map_to_list_empty|by rewrite Hkeys|].
    intros k _. apply lookup_empty. }
  split.
  - exists generator_runs. split; [done|].
    rewrite <- length_map_to_list, Hlist.
    by rewrite <- Hlen, <- (length_fmap index ts), <- Hkeys, length_fmap.
  - rewrite Hperm. apply Permutation_app_head.
    rewrite Hfeat by (eapply Forall_impl; [exact Hall|]; by intros t [? _]).
    by rewrite Hlist.
Qed.

(** C3.  On an experiment with an optimization config, [get_next_trials]
    calls the generation strategy with pending observations that are
    computed from the trials as they are at the call, and these are exactly
    the parameterizations of the trials that are not in a terminal state.
    The call is the one that counts: the client ends up holding the state
    the strategy returned for those pending observations, an error of the
    strategy is the error raised, and a mapping that is returned has one
    entry for each trial the strategy proposed.  When the call returns a
    mapping, the pending observations of the experiment are, up to order,
    those of before together with the parameterizations of the trials in
    the mapping (exactly these when nothing was pending), and a call that
    follows hands just those to the strategy, in the state the first call
    left it. *)
Theorem get_next_trials_pending_observations w e oc maximum_trials
    fixed_parameters :
  _experiment (self w) = Some e →
  optimization_config e = Some oc →
  let pending := get_pending_observation_features_based_on_trial_status e in
  let answer :=
    gen_for_multiple_trials_with_multiple_models
      (strategy_in_use w e) (_random_seed (self w)) e pending 1
      ((λ p, {| of_parameters := p |}) <$> fixed_parameters) maximum_trials in
  ∃ w' r,
    get_next_trials maximum_trials fixed_parameters w = (w', r)
    ∧ _generation_strategy (self w') = Some answer.1
    ∧ (∀ err, answer.2 = Raise err → r = Raise err)
    ∧ (∀ created, r = Ok created →
         ∃ generator_runs,
           answer.2 = Ok generator_runs
           ∧ size created = length generator_runs)
    ∧ gs_requests w' =
        gs_requests w ++
        [{| req_pending_observations := pending;
            req_n := 1;
            req_fixed_features :=
              (λ p, {| of_parameters := p |}) <$> fixed_parameters;
            req_num_trials := maximum_trials |}]
    ∧ (∀ p, p ∈ pending ↔
         ∃ i t a, trials e !! i = Some t ∧ is_terminal (status t) = false
                  ∧ arm t = Some a ∧ p = {| of_parameters := parameters a |})
    ∧ ∀ created, r = Ok created →
        let produced :=
          (λ kv, {| of_parameters := kv.2 |}) <$> map_to_list created in
        ∃ e',
          _experiment (self w') = Some e'
          ∧ get_pending_observation_features_based_on_trial_status e'
            ≡ₚ pending ++ produced
          ∧ (pending = [] →
             get_pending_observation_features_based_on_trial_status e'
             ≡ₚ produced)
          ∧ ∀ maximum_trials2 fixed_parameters2,
              let pending2 :=
                get_pending_observation_features_based_on_trial_status e' in
              let answer2 :=
                gen_for_multiple_trials_with_multiple_models
                  answer.1 (_random_seed (self w)) e' pending2 1
                  ((λ p, {| of_parameters := p |}) <$> fixed_parameters2)
                  maximum_trials2 in
              ∃ w'' r2,
                get_next_trials maximum_trials2 fixed_parameters2 w' = (w'', r2)
                ∧ _generation_strategy (self w'') = Some answer2.1
                ∧ (∀ err, answer2.2 = Raise err → r2 = Raise err)
                ∧ (∀ created2, r2 = Ok created2 →
                     ∃ generator_runs2,
                       answer2.2 = Ok generator_runs2
                       ∧ size created2 = length generator_runs2)
                ∧ gs_requests w'' =
                    gs_requests w' ++
                    [{| req_pending_observations := pending2;
                        req_n := 1;
                        req_fixed_features :=
                          (λ p, {| of_parameters := p |}) <$> fixed_parameters2;
                        req_num_trials := maximum_trials2 |}].
Proof.
  intros He Hoc pending answer.
  destruct (get_next_trials_outcome w e oc maximum_trials fixed_parameters
              He Hoc) as (e' & r & Hrun & Hoc' & Hraise & Hok).
  change (strategy_answer w e maximum_trials fixed_parameters) with answer
    in Hrun, Hraise, Hok.
  eexists _, r. split; [exact Hrun|].
  split; [reflexivity|]. split; [exact Hraise|].
  split; [intros created Hr; by destruct (Hok created Hr)|].
  split; [reflexivity|]. split; [apply elem_of_pending|].
  intros created Hr produced.
  destruct (Hok created Hr) as [_ Hperm].
  exists e'. split; [reflexivity|]. split; [exact Hperm|].
  split.
  { intros Hnone. rewrite Hperm. fold pending. by rewrite Hnone. }
  intros maximum_trials2 fixed_parameters2 pending2 answer2.
  match type of Hrun with _ = (?x, _) => set (w1 := x) in * end.
  destruct (get_next_trials_outcome w1 e' oc maximum_trials2 fixed_parameters2
              eq_refl Hoc') as (e'' & r2 & Hrun2 & _ & Hraise2 & Hok2).
  change (strategy_answer w1 e' maximum_trials2 fixed_parameters2)
    with answer2 in Hrun2, Hraise2, Hok2.
  eexists _, r2. split; [exact Hrun2|].
  split; [reflexivity|]. split; [exact Hraise2|].
  split; [intros created2 Hr2; by destruct (Hok2 created2 Hr2)|].
  reflexivity.
Qed.

End FurtherProperties.

(** * Evaluations on the sample worlds *)

Lemma mark_terminal_trial_is_noop_witness :
  mark_trial_failed 0 (sample_world (Some (sample_experiment true ABANDONED))) =
    ({| self := self (sample_world (Some (sample_experiment true ABANDONED)));
        logged := [TerminalTrialWarning 0 ABANDONED FAILED];
        gs_requests := [] |}, Ok ())
  ∧ mark_trial_abandoned 0
      (sample_world (Some (sample_experiment true ABANDONED))) =
    ({| self := self (sample_world (Some (sample_experiment true ABANDONED)));
        logged := [TerminalTrialWarning 0 ABANDONED ABANDONED];
        gs_requests := [] |}, Ok ()).
Proof.
  apply (mark_terminal_trial_is_noop
           (sample_world (Some (sample_experiment true ABANDONED)))
           (sample_experiment true ABANDONED) 0 (sample_trial 0 ABANDONED));
    reflexivity.
Defined.

Lemma attach_data_not_found_or_status_kept_witness :
  let w := sample_world (Some (sample_experiment true RUNNING)) in
  (trials (sample_experiment true RUNNING) !! 0 = None →
     attach_data 0 sample_outcome_A (Some 3) w = (w, Raise (KeyError 0)))
  ∧ (∀ t, trials (sample_experiment true RUNNING) !! 0 = Some t →
       ∃ w', attach_data 0 sample_outcome_A (Some 3) w = (w', Ok ())
             ∧ ∀ j, current_status w' j = current_status w j).
Proof.
  apply (attach_data_not_found_or_status_kept
           (sample_world (Some (sample_experiment true RUNNING)))
           (sample_experiment true RUNNING) 0 sample_outcome_A (Some 3)).
  reflexivity.
Defined.

(** C1 as stated fails on a trial that is not RUNNING: a COMPLETED trial
    without data, under the objective "A, B", is an existing trial with both
    required metrics missing, yet [complete_trial] returns COMPLETED. *)
Lemma complete_trial_terminal_counterexample :
  let w := sample_world (Some (sample_experiment true COMPLETED)) in
  trials (sample_experiment true COMPLETED) !! 0 = Some (sample_trial 0 COMPLETED)
  ∧ metrics_keys sample_config_AB ⊈ dom (trial_data (sample_trial 0 COMPLETED))
  ∧ (complete_trial 0 None None w).2 = Ok COMPLETED
  ∧ (complete_trial 0 None None w).2 ≠ Ok FAILED
  ∧ current_status (complete_trial 0 None None w).1 0 = Some COMPLETED.
Proof.
  cbv zeta. split; [reflexivity|]. split.
  - intros Hsub. specialize (Hsub "A"). cbn in Hsub.
    rewrite dom_empty_L in Hsub.
    apply (not_elem_of_empty (C := gset string) "A"), Hsub.
    unfold metrics_keys. cbn. set_solver.
  - split; [by vm_compute|]. split; [by vm_compute|by vm_compute].
Qed.

Lemma complete_running_trial_witness :
  status (sample_trial 0 RUNNING) = RUNNING
  ∧ ∃ w' e' s,
      complete_trial 0 (Some sample_outcome_A) None
        (sample_world (Some (sample_experiment true RUNNING))) = (w', Ok s)
      ∧ _experiment (self w') = Some e'
      ∧ status <$> trials e' !! 0 = Some s.
Proof.
  split; [reflexivity|].
  destruct (complete_running_trial
              (sample_world (Some (sample_experiment true RUNNING)))
              (sample_experiment true RUNNING) 0 (sample_trial 0 RUNNING)
              (Some sample_outcome_A) None
              eq_refl eq_refl eq_refl) as (w' & e' & s & H1 & H2 & H3 & _).
  exists w', e', s. auto.
Defined.

(** Section 8 of the spec, on the sample world: completing with only "A"
    attached under the objective "A, B" fails the trial and names "B". *)
Example complete_trial_only_A :
  let r := complete_trial 0 (Some sample_outcome_A) None
             (sample_world (Some (sample_experiment true RUNNING))) in
  r.2 = Ok FAILED ∧ logged r.1 = [MissingMetricsWarning 0 {[ "B" ]}].
Proof. split; by vm_compute. Qed.

Lemma overwrite_metric_resolution_witness :
  ∃ e' warnings,
    _overwrite_metric (sample_metric "A" 1)
      (sample_world (Some (sample_experiment true RUNNING))) =
      ({| self := set_experiment_field (Some e')
                    (self (sample_world (Some (sample_experiment true RUNNING))));
          logged := [] ++ warnings;
          gs_requests := [] |}, Ok ())
    ∧ resolution (sample_metric "A" 1) (sample_experiment true RUNNING)
        e' warnings.
Proof.
  destruct (overwrite_metric_resolution
              (sample_world (Some (sample_experiment true RUNNING)))
              (sample_experiment true RUNNING) (sample_metric "A" 1) eq_refl)
    as (e' & warnings & Hrun & Hres & _).
  exists e', warnings. split; [exact Hrun|exact Hres].
Defined.

(** Section 8 of the spec, on the sample world: resolving a new
    implementation of "A" under the multi-objective over [A; B] replaces the
    slot of A and leaves the slot of B. *)
Example overwrite_metric_multi_A :
  (λ w, objective <$> (_experiment (self w) ≫= optimization_config))
    (_overwrite_metric (sample_metric "A" 1)
       (sample_world (Some (sample_experiment true RUNNING)))).1 =
  Some (MultiObjective
          [ {| _metric := sample_metric "A" 1; minimize := true |};
            {| _metric := sample_metric "B" 0; minimize := false |} ]).
Proof. reflexivity. Qed.

Lemma sample_metric_C_not_in_config :
  not_in_config (sample_metric "C" 1) (sample_experiment true RUNNING).
Proof.
  intros oc [= <-]. unfold objective_names, constraint_names. cbn.
  split; [|apply not_elem_of_nil].
  intros [Hc|[Hc|Hc%elem_of_nil]%elem_of_cons]%elem_of_cons; done.
Defined.

Lemma unknown_metric_becomes_tracking_witness :
  ∃ e',
    _overwrite_metric (sample_metric "C" 1)
      (sample_world (Some (sample_experiment true RUNNING))) =
      ({| self := set_experiment_field (Some e')
                    (self (sample_world (Some (sample_experiment true RUNNING))));
          logged := [MetricAddedAsTrackingWarning (sample_metric "C" 1)];
          gs_requests := [] |}, Ok ())
    ∧ _tracking_metrics e' = {[ "C" := sample_metric "C" 1 ]}
    ∧ optimization_config e' = Some sample_config_AB.
Proof.
  destruct (unknown_metric_becomes_tracking
              (sample_world (Some (sample_experiment true RUNNING)))
              (sample_experiment true RUNNING) (sample_metric "C" 1)
              eq_refl sample_metric_C_not_in_config eq_refl)
    as (e' & Hrun & Htm & Hoc & _).
  exists e'. split; [exact Hrun|]. split; [exact Htm|exact Hoc].
Defined.

(** Section 8 of the spec, on the sample world: with nothing pending at
    first, a call for two trials creates trials 1 and 2, and the call that
    follows sends exactly their parameterizations as pending. *)
Example get_next_trials_twice :
  let w0 := sample_world (Some (sample_experiment true COMPLETED)) in
  let first := get_next_trials 2 None w0 in
  let second := get_next_trials 1 None first.1 in
  first.2 = Ok {[ 1 := {[ "x" := PInt 0 ]}; 2 := {[ "x" := PInt 1 ]} ]}
  ∧ req_pending_observations <$> gs_requests second.1 =
      [ [];
        [ {| of_parameters := {[ "x" := PInt 1 ]} |};
          {| of_parameters := {[ "x" := PInt 0 ]} |} ] ].
Proof. split; by vm_compute. Qed.

Lemma get_next_trials_requires_optimization_config_witness :
  get_next_trials 1 None
    (sample_world (Some (sample_experiment false RUNNING))) =
  (sample_world (Some (sample_experiment false RUNNING)),
   Raise (UnsupportedError
     "OptimizationConfig not set. Please call configure_optimization before generating trials.")).
Proof.
  apply (get_next_trials_requires_optimization_config
           (sample_world (Some (sample_experiment false RUNNING)))
           (sample_experiment false RUNNING) 1 None); reflexivity.
Defined.

Lemma configure_experiment_twice_witness :
  configure_experiment "second"
    (sample_world (Some (sample_experiment false RUNNING))) =
  (sample_world (Some (sample_experiment false RUNNING)),
   Raise (UnsupportedError
     "Experiment already configured. Please create a new Client if you would like a new experiment.")).
Proof.
  apply (configure_experiment_twice
           (sample_world (Some (sample_experiment false RUNNING)))
           (sample_experiment false RUNNING) "second"); reflexivity.
Defined.

Lemma should_stop_trial_early_requires_strategy_witness :
  should_stop_trial_early 0
    (sample_world (Some (sample_experiment true RUNNING))) =
  (sample_world (Some (sample_experiment true RUNNING)),
   Raise (UnsupportedError
     "Early stopping strategy not set. Please set an early stopping strategy before calling should_stop_trial_early.")).
Proof.
  apply (should_stop_trial_early_requires_strategy
           (sample_world (Some (sample_experiment true RUNNING))) 0);
    reflexivity.
Defined.

Lemma attach_baseline_sets_status_quo_witness :
  ∃ w' e',
    attach_baseline {[ "x" := PInt 7 ]} None
      (sample_world (Some (sample_experiment true RUNNING))) =
      (w', Ok (next_index (trials (sample_experiment true RUNNING))))
    ∧ _experiment (self w') = Some e'
    ∧ status_quo e' =
        Some {| arm_name := Some "baseline";
                parameters := {[ "x" := PInt 7 ]} |}.
Proof.
  destruct (attach_baseline_sets_status_quo
              (sample_world (Some (sample_experiment true RUNNING)))
              (sample_experiment true RUNNING) {[ "x" := PInt 7 ]} None
              eq_refl) as (w' & e' & Hrun & He' & _ & _ & Hsq & _).
  exists w', e'. split; [exact Hrun|]. split; [exact He'|exact Hsq].
Defined.

(** On the sample world the baseline becomes trial 1. *)
Example attach_baseline_index :
  (attach_baseline {[ "x" := PInt 7 ]} None
     (sample_world (Some (sample_experiment true RUNNING)))).2 = Ok 1.
Proof. by vm_compute. Qed.

(** * Evaluations for the further properties *)

Lemma unconfigured_client_raises_witness :
  ∃ msg, ∀ i,
    mark_trial_failed i (sample_world None) =
    (sample_world None, Raise (AssertionError msg)).
Proof.
  destruct (unconfigured_client_raises (sample_world None) eq_refl)
    as (msg & _ & _ & _ & _ & _ & Hfailed & _).
  exists msg. exact Hfailed.
Defined.

Lemma unknown_trial_index_raises_witness :
  mark_trial_failed 5 (sample_world (Some (sample_experiment false RUNNING))) =
    (sample_world (Some (sample_experiment false RUNNING)), Raise (KeyError 5))
  ∧ ∀ p, complete_trial 5 None p
           (sample_world (Some (sample_experiment false RUNNING))) =
         (sample_world (Some (sample_experiment false RUNNING)),
          Raise (KeyError 5)).
Proof.
  destruct (unknown_trial_index_raises
              (sample_world (Some (sample_experiment false RUNNING)))
              (sample_experiment false RUNNING) 5 eq_refl eq_refl)
    as (Hfailed & _ & _ & _ & Hcomplete).
  split; [exact Hfailed|exact (Hcomplete eq_refl)].
Defined.

Lemma mark_running_trial_witness :
  current_status
    (mark_trial_failed 0
       (sample_world (Some (sample_experiment true RUNNING)))).1 0
  = Some FAILED.
Proof.
  destruct (mark_running_trial
              (sample_world (Some (sample_experiment true RUNNING)))
              (sample_experiment true RUNNING) 0 (sample_trial 0 RUNNING)
              eq_refl eq_refl eq_refl) as [-> _].
  reflexivity.
Defined.

Lemma mark_trial_early_stopped_attaches_first_witness :
  ∃ w' r t',
    mark_trial_early_stopped 0 sample_outcome_A (Some 3)
      (sample_world (Some (sample_experiment true CANDIDATE))) = (w', r)
    ∧ current_trial w' 0 = Some t'
    ∧ dom (trial_data t') = {[ "A" ]}
    ∧ status t' = CANDIDATE.
Proof.
  destruct (mark_trial_early_stopped_attaches_first
              (sample_world (Some (sample_experiment true CANDIDATE)))
              (sample_experiment true CANDIDATE) 0 (sample_trial 0 CANDIDATE)
              sample_outcome_A (Some 3) eq_refl eq_refl)
    as (w' & r & t' & Hrun & Ht' & Hdata & _ & Hkeep).
  exists w', r, t'. split; [exact Hrun|]. split; [exact Ht'|].
  split; [|by apply Hkeep].
  rewrite Hdata. by vm_compute.
Defined.

Lemma trials_only_move_forward_witness :
  ∃ t',
    current_trial
      (invoke_all sample_calls
         (sample_world (Some (sample_experiment true RUNNING)))) 0 = Some t'
    ∧ index t' = 0
    ∧ (status t' = RUNNING ∨ is_terminal (status t') = true).
Proof.
  destruct (trials_only_move_forward sample_calls
              (sample_world (Some (sample_experiment true RUNNING)))
              0 (sample_trial 0 RUNNING) eq_refl)
    as (t' & Ht' & Hi & _ & _ & Hs & _).
  exists t'. split; [exact Ht'|]. split; [exact Hi|].
  destruct Hs as [Hs|[_ Hs]]; [left; exact Hs|right; exact Hs].
Defined.

(** The sample session leaves trial 0 failed, with the data on "A", and
    abandoning it afterwards has changed nothing. *)
Example sample_session_trial_0 :
  (λ t, (status t, dom (trial_data t))) <$>
    current_trial
      (invoke_all sample_calls
         (sample_world (Some (sample_experiment true RUNNING)))) 0
  = Some (FAILED, {[ "A" ]}).
Proof. by vm_compute. Qed.

Lemma get_next_trials_creates_running_trials_witness :
  ∃ e',
    _experiment
      (self (get_next_trials 2 None
               (sample_world (Some (sample_experiment true RUNNING)))).1)
      = Some e'
    ∧ ∃ t a, trials e' !! 2 = Some t ∧ status t = RUNNING
             ∧ arm t = Some a ∧ parameters a = {[ "x" := PInt 1 ]}.
Proof.
  assert (Hrun :
    get_next_trials 2 None
      (sample_world (Some (sample_experiment true RUNNING))) =
    ((get_next_trials 2 None
        (sample_world (Some (sample_experiment true RUNNING)))).1,
     Ok {[ 1 := {[ "x" := PInt 0 ]}; 2 := {[ "x" := PInt 1 ]} ]}))
    by (vm_compute; reflexivity).
  destruct (get_next_trials_creates_running_trials
              (sample_world (Some (sample_experiment true RUNNING)))
              (sample_experiment true RUNNING) sample_config_AB 2 None
              _ _ eq_refl eq_refl Hrun)
    as (e' & runs & He' & _ & _ & _ & _ & Hnew).
  exists e'. split; [exact He'|].
  assert (Hentry :
    ({[ 1 := {[ "x" := PInt 0 ]}; 2 := {[ "x" := PInt 1 ]} ]}
       : gmap Z (gmap string TParameterValue)) !! 2
    = Some {[ "x" := PInt 1 ]}) by (vm_compute; reflexivity).
  destruct (Hnew 2 {[ "x" := PInt 1 ]} Hentry)
    as (_ & _ & t & a & Ht & _ & Hs & _ & Ha & Hp).
  exists t, a. auto.
Defined.

Lemma generation_strategy_is_chosen_once_witness :
  ∃ gs w1,
    _generation_strategy_or_choose
      (sample_world (Some (sample_experiment true RUNNING))) = (w1, Ok gs)
    ∧ _generation_strategy_or_choose w1 = (w1, Ok gs).
Proof.
  destruct (generation_strategy_is_chosen_once
              (sample_world (Some (sample_experiment true RUNNING)))
              (sample_experiment true RUNNING) eq_refl)
    as (gs & w1 & H1 & _ & _ & H2 & _).
  exists gs, w1. split; [exact H1|exact H2].
Defined.

Lemma get_next_trials_without_proposals_witness :
  (get_next_trials 0 None
     (sample_world (Some (sample_experiment true RUNNING)))).2 = Ok ∅
  ∧ current_trial
      (get_next_trials 0 None
         (sample_world (Some (sample_experiment true RUNNING)))).1 1 = None.
Proof.
  destruct (get_next_trials_without_proposals
              (sample_world (Some (sample_experiment true RUNNING)))
              (sample_experiment true RUNNING) sample_config_AB 0 None
              eq_refl eq_refl) as (_ & _ & Hempty & _).
  rewrite (Hempty eq_refl). split; reflexivity.
Defined.

Lemma configure_metrics_keeps_names_witness :
  ∃ e' warnings,
    configure_metrics [sample_metric "A" 1; sample_metric "C" 1]
      (sample_world (Some (sample_experiment true RUNNING))) =
      ({| self := set_experiment_field (Some e')
                    (self (sample_world (Some (sample_experiment true RUNNING))));
          logged := [] ++ warnings;
          gs_requests := [] |}, Ok ())
    ∧ config_names e' = Some (["A"; "B"], [])
    ∧ known_name "C" e'.
Proof.
  destruct (configure_metrics_keeps_names
              [sample_metric "A" 1; sample_metric "C" 1]
              (sample_world (Some (sample_experiment true RUNNING)))
              (sample_experiment true RUNNING) eq_refl)
    as (e' & warnings & Hrun & _ & _ & Hnames & _ & _ & Hknown & _).
  exists e', warnings. split; [exact Hrun|]. split; [exact Hnames|].
  apply (Hknown (sample_metric "C" 1)). right. left.
Defined.

Lemma overwrite_metric_registers_witness :
  ∃ w' e',
    _overwrite_metric (sample_metric "B" 2)
      (sample_world (Some (sample_experiment true RUNNING))) = (w', Ok ())
    ∧ _experiment (self w') = Some e'
    ∧ registered_metric (sample_metric "B" 2) e'.
Proof.
  exact (overwrite_metric_registers
           (sample_world (Some (sample_experiment true RUNNING)))
           (sample_experiment true RUNNING) (sample_metric "B" 2) eq_refl).
Defined.

Lemma overwrite_metric_twice_witness :
  ∃ w1,
    _overwrite_metric (sample_metric "C" 1)
      (sample_world (Some (sample_experiment true RUNNING))) = (w1, Ok ())
    ∧ _overwrite_metric (sample_metric "C" 1) w1 = (w1, Ok ()).
Proof.
  exact (overwrite_metric_twice
           (sample_world (Some (sample_experiment true RUNNING)))
           (sample_experiment true RUNNING) (sample_metric "C" 1) eq_refl).
Defined.

Lemma attach_trial_registers_running_trial_witness :
  ∃ w' e',
    attach_trial {[ "x" := PInt 5 ]} (Some "")
      (sample_world (Some (sample_experiment true RUNNING))) = (w', Ok 1)
    ∧ _experiment (self w') = Some e'
    ∧ (arm <$> trials e' !! 1) =
        Some (Some {| arm_name := None; parameters := {[ "x" := PInt 5 ]} |}).
Proof.
  destruct (attach_trial_registers_running_trial
              (sample_world (Some (sample_experiment true RUNNING)))
              (sample_experiment true RUNNING) {[ "x" := PInt 5 ]} (Some "")
              eq_refl)
    as (w' & e' & Hrun & He' & _ & Htrials & _).
  exists w', e'. split; [exact Hrun|]. split; [exact He'|].
  rewrite Htrials. reflexivity.
Defined.

Lemma should_stop_trial_early_asks_strategy_witness :
  should_stop_trial_early 0 sample_world_stopping
    = (sample_world_stopping, Ok true)
  ∧ should_stop_trial_early 1 sample_world_stopping
    = (sample_world_stopping, Ok false).
Proof.
  destruct (should_stop_trial_early_asks_strategy sample_world_stopping
              {[ 0 ]} 0 eq_refl) as (Hw0 & Hr0 & _).
  destruct (should_stop_trial_early_asks_strategy sample_world_stopping
              {[ 0 ]} 1 eq_refl) as (Hw1 & Hr1 & _).
  split.
  - destruct (should_stop_trial_early 0 sample_world_stopping) as [w r].
    cbn in Hw0, Hr0. subst w r. reflexivity.
  - destruct (should_stop_trial_early 1 sample_world_stopping) as [w r].
    cbn in Hw1, Hr1. subst w r. reflexivity.
Defined.

Lemma configure_experiment_once_witness :
  configure_experiment "first" (sample_world None) =
  (sample_world (Some sample_empty_experiment), Ok ()).
Proof.
  destruct (configure_experiment_once (sample_world None) "first" eq_refl)
    as [Hrun _].
  exact Hrun.
Defined.

Lemma compute_analyses_one_card_each_witness :
  (compute_analyses
     (Some [sample_analysis true; sample_analysis false; sample_analysis true])
     (sample_world (Some (sample_experiment true RUNNING)))).2 =
  Ok [sample_card "card"; sample_card "failed: no data"; sample_card "card"].
Proof.
  destruct (compute_analyses_one_card_each
              (sample_world (Some (sample_experiment true RUNNING)))
              (sample_experiment true RUNNING)
              (Some [sample_analysis true; sample_analysis false;
                     sample_analysis true])
              eq_refl) as [-> _].
  reflexivity.
Defined.

Lemma complete_terminal_trial_witness :
  complete_trial 0 None None
    (sample_world (Some (sample_experiment true ABANDONED))) =
  ({| self := self (sample_world (Some (sample_experiment true ABANDONED)));
      logged := [MissingMetricsWarning 0 {[ "A"; "B" ]};
                 TerminalTrialWarning 0 ABANDONED FAILED];
      gs_requests := [] |}, Ok ABANDONED).
Proof.
  rewrite (complete_terminal_trial
             (sample_world (Some (sample_experiment true ABANDONED)))
             (sample_experiment true ABANDONED) 0 (sample_trial 0 ABANDONED)
             None eq_refl eq_refl eq_refl).
  by vm_compute.
Defined.


(** * Evaluations with the counting strategy *)

(** With the counting strategy, on the sample world that has trial 0
    running: the first call hands over one pending observation and returns
    trials 1 and 2; the call that follows hands over three, those of trials
    0, 1 and 2. *)
Lemma get_next_trials_pending_observations_witness :
  ∃ w' created,
    get_next_trials (Col := sample_counting_collaborators) 2 None
      (sample_world (Some (sample_experiment true RUNNING)))
      = (w', Ok created)
    ∧ _generation_strategy (self w') = Some 1%nat
    ∧ ∃ w'' r2,
        get_next_trials (Col := sample_counting_collaborators) 1 None w'
          = (w'', r2)
        ∧ _generation_strategy (self w'') = Some 4%nat.
Proof.
  destruct (get_next_trials_pending_observations
              (Col := sample_counting_collaborators)
              (sample_world (Some (sample_experiment true RUNNING)))
              (sample_experiment true RUNNING) sample_config_AB 2 None
              eq_refl eq_refl)
    as (w' & r & Hrun & Hgs & _ & _ & _ & _ & Hsecond).
  assert (Hr :
    (get_next_trials (Col := sample_counting_collaborators) 2 None
       (sample_world (Some (sample_experiment true RUNNING)))).2
    = Ok {[ 1 := {[ "x" := PInt 0 ]}; 2 := {[ "x" := PInt 1 ]} ]})
    by (vm_compute; reflexivity).
  rewrite Hrun in Hr. cbn [snd] in Hr. subst r.
  exists w', {[ 1 := {[ "x" := PInt 0 ]}; 2 := {[ "x" := PInt 1 ]} ]}.
  split; [exact Hrun|]. split; [exact Hgs|].
  destruct (Hsecond _ eq_refl) as (e' & He' & Hperm & _ & Hnext).
  destruct (Hnext 1 None) as (w'' & r2 & Hrun2 & Hgs2 & _).
  exists w'', r2. split; [exact Hrun2|].
  rewrite Hgs2. cbn [gen_for_multiple_trials_with_multiple_models
                      sample_counting_collaborators fst].
  apply Permutation_length in Hperm. rewrite Hperm.
  reflexivity.
Defined.

(** The same two calls, evaluated: the strategy has counted 1 + 3 pending
    observations. *)
Example get_next_trials_twice_counted :
  _generation_strategy
    (self (get_next_trials (Col := sample_counting_collaborators) 1 None
             (get_next_trials (Col := sample_counting_collaborators) 2 None
                (sample_world (Some (sample_experiment true RUNNING)))).1).1)
  = Some 4%nat.
Proof. by vm_compute. Qed.
